(** * cps-growth-copilot: item funnels, retention, repurchase and lifecycle segments

    A shallow embedding of the DuckDB queries run by
    [app/api/scripts/build_item_funnel_features.py] and [app/api/merchant.py],
    and of the Python code around them.

    Relations are lists of rows.  [GROUP BY] is "the distinct keys, and for
    each key an aggregate over the rows that carry it"; SQL truth values are
    three-valued; a failing conversion aborts the statement that evaluates
    it.  The primitives of the database engine that the queries call on
    strings (reading an integer or a timestamp literal, [try_strptime],
    [LOWER]) are an interface, [Engine]; the theorems hold for every engine,
    and [duck] is a concrete one used to evaluate examples. *)

From Stdlib Require Import ZArith List String Ascii Bool Lia QArith DecimalString.
From Stdlib Require Import Permutation Sorted Lqa.
Import ListNotations.
Local Open Scope string_scope.
Local Open Scope Z_scope.

(** ** SQL values, truth values and errors *)

Module Sql.

(** A cell of the user, item or behaviour column: [NULL], an integer or a
    [VARCHAR]. *)
Inductive sqlval : Type :=
| VNull
| VInt (z : Z)
| VStr (s : string).

(** A cell of the time column: [NULL], an integer (epoch seconds), a
    [VARCHAR], or a native [TIMESTAMP], held as whole seconds since the
    epoch. *)
Inductive tsval : Type :=
| TNull
| TInt (z : Z)
| TStr (s : string)
| TStamp (t : Z).

(** One row of the behaviour table, by the role of its columns. *)
Record raw_row : Type := {
  r_user : sqlval;
  r_item : sqlval;
  r_action : sqlval;
  r_ts : tsval
}.

(** Three-valued logic: [None] is SQL's unknown. *)
Definition tv : Type := option bool.

Definition is_not_null {A : Type} (x : option A) : tv :=
  match x with Some _ => Some true | None => Some false end.

Definition sql_and (a b : tv) : tv :=
  match a, b with
  | Some false, _ => Some false
  | _, Some false => Some false
  | Some true, Some true => Some true
  | _, _ => None
  end.

Definition sql_or (a b : tv) : tv :=
  match a, b with
  | Some true, _ => Some true
  | _, Some true => Some true
  | Some false, Some false => Some false
  | _, _ => None
  end.

Definition sql_cmp (f : Z -> Z -> bool) (a b : option Z) : tv :=
  match a, b with
  | Some x, Some y => Some (f x y)
  | _, _ => None
  end.

Definition sql_ge : option Z -> option Z -> tv := sql_cmp Z.geb.
Definition sql_gt : option Z -> option Z -> tv := sql_cmp Z.gtb.
Definition sql_le : option Z -> option Z -> tv := sql_cmp Z.leb.
Definition sql_lt : option Z -> option Z -> tv := sql_cmp Z.ltb.
Definition sql_eqz : option Z -> option Z -> tv := sql_cmp Z.eqb.

Definition sql_eqs (a : option string) (b : string) : tv :=
  match a with Some x => Some (String.eqb x b) | None => None end.

(** [WHERE c] and [CASE WHEN c THEN .. ELSE ..] take the branch only when
    [c] is true; unknown counts as not true. *)
Definition holds (c : tv) : bool :=
  match c with Some true => true | _ => false end.

(** [x IN (l)] on a nullable string. *)
Definition sql_in (a : option string) (l : list string) : tv :=
  match a with
  | Some x => Some (existsb (String.eqb x) l)
  | None => None
  end.

(** [MIN] and [MAX] skip NULLs and are NULL when nothing is left. *)
Definition opt_min (a b : option Z) : option Z :=
  match a, b with
  | Some x, Some y => Some (Z.min x y)
  | Some x, None => Some x
  | None, _ => b
  end.

Definition opt_max (a b : option Z) : option Z :=
  match a, b with
  | Some x, Some y => Some (Z.max x y)
  | Some x, None => Some x
  | None, _ => b
  end.

Definition sql_min (l : list (option Z)) : option Z := fold_right opt_min None l.
Definition sql_max (l : list (option Z)) : option Z := fold_right opt_max None l.

(** [SUM(CASE WHEN c THEN 1 ELSE 0 END)] over the rows of a group that is
    not empty. *)
Definition sum_case {A : Type} (c : A -> tv) (g : list A) : Z :=
  fold_right (fun r acc => (if holds (c r) then 1 else 0) + acc) 0 g.

(** The same aggregate where the input may be empty: [SUM] of no row is
    NULL. *)
Definition sum_case_nullable {A : Type} (c : A -> tv) (g : list A) : option Z :=
  match g with
  | [] => None
  | _ => Some (sum_case c g)
  end.

Definition count_star {A : Type} (g : list A) : Z := Z.of_nat (List.length g).

(** [CAST(n AS DOUBLE) / NULLIF(d, 0)].  The quotient is kept exact; the
    DOUBLE of the engine is its rounding. *)
Definition div_nullif (n d : Z) : option Q :=
  if d =? 0 then None else Some (n # Z.to_pos d)%Q.

(** The distinct values of a column, in order of first appearance. *)
Fixpoint distinct {A : Type} (eqb : A -> A -> bool) (l : list A) : list A :=
  match l with
  | [] => []
  | x :: t => x :: filter (fun y => negb (eqb x y)) (distinct eqb t)
  end.

(** Grouping equality: NULL groups with NULL. *)
Definition sqlval_eqb (a b : sqlval) : bool :=
  match a, b with
  | VNull, VNull => true
  | VInt x, VInt y => x =? y
  | VStr x, VStr y => String.eqb x y
  | _, _ => false
  end.

Definition optZ_eqb (a b : option Z) : bool :=
  match a, b with
  | Some x, Some y => x =? y
  | None, None => true
  | _, _ => false
  end.

(** Join equality [a = b]: unknown as soon as one side is NULL. *)
Definition sql_eqv (a b : sqlval) : tv :=
  match a, b with
  | VNull, _ => None
  | _, VNull => None
  | _, _ => Some (sqlval_eqb a b)
  end.

Definition val_not_null (v : sqlval) : bool :=
  match v with VNull => false | _ => true end.

Definition ts_not_null (v : tsval) : bool :=
  match v with TNull => false | _ => true end.

(** What aborts a statement, or the Python code around it. *)
Inductive error : Type :=
| ConversionError
| CatalogError
| BinderError
| TypeError.

Inductive result (A : Type) : Type :=
| Ok (a : A)
| Raise (e : error).

Arguments Ok {A} a.
Arguments Raise {A} e.

Definition bind {A B : Type} (m : result A) (k : A -> result B) : result B :=
  match m with
  | Ok a => k a
  | Raise e => Raise e
  end.

(** Evaluate a projection on every row; the first failing row aborts. *)
Fixpoint project {A B : Type} (f : A -> result B) (l : list A) : result (list B) :=
  match l with
  | [] => Ok []
  | x :: t =>
      bind (f x) (fun y => bind (project f t) (fun ys => Ok (y :: ys)))
  end.

Definition in_int32 (z : Z) : bool := (- 2 ^ 31 <=? z) && (z <? 2 ^ 31).
Definition in_int64 (z : Z) : bool := (- 2 ^ 63 <=? z) && (z <? 2 ^ 63).

Definition Z_to_string (z : Z) : string := NilZero.string_of_int (Z.to_int z).

(** [CAST(v AS VARCHAR)]. *)
Definition cast_varchar (v : sqlval) : option string :=
  match v with
  | VNull => None
  | VInt z => Some (Z_to_string z)
  | VStr s => Some s
  end.

Definition seconds_per_day : Z := 86400.

(** [date(t)] as a day number (days since the epoch). *)
Definition date (t : Z) : Z := t / seconds_per_day.

End Sql.

Export Sql.

Notation "x <- m ;; k" := (bind m (fun x => k))
  (at level 61, m at next level, right associativity).

(** ** The engine's string primitives *)

Class Engine : Type := {
  (** reading an integer literal out of a VARCHAR; [None] when it is not one *)
  parse_integer : string -> option Z;
  (** reading a VARCHAR as a TIMESTAMP (seconds since the epoch) *)
  parse_timestamp : string -> option Z;
  (** [try_strptime(text, format)] *)
  try_strptime : string -> string -> option Z;
  (** [LOWER] *)
  lower : string -> string
}.

(** What the queries below rely on: the four labels are not integer
    literals, and they are already lower case. *)
Definition labels : list string := ["pv"; "fav"; "cart"; "buy"].

Class EngineLaws (E : Engine) : Prop := {
  labels_not_integers : forall l, In l labels -> parse_integer l = None;
  labels_lower : forall l, In l labels -> lower l = l
}.

(** ** The funnel builder: [build_item_funnel_features.py] *)

Module Funnel.

Section WithEngine.
Context {E : Engine}.

(** [TRY_CAST(v AS INTEGER)]: NULL instead of an error. *)
Definition try_cast_integer (v : sqlval) : option Z :=
  match v with
  | VNull => None
  | VInt z => if in_int32 z then Some z else None
  | VStr s =>
      match parse_integer s with
      | Some z => if in_int32 z then Some z else None
      | None => None
      end
  end.

(** [CAST(v AS BIGINT)]: an error when the value does not convert. *)
Definition cast_bigint (v : sqlval) : result (option Z) :=
  match v with
  | VNull => Ok None
  | VInt z => if in_int64 z then Ok (Some z) else Raise ConversionError
  | VStr s =>
      match parse_integer s with
      | Some z => if in_int64 z then Ok (Some z) else Raise ConversionError
      | None => Raise ConversionError
      end
  end.

(** [TRY_CAST(ts_col AS BIGINT)]; a native TIMESTAMP has no integer cast and
    gives NULL. *)
Definition try_cast_bigint_ts (v : tsval) : option Z :=
  match v with
  | TNull => None
  | TInt z => if in_int64 z then Some z else None
  | TStr s =>
      match parse_integer s with
      | Some z => if in_int64 z then Some z else None
      | None => None
      end
  | TStamp _ => None
  end.

(** [CAST(EPOCH(CAST(ts_col AS TIMESTAMP)) AS BIGINT)]: the inner cast is
    not a [TRY_CAST]. *)
Definition cast_epoch_ts (v : tsval) : result (option Z) :=
  match v with
  | TNull => Ok None
  | TInt _ => Raise ConversionError
  | TStr s =>
      match parse_timestamp s with
      | Some t => Ok (Some t)
      | None => Raise ConversionError
      end
  | TStamp t => Ok (Some t)
  end.

(** A row of the view [ub_norm]. *)
Record norm_row : Type := {
  user_id : option Z;
  item_id : option Z;
  action : option string;
  ts : option Z
}.

(** The [action] column of [ub_norm] (lines 60-71). *)
Definition ub_norm_action (v : sqlval) : option string :=
  match try_cast_integer v with
  | Some n =>
      if n =? 1 then Some "pv"
      else if n =? 2 then Some "fav"
      else if n =? 3 then Some "cart"
      else if n =? 4 then Some "buy"
      else None
  | None => option_map lower (cast_varchar v)
  end.

(** The [ts] column of [ub_norm] (lines 74-77). *)
Definition ub_norm_ts (v : tsval) : result (option Z) :=
  match try_cast_bigint_ts v with
  | Some z => Ok (Some z)
  | None => cast_epoch_ts v
  end.

(** The [WHERE] clause of [ub_norm] (lines 80-83). *)
Definition ub_norm_where (r : raw_row) : bool :=
  val_not_null (r_user r) && val_not_null (r_item r)
  && val_not_null (r_action r) && ts_not_null (r_ts r).

Definition ub_norm_row (r : raw_row) : result norm_row :=
  u <- cast_bigint (r_user r) ;;
  i <- cast_bigint (r_item r) ;;
  t <- ub_norm_ts (r_ts r) ;;
  Ok {| user_id := u; item_id := i; action := ub_norm_action (r_action r); ts := t |}.

(** The view [ub_norm] over the source table, evaluated by the statement
    that reads it: every row the [WHERE] keeps is projected, and a cast that
    fails on one of them aborts that statement. *)
Definition ub_norm (source : list raw_row) : result (list norm_row) :=
  project ub_norm_row (filter ub_norm_where source).

(** A row of [user_item_stage]: the earliest time of each action for one
    (user, item). *)
Record stage_row : Type := {
  s_user : option Z;
  s_item : option Z;
  pv_ts : option Z;
  fav_ts : option Z;
  cart_ts : option Z;
  buy_ts : option Z
}.

Definition stage_where (n : norm_row) : bool :=
  holds (sql_and (sql_in (action n) labels) (is_not_null (ts n))).

Definition pair_eqb (a b : option Z * option Z) : bool :=
  optZ_eqb (fst a) (fst b) && optZ_eqb (snd a) (snd b).

Definition stage_key (n : norm_row) : option Z * option Z := (user_id n, item_id n).

(** [MIN(CASE WHEN action = a THEN ts END)] over a group. *)
Definition min_ts_of (a : string) (g : list norm_row) : option Z :=
  sql_min (map (fun n => if holds (sql_eqs (action n) a) then ts n else None) g).

Definition stage_of_group (k : option Z * option Z) (g : list norm_row) : stage_row :=
  {| s_user := fst k; s_item := snd k;
     pv_ts := min_ts_of "pv" g;
     fav_ts := min_ts_of "fav" g;
     cart_ts := min_ts_of "cart" g;
     buy_ts := min_ts_of "buy" g |}.

(** The query behind [CREATE TEMP TABLE user_item_stage] (lines 91-103). *)
Definition user_item_stage_of (ns : list norm_row) : list stage_row :=
  let kept := filter stage_where ns in
  map (fun k => stage_of_group k (filter (fun n => pair_eqb (stage_key n) k) kept))
      (distinct pair_eqb (map stage_key kept)).

End WithEngine.

(** The stage predicates of [_select_sql] (lines 111-128). *)
Record stage_preds : Type := {
  fav_ok : stage_row -> tv;
  cart_ok : stage_row -> tv;
  buy_ok : stage_row -> tv;
  fav_cart_ok : stage_row -> tv;
  cart_buy_ok : stage_row -> tv
}.

Definition nn (x : option Z) : tv := is_not_null x.

Notation "a 'AND' b" := (sql_and a b) (at level 42, left associativity).

Definition loose_preds : stage_preds := {|
  fav_ok := fun s => nn (pv_ts s) AND nn (fav_ts s) AND sql_ge (fav_ts s) (pv_ts s);
  cart_ok := fun s => nn (pv_ts s) AND nn (cart_ts s) AND sql_ge (cart_ts s) (pv_ts s);
  buy_ok := fun s => nn (pv_ts s) AND nn (buy_ts s) AND sql_ge (buy_ts s) (pv_ts s);
  fav_cart_ok := fun s => nn (fav_ts s) AND nn (cart_ts s) AND sql_ge (cart_ts s) (fav_ts s);
  cart_buy_ok := fun s => nn (cart_ts s) AND nn (buy_ts s) AND sql_ge (buy_ts s) (cart_ts s)
|}.

Definition strict_preds : stage_preds := {|
  fav_ok := fun s => nn (pv_ts s) AND nn (fav_ts s) AND sql_gt (fav_ts s) (pv_ts s);
  cart_ok := fun s =>
    nn (pv_ts s) AND nn (fav_ts s) AND nn (cart_ts s)
    AND sql_gt (fav_ts s) (pv_ts s) AND sql_gt (cart_ts s) (fav_ts s);
  buy_ok := fun s =>
    nn (pv_ts s) AND nn (fav_ts s) AND nn (cart_ts s) AND nn (buy_ts s)
    AND sql_gt (fav_ts s) (pv_ts s) AND sql_gt (cart_ts s) (fav_ts s)
    AND sql_gt (buy_ts s) (cart_ts s);
  fav_cart_ok := fun s => nn (fav_ts s) AND nn (cart_ts s) AND sql_gt (cart_ts s) (fav_ts s);
  cart_buy_ok := fun s => nn (cart_ts s) AND nn (buy_ts s) AND sql_gt (buy_ts s) (cart_ts s)
|}.

Definition preds_of (strict : Z) : stage_preds :=
  if strict =? 0 then loose_preds else strict_preds.

Definition pv_seen (s : stage_row) : tv := nn (pv_ts s).

(** A row of [item_funnel_features_loose] / [_strict]. *)
Record feature_row : Type := {
  f_item_id : option Z;
  pv : Z;
  fav : Z;
  cart : Z;
  buy : Z;
  pv_count : Z;
  fav_count : Z;
  cart_count : Z;
  buy_count : Z;
  pv_to_fav_rate : option Q;
  pv_to_cart_rate : option Q;
  pv_to_buy_rate : option Q;
  fav_to_cart_rate : option Q;
  cart_to_buy_rate : option Q
}.

Definition feature_of_group (p : stage_preds) (it : option Z) (g : list stage_row) : feature_row :=
  {| f_item_id := it;
     pv := sum_case pv_seen g;
     fav := sum_case (fav_ok p) g;
     cart := sum_case (cart_ok p) g;
     buy := sum_case (buy_ok p) g;
     pv_count := sum_case pv_seen g;
     fav_count := sum_case (fav_ok p) g;
     cart_count := sum_case (cart_ok p) g;
     buy_count := sum_case (buy_ok p) g;
     pv_to_fav_rate := div_nullif (sum_case (fav_ok p) g) (sum_case pv_seen g);
     pv_to_cart_rate := div_nullif (sum_case (cart_ok p) g) (sum_case pv_seen g);
     pv_to_buy_rate := div_nullif (sum_case (buy_ok p) g) (sum_case pv_seen g);
     fav_to_cart_rate := div_nullif (sum_case (fav_cart_ok p) g) (sum_case (fav_ok p) g);
     cart_to_buy_rate := div_nullif (sum_case (cart_buy_ok p) g) (sum_case (cart_ok p) g) |}.

(** The query that [_select_sql strict] returns, run on [user_item_stage]
    (lines 130-155). *)
Definition _select_sql (strict : Z) (stage : list stage_row) : list feature_row :=
  map (fun it => feature_of_group (preds_of strict) it
                   (filter (fun s => optZ_eqb (s_item s) it) stage))
      (distinct optZ_eqb (map s_item stage)).

(** The objects the builder leaves in the database.  A view is held as
    "it exists"; both compatibility views select from
    [item_funnel_features_loose]. *)
Record db : Type := {
  source_table : list raw_row;
  user_item_stage : option (list stage_row);
  item_funnel_features_loose : option (list feature_row);
  item_funnel_features_strict : option (list feature_row);
  item_funnel_features : bool;
  item_funnel_features_default : bool;
  item_funnel_features_both : bool
}.

Definition fresh_db (source : list raw_row) : db :=
  {| source_table := source; user_item_stage := None;
     item_funnel_features_loose := None; item_funnel_features_strict := None;
     item_funnel_features := false; item_funnel_features_default := false;
     item_funnel_features_both := false |}.

Definition set_stage (d : db) (x : option (list stage_row)) : db :=
  {| source_table := source_table d; user_item_stage := x;
     item_funnel_features_loose := item_funnel_features_loose d;
     item_funnel_features_strict := item_funnel_features_strict d;
     item_funnel_features := item_funnel_features d;
     item_funnel_features_default := item_funnel_features_default d;
     item_funnel_features_both := item_funnel_features_both d |}.

Definition set_loose (d : db) (x : option (list feature_row)) : db :=
  {| source_table := source_table d; user_item_stage := user_item_stage d;
     item_funnel_features_loose := x;
     item_funnel_features_strict := item_funnel_features_strict d;
     item_funnel_features := item_funnel_features d;
     item_funnel_features_default := item_funnel_features_default d;
     item_funnel_features_both := item_funnel_features_both d |}.

Definition set_strict (d : db) (x : option (list feature_row)) : db :=
  {| source_table := source_table d; user_item_stage := user_item_stage d;
     item_funnel_features_loose := item_funnel_features_loose d;
     item_funnel_features_strict := x;
     item_funnel_features := item_funnel_features d;
     item_funnel_features_default := item_funnel_features_default d;
     item_funnel_features_both := item_funnel_features_both d |}.

Definition set_views (d : db) (v vd vb : bool) : db :=
  {| source_table := source_table d; user_item_stage := user_item_stage d;
     item_funnel_features_loose := item_funnel_features_loose d;
     item_funnel_features_strict := item_funnel_features_strict d;
     item_funnel_features := v;
     item_funnel_features_default := vd;
     item_funnel_features_both := vb |}.

(** A statement run through [con.execute]: the database after it, and
    whether it raised.  A statement that raises ends the builder; what the
    statements before it did stays. *)
Definition exec (A : Type) : Type := db -> db * result A.

Definition ret {A : Type} (a : A) : exec A := fun d => (d, Ok a).

Definition seq {A B : Type} (m : exec A) (k : A -> exec B) : exec B :=
  fun d => match m d with
           | (d', Ok a) => k a d'
           | (d', Raise e) => (d', Raise e)
           end.

Notation "m 'THEN' k" := (seq m (fun _ => k)) (at level 62, right associativity).

Definition when (b : bool) (m : exec unit) : exec unit :=
  if b then m else ret tt.

Definition mode_in (mode : string) (l : list string) : bool :=
  existsb (String.eqb mode) l.

Section Build.
Context {E : Engine}.

(** [DROP TABLE IF EXISTS user_item_stage], then the [CREATE TEMP TABLE]. *)
Definition create_user_item_stage : exec unit :=
  fun d =>
    let d0 := set_stage d None in
    match ub_norm (source_table d0) with
    | Ok ns => (set_stage d0 (Some (user_item_stage_of ns)), Ok tt)
    | Raise e => (d0, Raise e)
    end.

Definition create_features (strict : Z) : exec unit :=
  fun d =>
    let put := if strict =? 0 then set_loose else set_strict in
    let d0 := put d None in
    match user_item_stage d0 with
    | Some st => (put d0 (Some (_select_sql strict st)), Ok tt)
    | None => (d0, Raise CatalogError)
    end.

(** Step 4: drop both compatibility views, then create each over
    [item_funnel_features_loose], which has to exist. *)
Definition create_default_views : exec unit :=
  fun d =>
    let d0 := set_views d false false (item_funnel_features_both d) in
    match item_funnel_features_loose d0 with
    | Some _ => (set_views d0 true true (item_funnel_features_both d0), Ok tt)
    | None => (d0, Raise CatalogError)
    end.

(** Step 5: drop [item_funnel_features_both], and create it for mode
    [both]. *)
Definition create_both_view (mode : string) : exec unit :=
  fun d =>
    let d0 := set_views d (item_funnel_features d) (item_funnel_features_default d) false in
    if String.eqb mode "both" then
      match item_funnel_features_loose d0, item_funnel_features_strict d0 with
      | Some _, Some _ =>
          (set_views d0 (item_funnel_features d0) (item_funnel_features_default d0) true, Ok tt)
      | _, _ => (d0, Raise CatalogError)
      end
    else (d0, Ok tt).

Definition build_item_funnel_features (mode : string) : exec unit :=
  create_user_item_stage THEN
  when (mode_in mode ["both"; "nonstrict"]) (create_features 0) THEN
  when (mode_in mode ["both"; "strict"]) (create_features 1) THEN
  create_default_views THEN
  create_both_view mode.

(** The rows the builder produces for one ordering mode, from the source
    table alone: what [item_funnel_features_loose] ([strict = 0]) or
    [item_funnel_features_strict] holds after a run that reaches it. *)
Definition funnel_rows (strict : Z) (source : list raw_row) : result (list feature_row) :=
  ns <- ub_norm source ;;
  Ok (_select_sql strict (user_item_stage_of ns)).

End Build.

End Funnel.

(** ** A concrete engine

    Plain readings of the literals the program meets: decimal integers with
    an optional sign and surrounding blanks, [YYYY-MM-DD] dates with an
    optional [HH:MM:SS] time, the three [strptime] formats of [_ts_expr], and
    ASCII lower-casing. *)

Module Duck.

Definition is_digit (c : ascii) : bool :=
  let n := N_of_ascii c in ((48 <=? n) && (n <=? 57))%N.

Definition digit_val (c : ascii) : Z := Z.of_N (N_of_ascii c) - 48.

Fixpoint digits_value (acc : Z) (s : string) : option Z :=
  match s with
  | EmptyString => Some acc
  | String c s' => if is_digit c then digits_value (10 * acc + digit_val c) s' else None
  end.

Definition unsigned_literal (s : string) : option Z :=
  match s with
  | EmptyString => None
  | _ => digits_value 0 s
  end.

Fixpoint lstrip (p : ascii -> bool) (s : string) : string :=
  match s with
  | EmptyString => EmptyString
  | String c s' => if p c then lstrip p s' else s
  end.

Fixpoint rstrip (p : ascii -> bool) (s : string) : string :=
  match s with
  | EmptyString => EmptyString
  | String c s' =>
      match rstrip p s' with
      | EmptyString => if p c then EmptyString else String c EmptyString
      | r => String c r
      end
  end.

Definition strip_with (p : ascii -> bool) (s : string) : string := rstrip p (lstrip p s).

(** Blank, tab, line feed, vertical tab, form feed, carriage return. *)
Definition is_blank (c : ascii) : bool :=
  let n := N_of_ascii c in ((n =? 32) || ((9 <=? n) && (n <=? 13)))%N.

Definition parse_integer (s : string) : option Z :=
  match strip_with is_blank s with
  | String "-" r => option_map Z.opp (unsigned_literal r)
  | String "+" r => unsigned_literal r
  | t => unsigned_literal t
  end.

Definition lower_ascii (c : ascii) : ascii :=
  let n := N_of_ascii c in
  if ((65 <=? n) && (n <=? 90))%N then ascii_of_N (n + 32) else c.

Fixpoint lower (s : string) : string :=
  match s with
  | EmptyString => EmptyString
  | String c s' => String (lower_ascii c) (lower s')
  end.

(** The proleptic Gregorian day number of a civil date. *)
Definition days_from_civil (y m d : Z) : Z :=
  let y' := if m <=? 2 then y - 1 else y in
  let era := y' / 400 in
  let yoe := y' - era * 400 in
  let mp := if m >? 2 then m - 3 else m + 9 in
  let doy := (153 * mp + 2) / 5 + d - 1 in
  let doe := yoe * 365 + yoe / 4 - yoe / 100 + doy in
  era * 146097 + doe - 719468.

Definition is_leap (y : Z) : bool :=
  ((y mod 4 =? 0) && negb (y mod 100 =? 0)) || (y mod 400 =? 0).

Definition days_in_month (y m : Z) : Z :=
  if m =? 2 then (if is_leap y then 29 else 28)
  else if (m =? 4) || (m =? 6) || (m =? 9) || (m =? 11) then 30
  else 31.

Fixpoint span_digits (s : string) : string * string :=
  match s with
  | EmptyString => (EmptyString, EmptyString)
  | String c s' =>
      if is_digit c
      then let (d, r) := span_digits s' in (String c d, r)
      else (EmptyString, s)
  end.

Definition read_number (s : string) : option (Z * string) :=
  let (d, r) := span_digits s in
  match unsigned_literal d with
  | Some z => Some (z, r)
  | None => None
  end.

Definition expect (c : ascii) (s : string) : option string :=
  match s with
  | String c' s' => if Ascii.eqb c c' then Some s' else None
  | EmptyString => None
  end.

Definition obind {A B : Type} (m : option A) (k : A -> option B) : option B :=
  match m with Some a => k a | None => None end.

Notation "' p <- m ; k" := (obind m (fun p => k))
  (at level 61, p pattern, m at next level, right associativity).

(** [%Y-%m-%d]: the day number, and what follows. *)
Definition read_date (s : string) : option (Z * string) :=
  ' (y, s1) <- read_number s ;
  ' s2 <- expect "-" s1 ;
  ' (m, s3) <- read_number s2 ;
  ' s4 <- expect "-" s3 ;
  ' (d, s5) <- read_number s4 ;
  if (1 <=? m) && (m <=? 12) && (1 <=? d) && (d <=? days_in_month y m)
  then Some (days_from_civil y m d, s5)
  else None.

Definition read_below (bound : Z) (s : string) : option (Z * string) :=
  ' (v, r) <- read_number s ;
  if v <? bound then Some (v, r) else None.

Definition at_end (s : string) (t : Z) : option Z :=
  match s with EmptyString => Some t | _ => None end.

(** [%Y-%m-%d] *)
Definition strptime_date (s : string) : option Z :=
  ' (dn, r) <- read_date s ;
  at_end r (dn * seconds_per_day).

(** [%Y-%m-%d %H] *)
Definition strptime_date_hour (s : string) : option Z :=
  ' (dn, s1) <- read_date s ;
  ' s2 <- expect " " s1 ;
  ' (h, s3) <- read_below 24 s2 ;
  at_end s3 (dn * seconds_per_day + h * 3600).

(** [%Y-%m-%d %H:%M:%S] *)
Definition strptime_date_time (s : string) : option Z :=
  ' (dn, s1) <- read_date s ;
  ' s2 <- expect " " s1 ;
  ' (h, s3) <- read_below 24 s2 ;
  ' s4 <- expect ":" s3 ;
  ' (mi, s5) <- read_below 60 s4 ;
  ' s6 <- expect ":" s5 ;
  ' (se, s7) <- read_below 60 s6 ;
  at_end s7 (dn * seconds_per_day + h * 3600 + mi * 60 + se).

Definition try_strptime (text format : string) : option Z :=
  if String.eqb format "%Y-%m-%d %H" then strptime_date_hour text
  else if String.eqb format "%Y-%m-%d %H:%M:%S" then strptime_date_time text
  else if String.eqb format "%Y-%m-%d" then strptime_date text
  else None.

(** A VARCHAR read as a TIMESTAMP: a date, alone or followed by a full
    time of day. *)
Definition parse_timestamp (s : string) : option Z :=
  let t := strip_with is_blank s in
  match strptime_date_time t with
  | Some x => Some x
  | None => strptime_date t
  end.

End Duck.

#[export] Instance duck : Engine := {|
  parse_integer := Duck.parse_integer;
  parse_timestamp := Duck.parse_timestamp;
  try_strptime := Duck.try_strptime;
  lower := Duck.lower
|}.

(** ** Python's [str.strip] and [str.lower], on ASCII text *)

Module Py.

(** [str.isspace] on ASCII: tab to carriage return, the four separators
    0x1c-0x1f, and the blank. *)
Definition isspace (c : ascii) : bool :=
  let n := N_of_ascii c in
  ((n =? 32) || ((9 <=? n) && (n <=? 13)) || ((28 <=? n) && (n <=? 31)))%N.

Definition strip (s : string) : string := Duck.strip_with isspace s.

Definition lower (s : string) : string := Duck.lower s.

Definition mem (s : string) (l : list string) : bool := existsb (String.eqb s) l.

(** [dict[k]] on a dictionary held as an association list. *)
Fixpoint get (k : string) (d : list (string * string)) : option string :=
  match d with
  | [] => None
  | (k', v) :: t => if String.eqb k k' then Some v else get k t
  end.

End Py.

(** ** Retention, repurchase and lifecycle segments: [merchant.py] *)

Module Merchant.

(** What a connection shows: the tables, and for [user_behavior] its
    column names and its rows. *)
Record database : Type := {
  tables : list string;
  user_behavior_cols : list string;
  user_behavior : list raw_row
}.

(** [_pick(cols, *cands)]: the first candidate that is a column. *)
Fixpoint _pick (cols : list string) (cands : list string) : option string :=
  match cands with
  | [] => None
  | c :: t => if Py.mem c cols then Some c else _pick cols t
  end.

Fixpoint filter_map {A B : Type} (f : A -> option B) (l : list A) : list B :=
  match l with
  | [] => []
  | x :: t => match f x with Some y => y :: filter_map f t | None => filter_map f t end
  end.

Fixpoint coalesce (l : list (option Z)) : option Z :=
  match l with
  | [] => None
  | Some x :: _ => Some x
  | None :: t => coalesce t
  end.

Definition day_interval (n : Z) : Z := n * seconds_per_day.

Section WithEngine.
Context {E : Engine}.

Definition strptime_fallbacks (s : string) : list (option Z) :=
  [ try_strptime s "%Y-%m-%d %H";
    try_strptime s "%Y-%m-%d %H:%M:%S";
    try_strptime s "%Y-%m-%d" ].

(** [_ts_expr] (lines 57-66) on a cell of the time column.  On a native
    TIMESTAMP [try_cast] is the identity and [coalesce] stops there; an
    integer has no cast to TIMESTAMP, so [try_cast] gives NULL and the
    fallbacks read its decimal text. *)
Definition _ts_expr (v : tsval) : option Z :=
  match v with
  | TNull => None
  | TStamp t => Some t
  | TInt z => coalesce (None :: strptime_fallbacks (Z_to_string z))
  | TStr s => coalesce (parse_timestamp s :: strptime_fallbacks s)
  end.

(** [_buy_pred] (lines 69-71). *)
Definition _buy_pred (v : sqlval) : tv :=
  sql_or (sql_eqs (option_map lower (cast_varchar v)) "buy")
         (sql_eqs (cast_varchar v) "4").

(** *** D1 retention (lines 163-187) *)

Definition du_eqb (a b : Z * sqlval) : bool :=
  (fst a =? fst b) && sqlval_eqb (snd a) (snd b).

(** CTE [day_users]: one row per (day, user) with a readable time. *)
Definition day_users (ub : list raw_row) : list (Z * sqlval) :=
  distinct du_eqb
    (filter_map (fun r => option_map (fun t => (date t, r_user r)) (_ts_expr (r_ts r))) ub).

(** [a LEFT JOIN day_users b ON b.uid = a.uid AND b.d = a.d + interval 1 day]:
    the rows of [b] joined to [a], or one NULL row when there is none. *)
Definition next_day_join (du : list (Z * sqlval)) (a : Z * sqlval) : list (option (Z * sqlval)) :=
  match filter (fun b => holds (sql_and (sql_eqv (snd b) (snd a))
                                        (Some (fst b =? fst a + 1)))) du with
  | [] => [None]
  | bs => map Some bs
  end.

Definition b_uid (b : option (Z * sqlval)) : sqlval :=
  match b with Some x => snd x | None => VNull end.

Record ret_row : Type := {
  ret_d : Z;
  active_users : Z;
  retained_users : Z
}.

(** CTE [ret]. *)
Definition ret (du : list (Z * sqlval)) : list ret_row :=
  map (fun d =>
         let joined := flat_map (next_day_join du) (filter (fun a => fst a =? d) du) in
         {| ret_d := d;
            active_users := count_star joined;
            retained_users := sum_case (fun b => Some (val_not_null (b_uid b))) joined |})
      (distinct Z.eqb (map fst du)).

(** [ORDER BY d DESC LIMIT 1]. *)
Definition latest (rows : list ret_row) : option ret_row :=
  fold_right (fun x acc =>
                match acc with
                | None => Some x
                | Some y => if ret_d y <? ret_d x then Some x else Some y
                end) None rows.

Record d1_payload : Type := {
  d1_day : Z;
  d1_active_users : Z;
  d1_retained_users : Z;
  d1_rate : option Q
}.

(** The D1 query and the payload built from its row. *)
Definition d1_retention (ub : list raw_row) : option d1_payload :=
  let r := ret (day_users ub) in
  let max_d := sql_max (map (fun x => Some (ret_d x)) r) in
  match latest (filter (fun x => holds (sql_lt (Some (ret_d x)) max_d)) r) with
  | Some x =>
      Some {| d1_day := ret_d x;
              d1_active_users := active_users x;
              d1_retained_users := retained_users x;
              d1_rate := div_nullif (retained_users x) (active_users x) |}
  | None => None
  end.

(** *** 7-day repurchase (lines 201-234) *)

(** CTE [buys]. *)
Definition buys (ub : list raw_row) : list (sqlval * Z) :=
  filter_map (fun r =>
                match _ts_expr (r_ts r) with
                | Some t => if holds (_buy_pred (r_action r)) then Some (r_user r, t) else None
                | None => None
                end) ub.

(** CTE [first_buy]. *)
Definition first_buy (bs : list (sqlval * Z)) : list (sqlval * option Z) :=
  map (fun u => (u, sql_min (map (fun b => Some (snd b))
                                 (filter (fun b => sqlval_eqb (fst b) u) bs))))
      (distinct sqlval_eqb (map fst bs)).

Definition plus_days (t : option Z) (n : Z) : option Z :=
  option_map (fun x => x + day_interval n) t.

(** The [EXISTS] subquery of CTE [agg]. *)
Definition repurchased (bs : list (sqlval * Z)) (fb : sqlval * option Z) : bool :=
  existsb (fun b2 =>
             holds (sql_and (sql_and (sql_eqv (fst b2) (fst fb))
                                     (sql_gt (Some (snd b2)) (snd fb)))
                            (sql_le (Some (snd b2)) (plus_days (snd fb) 7))))
          bs.

(** The one row of the repurchase query: [buyers], [repurchasers], [rate]. *)
Record rep_row : Type := {
  buyers : Z;
  repurchasers : option Z;
  rate : option Q
}.

Definition repurchase_query (ub : list raw_row) : rep_row :=
  let bs := buys ub in
  let fb := first_buy bs in
  let n := count_star fb in
  let r := sum_case_nullable (fun x => Some (repurchased bs x)) fb in
  {| buyers := n;
     repurchasers := r;
     rate := match r with Some x => div_nullif x n | None => None end |}.

Record rep_payload : Type := {
  p_buyers : Z;
  p_repurchasers_7d : Z;
  p_rate : option Q
}.

(** [int(rep[1])] raises on [None]. *)
Definition rep_payload_of (r : rep_row) : result rep_payload :=
  match repurchasers r with
  | Some x => Ok {| p_buyers := buyers r; p_repurchasers_7d := x; p_rate := rate r |}
  | None => Raise TypeError
  end.

Inductive metrics : Type :=
| MetricsUnavailable (cause : string)
| Metrics (d1 : option d1_payload) (rep : option rep_payload).

Definition _metrics_payload (duckdb : bool) (db : database) : result metrics :=
  if negb duckdb then Ok (MetricsUnavailable "duckdb not installed")
  else if negb (Py.mem "user_behavior" (tables db))
  then Ok (MetricsUnavailable "table user_behavior not found")
  else
    let cols := user_behavior_cols db in
    match _pick cols ["user_id"; "user"], _pick cols ["timestamp"; "time"; "ts"] with
    | Some _, Some _ =>
        let d1 := d1_retention (user_behavior db) in
        match _pick cols ["behavior_type"; "behavior"] with
        | Some _ =>
            p <- rep_payload_of (repurchase_query (user_behavior db)) ;;
            Ok (Metrics d1 (Some p))
        | None => Ok (Metrics d1 None)
        end
    | _, _ => Ok (MetricsUnavailable "缺 user_id 或 timestamp/time 列")
    end.

(** *** Lifecycle segments (lines 281-312 and 631-664) *)

Definition e_eqb (a b : sqlval * Z) : bool :=
  sqlval_eqb (fst a) (fst b) && (snd a =? snd b).

(** CTE [e]: one row per (user, day). *)
Definition e (ub : list raw_row) : list (sqlval * Z) :=
  distinct e_eqb
    (filter_map (fun r => option_map (fun t => (r_user r, date t)) (_ts_expr (r_ts r))) ub).

(** CTE [anchor]. *)
Definition anchor_day (es : list (sqlval * Z)) : option Z :=
  sql_max (map (fun x => Some (snd x)) es).

Definition minus_days (d : option Z) (n : Z) : option Z :=
  option_map (fun x => x - n) d.

Record agg_row : Type := {
  u : sqlval;
  first_day : option Z;
  last_day : option Z;
  days_7d : Z;
  active_days_30d : Z
}.

(** CTE [agg]: the aggregates are taken over the rows that pass
    [where d >= anchor_day - interval 30 day]. *)
Definition agg (es : list (sqlval * Z)) : list agg_row :=
  let a := anchor_day es in
  let base := filter (fun x => holds (sql_ge (Some (snd x)) (minus_days a 30))) es in
  map (fun who =>
         let g := filter (fun x => sqlval_eqb (fst x) who) base in
         {| u := who;
            first_day := sql_min (map (fun x => Some (snd x)) g);
            last_day := sql_max (map (fun x => Some (snd x)) g);
            days_7d := sum_case (fun x => sql_ge (Some (snd x)) (minus_days a 7)) g;
            active_days_30d := count_star g |})
      (distinct sqlval_eqb (map fst base)).

(** The [case] of CTE [seg]. *)
Definition segment_of (a : option Z) (r : agg_row) : string :=
  if holds (sql_eqz (first_day r) a) then "new"
  else if holds (sql_and (sql_eqz (last_day r) a) (Some (days_7d r >=? 3))) then "active"
  else if holds (sql_and (sql_lt (last_day r) a) (sql_ge (last_day r) (minus_days a 7)))
  then "warm"
  else if holds (sql_and (sql_lt (last_day r) (minus_days a 7))
                         (sql_ge (last_day r) (minus_days a 30)))
  then "dormant"
  else "dormant".

(** CTE [seg], the same text in [_segments_payload] and in [_segment_sql]. *)
Definition seg (ub : list raw_row) : list (sqlval * string) :=
  let es := e ub in
  map (fun r => (u r, segment_of (anchor_day es) r)) (agg es).

End WithEngine.

Definition _SEG_ZH : list (string * string) :=
  [ ("new", "新客"); ("active", "活跃"); ("warm", "回访"); ("dormant", "沉睡") ].

Definition _SEG_RULES_ZH : list (string * string) :=
  [ ("new", "新客：first_day == anchor_day（首次出现即锚点日）");
    ("active", "活跃：last_day==anchor_day 且 近7天活跃天数>=3");
    ("warm", "回访：last_day < anchor_day 且 last_day>=anchor_day-7天");
    ("dormant", "沉睡：last_day < anchor_day-7天 且 last_day>=anchor_day-30天") ].

(** The text [_segment_sql] returns stands for one query: the users of [seg]
    whose segment is the given one. *)
Inductive segment_query : Type :=
| SelectUsers (segment : string).

Definition in_dict (k : string) (d : list (string * string)) : bool :=
  match Py.get k d with Some _ => true | None => false end.

(** Lines 608-610. *)
Definition normalize_segment (segment : string) : string :=
  let s := Py.lower (Py.strip segment) in
  if in_dict s _SEG_ZH then s else "warm".

Definition lookup (k : string) (d : list (string * string)) : string :=
  match Py.get k d with Some v => v | None => "" end.

Definition _segment_sql (duckdb : bool) (db : database) (segment : string)
  : string * string * string * option segment_query :=
  let s := normalize_segment segment in
  let seg_zh := lookup s _SEG_ZH in
  let rule_zh := lookup s _SEG_RULES_ZH in
  if negb duckdb then (s, seg_zh, rule_zh, None)
  else if negb (Py.mem "user_behavior" (tables db)) then (s, seg_zh, rule_zh, None)
  else
    let cols := user_behavior_cols db in
    match _pick cols ["user_id"; "user"], _pick cols ["timestamp"; "time"; "ts"] with
    | Some _, Some _ =>
        (s, seg_zh, rule_zh ++ "（anchor_day=max(date(timestamp))）", Some (SelectUsers s))
    | _, _ => (s, seg_zh, rule_zh, None)
    end.

Section ExportUsers.
Context {E : Engine}.

(** Running the query, with the [limit] appended by the export; the rows
    kept are the first ones in the order [seg] lists them. *)
Definition run_segment_query (db : database) (q : segment_query) (limit : Z) : list sqlval :=
  match q with
  | SelectUsers s =>
      firstn (Z.to_nat limit)
             (map fst (filter (fun x => String.eqb (snd x) s) (seg (user_behavior db))))
  end.

Inductive response : Type :=
| Json500 (error : string)
| Csv (filename : string) (header : string) (rows : list sqlval).

(** Line 755. *)
Definition clamp_limit (limit : Z) : Z := Z.max 1 (Z.min limit 200000).

Definition action_export_users (duckdb : bool) (db : database) (segment : string) (limit : Z)
  : response :=
  if negb duckdb then Json500 "duckdb not installed"
  else
    match _segment_sql duckdb db segment with
    | (s, _, _, Some q) =>
        Csv ("users_" ++ s ++ ".csv") "user_id" (run_segment_query db q (clamp_limit limit))
    | (_, _, _, None) => Json500 "segment sql unavailable (missing table/columns?)"
    end.

End ExportUsers.

End Merchant.

(** ** The command line of the builder: column resolution and the rate check *)

Module BuilderCli.

Import Funnel.

(** [d[k] = v] on a dictionary held as an association list. *)
Fixpoint dict_set (k v : string) (d : list (string * string)) : list (string * string) :=
  match d with
  | [] => [(k, v)]
  | (k', v') :: t => if String.eqb k k' then (k, v) :: t else (k', v') :: dict_set k v t
  end.

(** [lower_map = {c.lower(): c for c in existing}] (line 13): a later
    column with the same lower-cased name replaces the earlier one. *)
Definition lower_map (existing : list string) : list (string * string) :=
  fold_left (fun d c => dict_set (Py.lower c) c d) existing [].

(** [_pick_col] (lines 12-18). *)
Fixpoint pick_from (m : list (string * string)) (candidates : list string) : option string :=
  match candidates with
  | [] => None
  | cand :: t =>
      match Py.get (Py.lower cand) m with
      | Some c => Some c
      | None => pick_from m t
      end
  end.

Definition _pick_col (existing candidates : list string) : option string :=
  pick_from (lower_map existing) candidates.

(** What [_require_col] gives: the column, or the [RuntimeError] it raises,
    which names the role that was looked for. *)
Inductive required : Type :=
| Column (c : string)
| RuntimeError (human_name : string).

(** [_require_col] (lines 21-27); [if not col] also refuses a column whose
    name is the empty string. *)
Definition _require_col (existing candidates : list string) (human_name : string) : required :=
  match _pick_col existing candidates with
  | Some c => if String.eqb c "" then RuntimeError human_name else Column c
  | None => RuntimeError human_name
  end.

(** [args.x_col or _require_col(cols, [...], name)] (lines 223-226): an
    option given on the command line is taken as it is. *)
Definition resolve (arg : string) (cols candidates : list string) (human_name : string)
  : required :=
  if String.eqb arg "" then _require_col cols candidates human_name else Column arg.

Definition user_candidates : list string := ["user_id"; "userid"; "uid"; "user"].
Definition item_candidates : list string := ["item_id"; "itemid"; "iid"; "item"].
Definition action_candidates : list string :=
  ["behavior_type"; "behavior"; "action"; "event_type"; "type"].
Definition ts_candidates : list string := ["ts"; "timestamp"; "time"; "event_time"].

(** Reading the view [item_funnel_features]: it selects from
    [item_funnel_features_loose]. *)
Definition read_item_funnel_features (d : db) : option (list feature_row) :=
  if item_funnel_features d then item_funnel_features_loose d else None.

Definition sql_gtq (a : option Q) (b : Q) : tv :=
  match a with Some x => Some (negb (Qle_bool x b)) | None => None end.

Definition opt_maxq (a b : option Q) : option Q :=
  match a, b with
  | Some x, Some y => if Qle_bool x y then Some y else Some x
  | Some x, None => Some x
  | None, _ => b
  end.

Definition sql_maxq (l : list (option Q)) : option Q := fold_right opt_maxq None l.

(** The check at the end of [main] (lines 252-259): how many rows have a
    [pv_to_buy_rate] above 1.00001, and the largest rate. *)
Definition rate_check (rows : list feature_row) : option Z * option Q :=
  (sum_case_nullable (fun r => sql_gtq (pv_to_buy_rate r) (100001 # 100000)%Q) rows,
   sql_maxq (map pv_to_buy_rate rows)).

End BuilderCli.

(** ** The read side of [merchant.py]: overview, segment shares, answers *)

Module Facade.

Import Merchant.

(** [str(k)] for a value fetched from the engine. *)
Definition py_str (v : sqlval) : string :=
  match v with
  | VNull => "None"
  | VInt z => Z_to_string z
  | VStr s => s
  end.

(** The dictionary [m] of [_overview_payload] (line 101). *)
Definition behavior_alias : list (string * string) :=
  [ ("1", "pv"); ("2", "fav"); ("3", "cart"); ("4", "buy");
    ("pv", "pv"); ("fav", "fav"); ("cart", "cart"); ("buy", "buy") ].

(** A dictionary from labels to counts. *)
Fixpoint count_get (k : string) (d : list (string * Z)) : Z :=
  match d with
  | [] => 0
  | (k', n) :: t => if String.eqb k k' then n else count_get k t
  end.

(** [d[k] += n] on a key that is in the dictionary. *)
Fixpoint count_add (k : string) (n : Z) (d : list (string * Z)) : list (string * Z) :=
  match d with
  | [] => []
  | (k', n') :: t => if String.eqb k k' then (k', n' + n) :: t else (k', n') :: count_add k n t
  end.

Definition by_type_zero : list (string * Z) :=
  [ ("pv", 0); ("fav", 0); ("cart", 0); ("buy", 0) ].

(** [select col as k, count( * ) c from user_behavior group by 1]. *)
Definition group_count (vals : list sqlval) : list (sqlval * Z) :=
  map (fun k => (k, count_star (filter (sqlval_eqb k) vals)))
      (distinct sqlval_eqb vals).

(** The loop of lines 102-106. *)
Definition by_type_norm (raw : list (sqlval * Z)) : list (string * Z) :=
  fold_left (fun d kc =>
               match Py.get (Py.lower (Py.strip (py_str (fst kc)))) behavior_alias with
               | Some kk => if String.eqb kk "" then d else count_add kk (snd kc) d
               | None => d
               end) raw by_type_zero.

(** [count(distinct col)]: NULL is not counted. *)
Definition count_distinct (vals : list sqlval) : Z :=
  count_star (distinct sqlval_eqb (filter val_not_null vals)).

(** The numbers of the overview. *)
Record overview : Type := {
  user_behavior_rows : Z;
  distinct_users : option Z;
  distinct_items : option Z;
  behavior_counts : list (string * Z);
  item_funnel_features_rows : Z;
  detected_user_col : option string;
  detected_item_col : option string;
  detected_behavior_col : option string;
  detected_timestamp_col : option string
}.

Inductive overview_answer : Type :=
| OverviewError (cause : string)
| Overview (o : overview).

(** [_overview_payload] (lines 77-137), without the fields that only list
    the tables, the columns and the data sources.  [funnel] is what
    [item_funnel_features] holds when it can be read; counting the rows of
    one that cannot raises. *)
Definition _overview_payload (duckdb : bool) (db : database)
    (funnel : option (list Funnel.feature_row)) : result overview_answer :=
  if negb duckdb
  then Ok (OverviewError "python 环境里没有 duckdb：python -m pip install duckdb")
  else if negb (Py.mem "user_behavior" (tables db))
  then Ok (OverviewError "table user_behavior not found")
  else
    let cols := user_behavior_cols db in
    let user_col := _pick cols ["user_id"; "user"] in
    let item_col := _pick cols ["item_id"; "item"] in
    let behavior_col := _pick cols ["behavior_type"; "behavior"] in
    let ts_col := _pick cols ["timestamp"; "time"; "ts"] in
    let ub := user_behavior db in
    funnel_rows <-
      (if Py.mem "item_funnel_features" (tables db)
       then match funnel with
            | Some rows => Ok (count_star rows)
            | None => Raise CatalogError
            end
       else Ok 0) ;;
    Ok (Overview
      {| user_behavior_rows := count_star ub;
         distinct_users :=
           match user_col with
           | Some _ => Some (count_distinct (map r_user ub))
           | None => None
           end;
         distinct_items :=
           match item_col with
           | Some _ => Some (count_distinct (map r_item ub))
           | None => None
           end;
         behavior_counts :=
           match behavior_col with
           | Some _ => by_type_norm (group_count (map r_action ub))
           | None => by_type_zero
           end;
         item_funnel_features_rows := funnel_rows;
         detected_user_col := user_col;
         detected_item_col := item_col;
         detected_behavior_col := behavior_col;
         detected_timestamp_col := ts_col |}).

(** *** Segment shares: [_segments_payload] (lines 263-355) *)

Definition zsum (l : list Z) : Z := fold_right Z.add 0 l.

Fixpoint insert_by {A : Type} (before : A -> A -> bool) (x : A) (l : list A) : list A :=
  match l with
  | [] => [x]
  | y :: t => if before x y then x :: l else y :: insert_by before x t
  end.

(** [ORDER BY]: a sort by insertion; [before x y] says that [x] may stand
    before [y]. *)
Definition order_by {A : Type} (before : A -> A -> bool) (l : list A) : list A :=
  fold_right (insert_by before) [] l.

(** [float(x) if x is not None else 0.0]. *)
Definition float_or_zero (x : option Q) : Q :=
  match x with Some q => q | None => 0%Q end.

Section WithEngine.
Context {E : Engine}.

(** CTE [seg] with its third column. *)
Definition seg3 (ub : list raw_row) : list (sqlval * string * Z) :=
  let es := e ub in
  map (fun r => (u r, segment_of (anchor_day es) r, active_days_30d r)) (agg es).

Record stat_row : Type := {
  st_segment : string;
  st_users : Z;
  st_avg_actions : option Q
}.

(** CTE [stat]: per segment, the number of users and the mean of
    [active_days_30d]. *)
Definition stat (s : list (sqlval * string * Z)) : list stat_row :=
  map (fun name =>
         let g := filter (fun x => String.eqb (snd (fst x)) name) s in
         {| st_segment := name;
            st_users := count_star g;
            st_avg_actions := div_nullif (zsum (map snd g)) (count_star g) |})
      (distinct String.eqb (map (fun x => snd (fst x)) s)).

Record segment_entry : Type := {
  segment : string;
  segment_zh : string;
  rule_zh : string;
  users : Z;
  share : Q;
  avg_actions : Q
}.

Record segments : Type := {
  sp_anchor_day : option Z;
  total_users : Z;
  sp_segments : list segment_entry
}.

Inductive segments_answer : Type :=
| SegmentsError (cause : string)
| Segments (s : segments).

(** [_SEG_ZH.get(seg, seg)] and [_SEG_RULES_ZH.get(seg, "")]. *)
Definition get_or (k : string) (d : list (string * string)) (default : string) : string :=
  match Py.get k d with Some v => v | None => default end.

(** The rows of the query, ordered by [users] descending, and the loop of
    lines 332-346 over them. *)
Definition segments_of (ub : list raw_row) : segments :=
  let st := order_by (fun a b => st_users b <=? st_users a) (stat (seg3 ub)) in
  let total := zsum (map st_users st) in
  match st with
  | [] => {| sp_anchor_day := None; total_users := 0; sp_segments := [] |}
  | _ =>
      {| sp_anchor_day := anchor_day (e ub);
         total_users := total;
         sp_segments :=
           map (fun r =>
                  {| segment := st_segment r;
                     segment_zh := get_or (st_segment r) _SEG_ZH (st_segment r);
                     rule_zh := get_or (st_segment r) _SEG_RULES_ZH "";
                     users := st_users r;
                     share := float_or_zero (div_nullif (st_users r) total);
                     avg_actions := float_or_zero (st_avg_actions r) |}) st |}
  end.

Definition _segments_payload (duckdb : bool) (db : database) : segments_answer :=
  if negb duckdb then SegmentsError "duckdb not installed"
  else if negb (Py.mem "user_behavior" (tables db))
  then SegmentsError "table user_behavior not found"
  else
    match _pick (user_behavior_cols db) ["user_id"; "user"],
          _pick (user_behavior_cols db) ["timestamp"; "time"; "ts"] with
    | Some _, Some _ => Segments (segments_of (user_behavior db))
    | _, _ => SegmentsError "缺 user_id 或 timestamp/time 列"
    end.

End WithEngine.

(** [action_segment_sql] (lines 731-738). *)
Inductive segment_sql_answer : Type :=
| SegmentSql500 (error : string)
| SegmentSql (segment segment_zh rule_zh : string) (sql : segment_query).

Definition action_segment_sql (duckdb : bool) (db : database) (segment : string)
  : segment_sql_answer :=
  if negb duckdb then SegmentSql500 "duckdb not installed"
  else
    match _segment_sql duckdb db segment with
    | (s, zh, rule, Some q) => SegmentSql s zh rule q
    | (_, _, _, None) => SegmentSql500 "segment sql unavailable (missing table/columns?)"
    end.

End Facade.

(** ** The item lists of [merchant.py], read from the builder's view *)

Module ItemLists.

Import Funnel.
Import Merchant.
Import BuilderCli.
Import Facade.










(** The views of the builder are readable: each view that exists has the
    tables it selects from. *)
Definition views_readable (d : db) : bool :=
  let loose := match item_funnel_features_loose d with Some _ => true | None => false end in
  let strict := match item_funnel_features_strict d with Some _ => true | None => false end in
  implb (item_funnel_features d) loose
  && implb (item_funnel_features_default d) loose
  && implb (item_funnel_features_both d) (loose && strict).

End ItemLists.

(** ** Advice, message templates and the dashboard of [merchant.py] *)

Module Dashboard.

Import Funnel.
Import Merchant.
Import BuilderCli.
Import Facade.
Import ItemLists.

(** One piece of advice, without its texts ([title], [tag], [detail]);
    [metric] holds [from], [to] and [rate] where there is one. *)
Record advice : Type := {
  key : string;
  metric : option (string * string * Q);
  default_segment : string;
  default_message_type : string
}.

(** [_rate(a, b)] of [_journey_advice]: [b / a] when [a > 0], else [0.0]. *)
Definition _rate (a b : Z) : Q :=
  if 0 <? a then (b # Z.to_pos a)%Q else 0%Q.

(** [_journey_advice] (lines 472-513). *)
Definition _journey_advice (behavior_counts : list (string * Z)) : list advice :=
  let pv := count_get "pv" behavior_counts in
  let fav := count_get "fav" behavior_counts in
  let cart := count_get "cart" behavior_counts in
  let buy := count_get "buy" behavior_counts in
  [ {| key := "pv_fav"; metric := Some ("pv", "fav", _rate pv fav);
       default_segment := "warm"; default_message_type := "pv_low_fav" |};
    {| key := "fav_cart"; metric := Some ("fav", "cart", _rate fav cart);
       default_segment := "warm"; default_message_type := "fav_drop" |};
    {| key := "cart_buy"; metric := Some ("cart", "buy", _rate cart buy);
       default_segment := "warm"; default_message_type := "cart_drop" |} ].

(** [float(x) < c], on the exact quotient. *)
Definition float_lt (x c : Q) : bool := negb (Qle_bool c x).

(** [d1.get("rate")] and [rep.get("rate")] of a metrics answer: an answer
    that is an error, or lacks the metric, has no rate. *)
Definition metrics_d1_rate (m : metrics) : option Q :=
  match m with
  | Metrics (Some p) _ => d1_rate p
  | _ => None
  end.

Definition metrics_rep_rate (m : metrics) : option Q :=
  match m with
  | Metrics _ (Some p) => p_rate p
  | _ => None
  end.

(** [_lifecycle_advice] (lines 516-601). *)
Definition _lifecycle_advice (m : metrics) : list advice :=
  [ match metrics_d1_rate m with
    | None =>
        {| key := "d1_unknown"; metric := None;
           default_segment := "new"; default_message_type := "retention_push" |}
    | Some r =>
        if float_lt r (15 # 100)
        then {| key := "d1_low"; metric := None;
                default_segment := "warm"; default_message_type := "retention_push" |}
        else {| key := "d1_ok"; metric := None;
                default_segment := "active"; default_message_type := "retention_push" |}
    end;
    match metrics_rep_rate m with
    | None =>
        {| key := "rep_unknown"; metric := None;
           default_segment := "active"; default_message_type := "repurchase_push" |}
    | Some r =>
        if float_lt r (8 # 100)
        then {| key := "rep_low"; metric := None;
                default_segment := "warm"; default_message_type := "repurchase_push" |}
        else {| key := "rep_ok"; metric := None;
                default_segment := "active"; default_message_type := "repurchase_push" |}
    end;
    {| key := "member_placeholder"; metric := None;
       default_segment := "dormant"; default_message_type := "dormant_wakeup" |} ].

(** A message template (lines 672-727). *)
Record template : Type := {
  title : string;
  channels : list string;
  variables : list string;
  copy_short : string;
  copy_long : string
}.

Definition cart_drop : template :=
  {| title := "加购未购召回（24h）";
     channels := ["站内信"; "短信"; "微信服务通知（如有）"];
     variables := ["user_name"; "item_name"; "coupon"; "deadline"; "link"];
     copy_short := "你加购的「{{item_name}}」还没下单～{{coupon}}（{{deadline}}前有效）点击直达：{{link}}";
     copy_long := "Hi {{user_name}}，你之前加购的「{{item_name}}」还没下单～我们给你准备了{{coupon}}，{{deadline}}前可用。点这里直接购买：{{link}}" |}.

Definition templates : list (string * template) :=
  [ ("cart_drop", cart_drop);
    ("fav_drop",
     {| title := "收藏后促转（48h）";
        channels := ["站内信"; "短信"];
        variables := ["item_name"; "benefit"; "link"];
        copy_short := "你收藏的「{{item_name}}」今天有{{benefit}}，点这里：{{link}}";
        copy_long := "你收藏的「{{item_name}}」已经为你保留，今天有{{benefit}}。现在下单更划算：{{link}}" |});
    ("pv_low_fav",
     {| title := "浏览高但收藏低（内容种草）";
        channels := ["站内信"; "内容/短视频脚本（达人）"];
        variables := ["scene"; "item_name"];
        copy_short := "为什么大家会收藏「{{item_name}}」：{{scene}}场景一用就懂";
        copy_long := "收藏代表“想要”。建议用{{scene}}场景讲清楚「{{item_name}}」的关键卖点，再补 1-2 个对比点，收藏率会明显提升。" |});
    ("retention_push",
     {| title := "次日留存召回";
        channels := ["站内信"; "短信"];
        variables := ["benefit"; "link"];
        copy_short := "今天给你准备了{{benefit}}，点这里看看：{{link}}";
        copy_long := "昨天你看过的内容今天更新了，我们也给你准备了{{benefit}}：{{link}}" |});
    ("repurchase_push",
     {| title := "首购后 7 日复购推动";
        channels := ["站内信"; "短信"];
        variables := ["bundle"; "coupon"; "deadline"; "link"];
        copy_short := "复购更划算：{{bundle}} + {{coupon}}（{{deadline}}前）{{link}}";
        copy_long := "给你配好了复购组合：{{bundle}}，再叠加{{coupon}}，{{deadline}}前有效：{{link}}" |});
    ("dormant_wakeup",
     {| title := "沉睡唤醒（强利益点）";
        channels := ["短信"; "站内信"];
        variables := ["coupon"; "deadline"; "link"];
        copy_short := "好久不见～送你{{coupon}}（{{deadline}}前有效）{{link}}";
        copy_long := "很久没来啦～这次给你一张{{coupon}}，{{deadline}}前有效，点这里直接用：{{link}}" |}) ].

(** [dict.get(k)]. *)
Fixpoint dict_get {V : Type} (k : string) (d : list (string * V)) : option V :=
  match d with
  | [] => None
  | (k', v) :: t => if String.eqb k k' then Some v else dict_get k t
  end.

(** [_message_template] (lines 670-728): [templates.get(tp,
    templates["cart_drop"])]. *)
Definition _message_template (t : string) : template :=
  match dict_get (Py.lower (Py.strip t)) templates with
  | Some tpl => tpl
  | None => cart_drop
  end.




End Dashboard.

(** ** Sample data *)

Module Sample.

Import Funnel.
Import Merchant.

(** Which table of the database holds the rows of an ordering mode. *)
Definition produced_table (strict : Z) (d : db) : option (list feature_row) :=
  if strict =? 0 then item_funnel_features_loose d else item_funnel_features_strict d.

Definition ev (user item : Z) (a : sqlval) (t : Z) : raw_row :=
  {| r_user := VInt user; r_item := VInt item; r_action := a; r_ts := TInt t |}.

(** User 1 walks item 1 in order; user 2 puts it in the cart before the
    favourite; user 3 only favourites item 2. *)
Definition events : list raw_row :=
  [ ev 1 1 (VStr "pv") 0; ev 1 1 (VStr "fav") 3600;
    ev 1 1 (VStr "cart") 7200; ev 1 1 (VStr "buy") 10800;
    ev 2 1 (VStr "pv") 0; ev 2 1 (VStr "cart") 3600;
    ev 2 1 (VStr "fav") 7200; ev 2 1 (VStr "buy") 10800;
    ev 3 2 (VStr "fav") 50 ].

Definition strict_item1 : feature_row :=
  {| f_item_id := Some 1; pv := 2; fav := 2; cart := 1; buy := 1;
     pv_count := 2; fav_count := 2; cart_count := 1; buy_count := 1;
     pv_to_fav_rate := Some (2 # 2)%Q; pv_to_cart_rate := Some (1 # 2)%Q;
     pv_to_buy_rate := Some (1 # 2)%Q; fav_to_cart_rate := Some (1 # 2)%Q;
     cart_to_buy_rate := Some (2 # 1)%Q |}.

Definition loose_item1 : feature_row :=
  {| f_item_id := Some 1; pv := 2; fav := 2; cart := 2; buy := 2;
     pv_count := 2; fav_count := 2; cart_count := 2; buy_count := 2;
     pv_to_fav_rate := Some (2 # 2)%Q; pv_to_cart_rate := Some (2 # 2)%Q;
     pv_to_buy_rate := Some (2 # 2)%Q; fav_to_cart_rate := Some (1 # 2)%Q;
     cart_to_buy_rate := Some (2 # 2)%Q |}.


(** The same behaviour table with the numeric codes written as labels. *)
Definition to_string_code (v : sqlval) : sqlval :=
  match v with
  | VInt z =>
      if z =? 1 then VStr "pv"
      else if z =? 2 then VStr "fav"
      else if z =? 3 then VStr "cart"
      else if z =? 4 then VStr "buy"
      else v
  | _ => v
  end.

Definition with_string_codes (r : raw_row) : raw_row :=
  {| r_user := r_user r; r_item := r_item r;
     r_action := to_string_code (r_action r); r_ts := r_ts r |}.

(** Trimming, as the specification of the normalizer words it: blanks
    removed at both ends. *)
Definition spec_trim (s : string) : string := Duck.strip_with Duck.is_blank s.

(** A row whose time is no integer and no timestamp. *)
Definition bad_time : raw_row :=
  {| r_user := VInt 1; r_item := VInt 1; r_action := VStr "pv"; r_ts := TStr "not-a-time" |}.

(** A user seen on a calendar day. *)
Definition active_on (user : Z) (day : string) : raw_row :=
  {| r_user := VInt user; r_item := VInt 1; r_action := VStr "pv"; r_ts := TStr day |}.

Definition five_days : list raw_row :=
  map (active_on 1) ["2024-01-01"; "2024-01-02"; "2024-01-03"; "2024-01-04"; "2024-01-05"].

(** Nobody is seen on 2024-01-03. *)
Definition gap_days : list raw_row :=
  map (active_on 1) ["2024-01-01"; "2024-01-02"; "2024-01-04"].

(** No day is followed by the next one. *)
Definition two_apart : list raw_row :=
  map (active_on 1) ["2024-01-01"; "2024-01-03"].

(** User 1 comes back on the last day of the data, sixty days after a first
    visit; user 2 is seen the day before. *)
Definition returning : list raw_row :=
  [ active_on 1 "2024-01-01"; active_on 2 "2024-02-29"; active_on 1 "2024-03-01" ].

Definition civil (y m d : Z) : Z := Duck.days_from_civil y m d.

(** A purchase at a time of day. *)
Definition bought (user : Z) (a : sqlval) (time : string) : raw_row :=
  {| r_user := VInt user; r_item := VInt 1; r_action := a; r_ts := TStr time |}.

(** User 1 buys again exactly seven days after the first purchase, user 2
    one second later than that, user 3 eight days after. *)
Definition purchases : list raw_row :=
  [ bought 1 (VStr "buy") "2024-01-01 10:00:00"; bought 1 (VInt 4) "2024-01-08 10:00:00";
    bought 2 (VStr "buy") "2024-01-01 10:00:00"; bought 2 (VStr "4") "2024-01-08 10:00:01";
    bought 3 (VStr "Buy") "2024-01-01 10:00:00"; bought 3 (VStr "buy") "2024-01-09 10:00:00";
    bought 3 (VStr "pv") "2024-01-02 10:00:00" ].

(** The four segment names. *)
Definition segment_names : list string := ["new"; "active"; "warm"; "dormant"].

Definition item2 : feature_row :=
  {| f_item_id := Some 2; pv := 0; fav := 0; cart := 0; buy := 0;
     pv_count := 0; fav_count := 0; cart_count := 0; buy_count := 0;
     pv_to_fav_rate := None; pv_to_cart_rate := None; pv_to_buy_rate := None;
     fav_to_cart_rate := None; cart_to_buy_rate := None |}.

End Sample.

Export Sample.

(** * Properties *)

(** ** Relations as lists: aggregates and distinct keys *)

Section Aggregates.
Context {A : Type}.

Lemma sum_case_nonneg (c : A -> tv) (g : list A) : 0 <= sum_case c g.
Proof.
  induction g as [|r g IH]; simpl; [lia|].
  destruct (holds (c r)); lia.
Qed.

Lemma sum_case_le (c1 c2 : A -> tv) (g : list A) :
  (forall r, holds (c1 r) = true -> holds (c2 r) = true) ->
  sum_case c1 g <= sum_case c2 g.
Proof.
  intros Himp. induction g as [|r g IH]; simpl; [lia|].
  specialize (Himp r).
  destruct (holds (c1 r)), (holds (c2 r)); lia.
Qed.

Lemma sum_case_le_count (c : A -> tv) (g : list A) : sum_case c g <= count_star g.
Proof.
  unfold count_star. induction g as [|r g IH]; [simpl; lia|].
  change (sum_case c (r :: g)) with ((if holds (c r) then 1 else 0) + sum_case c g).
  change (List.length (r :: g)) with (S (List.length g)).
  rewrite Nat2Z.inj_succ.
  destruct (holds (c r)); lia.
Qed.

Variable eqb : A -> A -> bool.
Hypothesis eqb_spec : forall x y, eqb x y = true <-> x = y.

Lemma In_distinct (l : list A) (x : A) : In x (distinct eqb l) <-> In x l.
Proof.
  induction l as [|a t IH]; simpl; [tauto|].
  rewrite filter_In, IH. split.
  - intros [H | [H _]]; auto.
  - intros [H | H]; auto.
    destruct (eqb a x) eqn:Hax.
    + left. now apply eqb_spec.
    + right. split; auto.
Qed.

Lemma NoDup_distinct (l : list A) : NoDup (distinct eqb l).
Proof.
  induction l as [|a t IH]; simpl; constructor.
  - rewrite filter_In. intros [_ H].
    assert (Haa : eqb a a = true) by now apply eqb_spec.
    rewrite Haa in H. discriminate.
  - now apply NoDup_filter.
Qed.

End Aggregates.

Lemma optZ_eqb_spec (a b : option Z) : optZ_eqb a b = true <-> a = b.
Proof.
  destruct a as [x|], b as [y|]; simpl; try (split; congruence).
  rewrite Z.eqb_eq. split; congruence.
Qed.

Lemma sqlval_eqb_spec (a b : sqlval) : sqlval_eqb a b = true <-> a = b.
Proof.
  destruct a as [|x|x], b as [|y|y]; simpl; try (split; congruence).
  - rewrite Z.eqb_eq. split; congruence.
  - rewrite String.eqb_eq. split; congruence.
Qed.

Lemma pair_eqb_spec (a b : option Z * option Z) : Funnel.pair_eqb a b = true <-> a = b.
Proof.
  destruct a as [a1 a2], b as [b1 b2]. unfold Funnel.pair_eqb. simpl.
  rewrite andb_true_iff, !optZ_eqb_spec. split.
  - intros [-> ->]. reflexivity.
  - intros H. inversion H. auto.
Qed.

Lemma holds_some (b : bool) : holds (Some b) = b.
Proof. destruct b; reflexivity. Qed.

Lemma holds_and (a b : tv) :
  holds (sql_and a b) = true <-> holds a = true /\ holds b = true.
Proof.
  destruct a as [[|]|], b as [[|]|]; cbn; intuition discriminate.
Qed.

Lemma holds_eqv (a b : sqlval) :
  holds (sql_eqv a b) = true <-> a = b /\ b <> VNull.
Proof.
  destruct a as [|x|x], b as [|y|y]; cbn;
    try (split; [discriminate | intros [H1 H2]; congruence]).
  - destruct (Z.eqb_spec x y); cbn; split; try discriminate;
      try (intros [H _]; congruence).
    intros _. split; [congruence | discriminate].
  - destruct (String.eqb_spec x y); cbn; split; try discriminate;
      try (intros [H _]; congruence).
    intros _. split; [congruence | discriminate].
Qed.

Lemma project_In {A B : Type} (f : A -> result B) (l : list A) (ys : list B) (y : B) :
  project f l = Ok ys -> In y ys -> exists x, In x l /\ f x = Ok y.
Proof.
  revert ys. induction l as [|a t IH]; simpl; intros ys Hp Hin.
  - inversion Hp. subst. contradiction.
  - destruct (f a) as [b|err] eqn:Hfa; simpl in Hp; [|discriminate].
    destruct (project f t) as [bs|err] eqn:Hpt; simpl in Hp; [|discriminate].
    inversion Hp. subst ys. destruct Hin as [<- | Hin].
    + exists a. auto.
    + destruct (IH bs eq_refl Hin) as [x [Hx Hfx]]. exists x. auto.
Qed.

(** ** The funnel builder *)

Import Funnel.

Ltac tv_cases s :=
  destruct s as [? ? [?|] [?|] [?|] [?|]]; cbn;
  repeat match goal with
         | |- context [Z.gtb ?a ?b] => destruct (Z.gtb a b); cbn
         | |- context [Z.geb ?a ?b] => destruct (Z.geb a b); cbn
         end;
  congruence.

Lemma strict_buy_cart (s : stage_row) :
  holds (buy_ok strict_preds s) = true -> holds (cart_ok strict_preds s) = true.
Proof. tv_cases s. Qed.

Lemma strict_cart_fav (s : stage_row) :
  holds (cart_ok strict_preds s) = true -> holds (fav_ok strict_preds s) = true.
Proof. tv_cases s. Qed.

Lemma fav_pv (strict : Z) (s : stage_row) :
  holds (fav_ok (preds_of strict) s) = true -> holds (pv_seen s) = true.
Proof. unfold preds_of. destruct (strict =? 0); tv_cases s. Qed.

Lemma buy_pv (strict : Z) (s : stage_row) :
  holds (buy_ok (preds_of strict) s) = true -> holds (pv_seen s) = true.
Proof. unfold preds_of. destruct (strict =? 0); tv_cases s. Qed.

Lemma In_select_sql (strict : Z) (stage : list stage_row) (row : feature_row) :
  In row (_select_sql strict stage) ->
  exists it, In it (map s_item stage) /\
    row = feature_of_group (preds_of strict) it
            (filter (fun s => optZ_eqb (s_item s) it) stage).
Proof.
  unfold _select_sql. rewrite in_map_iff. intros [it [Hrow Hin]].
  exists it. split; [|now symmetry].
  exact (proj1 (In_distinct optZ_eqb optZ_eqb_spec _ _) Hin).
Qed.

Arguments ub_norm {E} source : simpl never.
Arguments user_item_stage_of ns : simpl never.
Arguments _select_sql strict stage : simpl never.

Section BuilderRuns.
Context {E : Engine}.

(** The tables a run leaves behind, from a database that holds only the
    source table, are the rows of [funnel_rows]. *)
Lemma produced_table_rows (strict : Z) (source : list raw_row) (mode : string)
      (rows : list feature_row) :
  produced_table strict (fst (build_item_funnel_features mode (fresh_db source))) = Some rows ->
  funnel_rows (if strict =? 0 then 0 else 1) source = Ok rows.
Proof.
  unfold build_item_funnel_features, funnel_rows, seq, create_user_item_stage,
    produced_table, when, create_features, create_default_views, create_both_view, ret.
  cbn. destruct (ub_norm source) as [ns|err]; cbn.
  - destruct (strict =? 0), (String.eqb mode "both"),
      (String.eqb mode "nonstrict"), (String.eqb mode "strict"); cbn; congruence.
  - destruct (strict =? 0); cbn; congruence.
Qed.

Lemma funnel_rows_inv (strict : Z) (source : list raw_row) (rows : list feature_row) :
  funnel_rows strict source = Ok rows ->
  exists ns, ub_norm source = Ok ns /\ rows = _select_sql strict (user_item_stage_of ns).
Proof.
  unfold funnel_rows. destruct (ub_norm source) as [ns|err]; cbn; [|discriminate].
  intros H. inversion H. eauto.
Qed.

(** Whenever the source normalizes, the run writes the tables of the modes
    it was asked for, whatever the database held before. *)
Lemma tables_written (d0 : db) (mode : string) (ns : list norm_row) :
  ub_norm (source_table d0) = Ok ns ->
  let d := fst (build_item_funnel_features mode d0) in
  user_item_stage d = Some (user_item_stage_of ns) /\
  (mode_in mode ["both"; "nonstrict"] = true ->
   item_funnel_features_loose d = Some (_select_sql 0 (user_item_stage_of ns))) /\
  (mode_in mode ["both"; "strict"] = true ->
   item_funnel_features_strict d = Some (_select_sql 1 (user_item_stage_of ns))).
Proof.
  intros Hns.
  unfold build_item_funnel_features, seq, create_user_item_stage,
    when, create_features, create_default_views, create_both_view, ret.
  cbn. rewrite Hns. cbn.
  destruct (String.eqb mode "both"), (String.eqb mode "nonstrict"),
    (String.eqb mode "strict"); cbn;
    destruct (item_funnel_features_loose d0), (item_funnel_features_strict d0); cbn;
    repeat split; (reflexivity || discriminate).
Qed.

(** In mode [both], on a source that normalizes, the run ends without an
    error and leaves both tables and the three views. *)
Lemma build_both_ok (source : list raw_row) (ns : list norm_row) :
  ub_norm source = Ok ns ->
  build_item_funnel_features "both" (fresh_db source) =
  ({| source_table := source;
      user_item_stage := Some (user_item_stage_of ns);
      item_funnel_features_loose := Some (_select_sql 0 (user_item_stage_of ns));
      item_funnel_features_strict := Some (_select_sql 1 (user_item_stage_of ns));
      item_funnel_features := true;
      item_funnel_features_default := true;
      item_funnel_features_both := true |}, Ok tt).
Proof.
  intros Hns.
  unfold build_item_funnel_features, seq, create_user_item_stage,
    when, create_features, create_default_views, create_both_view, ret.
  cbn. rewrite Hns. reflexivity.
Qed.

End BuilderRuns.

#[export] Instance duck_laws : EngineLaws duck.
Proof.
  split; intros l Hl; simpl in Hl;
    repeat (destruct Hl as [<- | Hl]; [reflexivity|]); contradiction.
Qed.

Example sample_strict_rows :
  funnel_rows 1 events = Ok [strict_item1; item2].
Proof. vm_compute. reflexivity. Qed.

Example sample_loose_rows :
  funnel_rows 0 events = Ok [loose_item1; item2].
Proof. vm_compute. reflexivity. Qed.

(** The strict predicates spelled out: each asks for the whole chain before
    it, present and strictly increasing. *)
Lemma strict_buy_ok_chain (s : stage_row) :
  holds (buy_ok strict_preds s) = true <->
  exists p f c b,
    pv_ts s = Some p /\ fav_ts s = Some f /\ cart_ts s = Some c /\ buy_ts s = Some b /\
    p < f /\ f < c /\ c < b.
Proof.
  destruct s as [? ? [p|] [f|] [c|] [b|]]; cbn;
    try (split; [discriminate | intros (? & ? & ? & ? & ? & ? & ? & ? & _); discriminate]).
  split.
  - intros H. exists p, f, c, b.
    destruct (Z.gtb_spec f p), (Z.gtb_spec c f), (Z.gtb_spec b c);
      cbn in H; try discriminate. repeat split; lia.
  - intros (p' & f' & c' & b' & Hp & Hf & Hc & Hb & H1 & H2 & H3).
    inversion Hp; inversion Hf; inversion Hc; inversion Hb; subst.
    destruct (Z.gtb_spec f' p'), (Z.gtb_spec c' f'), (Z.gtb_spec b' c');
      cbn; try reflexivity; lia.
Qed.

(** C1. In every row of the strict table the builder leaves, the stage
    counts go down along the funnel:
    buy_count <= cart_count <= fav_count <= pv_count (and the same for the
    columns buy, cart, fav, pv). *)
Theorem C1_strict_counts_monotone {E : Engine} (source : list raw_row) (mode : string)
    (rows : list feature_row) (row : feature_row) :
  item_funnel_features_strict
    (fst (build_item_funnel_features mode (fresh_db source))) = Some rows ->
  In row rows ->
  buy_count row <= cart_count row /\ cart_count row <= fav_count row /\
  fav_count row <= pv_count row /\
  buy row <= cart row /\ cart row <= fav row /\ fav row <= pv row.
Proof.
  intros Htab Hin.
  apply (produced_table_rows 1) in Htab.
  apply funnel_rows_inv in Htab. destruct Htab as [ns [_ ->]].
  apply In_select_sql in Hin. destruct Hin as [it [_ ->]].
  cbn [buy_count cart_count fav_count pv_count buy cart fav pv feature_of_group].
  change (preds_of 1) with strict_preds.
  pose proof (fun g => sum_case_le (buy_ok strict_preds) (cart_ok strict_preds) g strict_buy_cart) as H1.
  pose proof (fun g => sum_case_le (cart_ok strict_preds) (fav_ok strict_preds) g strict_cart_fav) as H2.
  pose proof (fun g => sum_case_le (fav_ok strict_preds) pv_seen g (fav_pv 1)) as H3.
  repeat split; auto.
Qed.

Lemma C1_witness :
  buy_count strict_item1 <= cart_count strict_item1 /\
  cart_count strict_item1 <= fav_count strict_item1 /\
  fav_count strict_item1 <= pv_count strict_item1 /\
  buy strict_item1 <= cart strict_item1 /\ cart strict_item1 <= fav strict_item1 /\
  fav strict_item1 <= pv strict_item1.
Proof.
  apply (C1_strict_counts_monotone (E := duck) events "both" [strict_item1; item2]).
  - vm_compute. reflexivity.
  - simpl. auto.
Defined.

(** C2. In every row the builder produces, in the loose and in the strict
    table, pv_to_buy_rate is NULL exactly when the pv count is zero, and
    otherwise lies between 0 and 1: the pairs counted by buy are among those
    counted by pv. *)
Theorem C2_pv_to_buy_rate_bounds {E : Engine} (strict : Z) (source : list raw_row)
    (mode : string) (rows : list feature_row) (row : feature_row) :
  produced_table strict
    (fst (build_item_funnel_features mode (fresh_db source))) = Some rows ->
  In row rows ->
  0 <= buy_count row <= pv_count row /\
  match pv_to_buy_rate row with
  | Some q => pv_count row <> 0 /\ (0 <= q)%Q /\ (q <= 1)%Q
  | None => pv_count row = 0
  end.
Proof.
  intros Htab Hin.
  apply produced_table_rows in Htab.
  apply funnel_rows_inv in Htab. destruct Htab as [ns [_ ->]].
  apply In_select_sql in Hin. destruct Hin as [it [_ ->]].
  cbn [buy_count pv_count pv_to_buy_rate feature_of_group].
  set (p := preds_of (if strict =? 0 then 0 else 1)).
  set (g := filter _ _).
  assert (Hle : sum_case (buy_ok p) g <= sum_case pv_seen g)
    by (apply sum_case_le; intros r; apply buy_pv).
  pose proof (sum_case_nonneg (buy_ok p) g) as Hn.
  split; [lia|].
  unfold div_nullif. destruct (Z.eqb_spec (sum_case pv_seen g) 0) as [H0 | H0]; [exact H0|].
  split; [exact H0|].
  unfold Qle. cbn [Qnum Qden]. rewrite Z2Pos.id by lia. lia.
Qed.

Lemma C2_witness :
  0 <= buy_count loose_item1 <= pv_count loose_item1 /\
  match pv_to_buy_rate loose_item1 with
  | Some q => pv_count loose_item1 <> 0 /\ (0 <= q)%Q /\ (q <= 1)%Q
  | None => pv_count loose_item1 = 0
  end.
Proof.
  apply (C2_pv_to_buy_rate_bounds (E := duck) 0 events "both" [loose_item1; item2]).
  - vm_compute. reflexivity.
  - simpl. auto.
Defined.

(** ** Which items get a row *)

Section ItemsOfOutput.
Context {E : Engine}.

Lemma stage_where_iff (n : norm_row) :
  stage_where n = true <->
  (exists a, action n = Some a /\ In a labels) /\ ts n <> None.
Proof.
  unfold stage_where, sql_in, is_not_null.
  destruct n as [us it [a|] [t|]]; cbn [action ts].
  - destruct (existsb (String.eqb a) labels) eqn:Hex; cbn [sql_and holds].
    + apply existsb_exists in Hex. destruct Hex as [l [Hl Heq]].
      apply String.eqb_eq in Heq. subst l.
      split; [|reflexivity]. intros _. split; [eauto | discriminate].
    + split; [discriminate|]. intros [[a' [Ha Hin]] _]. inversion Ha. subst a'.
      assert (Hex' : existsb (String.eqb a) labels = true).
      { apply existsb_exists. exists a. split; [exact Hin | apply String.eqb_refl]. }
      congruence.
  - destruct (existsb (String.eqb a) labels); cbn [sql_and holds];
      (split; [discriminate | intros [_ H]; now elim H]).
  - cbn [sql_and holds]. split; [discriminate | intros [[a [H _]] _]; discriminate].
  - cbn [sql_and holds]. split; [discriminate | intros [[a [H _]] _]; discriminate].
Qed.



End ItemsOfOutput.




(** ** Decoding the action and the time *)

Lemma project_app {A B : Type} (f : A -> result B) (l1 l2 : list A) :
  project f (l1 ++ l2) =
  (a <- project f l1 ;; b <- project f l2 ;; Ok (a ++ b)%list).
Proof.
  induction l1 as [|x t IH]; simpl.
  - destruct (project f l2); reflexivity.
  - destruct (f x) as [y|e]; simpl; [|reflexivity].
    rewrite IH. destruct (project f t) as [ys|e]; simpl; [|reflexivity].
    destruct (project f l2); reflexivity.
Qed.

Lemma project_raises {A B : Type} (f : A -> result B) (l : list A) (x : A) (e : error) :
  In x l -> f x = Raise e -> exists e', project f l = Raise e'.
Proof.
  induction l as [|a t IH]; simpl; [contradiction|].
  intros [-> | Hin] Hfx.
  - rewrite Hfx. simpl. eauto.
  - destruct (f a) as [y|e0]; simpl; [|eauto].
    destruct (IH Hin Hfx) as [e' ->]. simpl. eauto.
Qed.

Section Decoding.
Context {E : Engine}.

Lemma user_item_stage_skip (ns1 ns2 : list norm_row) (n : norm_row) :
  stage_where n = false ->
  user_item_stage_of (ns1 ++ n :: ns2) = user_item_stage_of (ns1 ++ ns2).
Proof.
  intros Hn. unfold user_item_stage_of.
  rewrite !filter_app. simpl filter. rewrite Hn. reflexivity.
Qed.

Lemma funnel_rows_skip (strict : Z) (s1 s2 : list raw_row) (r : raw_row) (n : norm_row) :
  ub_norm_row r = Ok n ->
  stage_where n = false ->
  funnel_rows strict (s1 ++ r :: s2) = funnel_rows strict (s1 ++ s2).
Proof.
  intros Hr Hn. unfold funnel_rows, ub_norm.
  rewrite !filter_app. simpl filter.
  destruct (ub_norm_where r); [|reflexivity].
  rewrite !project_app. simpl project. rewrite Hr.
  destruct (project ub_norm_row (filter ub_norm_where s1)) as [a|e]; simpl; [|reflexivity].
  destruct (project ub_norm_row (filter ub_norm_where s2)) as [b|e]; simpl; [|reflexivity].
  now rewrite user_item_stage_skip.
Qed.

Lemma ub_norm_row_action (r : raw_row) (n : norm_row) :
  ub_norm_row r = Ok n -> action n = ub_norm_action (r_action r).
Proof.
  unfold ub_norm_row.
  destruct (cast_bigint (r_user r)); simpl; [|discriminate].
  destruct (cast_bigint (r_item r)); simpl; [|discriminate].
  destruct (ub_norm_ts (r_ts r)); simpl; [|discriminate].
  intros H. inversion H. reflexivity.
Qed.

(** A time that is neither an integer nor a timestamp makes the [ts]
    column of [ub_norm] fail. *)
Lemma ub_norm_ts_raises (s : string) :
  parse_integer s = None -> parse_timestamp s = None ->
  ub_norm_ts (TStr s) = Raise ConversionError.
Proof.
  intros Hi Ht. unfold ub_norm_ts. simpl. rewrite Hi. simpl. now rewrite Ht.
Qed.

(** One such row in the source makes the whole build fail: the model
    evaluates the casts for every row that passes the four [IS NOT NULL]
    tests, as an engine does that does not filter on the action first. *)
Lemma funnel_rows_raises (strict : Z) (source : list raw_row) (r : raw_row) (s : string) :
  In r source -> ub_norm_where r = true -> r_ts r = TStr s ->
  parse_integer s = None -> parse_timestamp s = None ->
  exists e, funnel_rows strict source = Raise e.
Proof.
  intros Hin Hw Hts Hi Ht.
  assert (Hrow : exists e, ub_norm_row r = Raise e).
  { unfold ub_norm_row. rewrite Hts, (ub_norm_ts_raises s Hi Ht).
    destruct (cast_bigint (r_user r)); simpl; eauto.
    destruct (cast_bigint (r_item r)); simpl; eauto. }
  destruct Hrow as [e He].
  destruct (project_raises ub_norm_row (filter ub_norm_where source) r e) as [e' He'];
    [apply filter_In; auto | exact He |].
  exists e'. unfold funnel_rows, ub_norm. now rewrite He'.
Qed.

End Decoding.

(** C6 as stated fails in its last sentence: the text " pv " is a label once
    trimmed, and the builder does not accept it. *)
Lemma C6_counterexample :
  ~ (forall s : string,
        In (spec_trim (lower s)) labels ->
        exists a, ub_norm_action (VStr s) = Some a /\ In a labels).
Proof.
  intros H. destruct (H " pv ") as [a [Ha Hin]].
  - vm_compute. auto.
  - vm_compute in Ha. inversion Ha. subst a.
    simpl in Hin. repeat (destruct Hin as [Hin | Hin]; [discriminate|]). contradiction.
Qed.

(** C6, amended.  The integer reading comes first: 1, 2, 3, 4 give pv, fav,
    cart, buy and any other integer gives NULL.  A text that is no integer
    is lower-cased, and not trimmed.  The row counts only when the result is
    one of the four labels; otherwise the build goes on as if the row were
    not there. *)
Theorem C6_action_decoding {E : Engine} (v : sqlval) :
  (forall n, try_cast_integer v = Some n ->
      (n = 1 -> ub_norm_action v = Some "pv") /\
      (n = 2 -> ub_norm_action v = Some "fav") /\
      (n = 3 -> ub_norm_action v = Some "cart") /\
      (n = 4 -> ub_norm_action v = Some "buy") /\
      (n < 1 \/ 4 < n -> ub_norm_action v = None)) /\
  (forall s, v = VStr s -> try_cast_integer v = None ->
      ub_norm_action v = Some (lower s)) /\
  (forall us it t,
      stage_where {| user_id := us; item_id := it; action := ub_norm_action v; ts := Some t |}
      = true <-> exists a, ub_norm_action v = Some a /\ In a labels) /\
  (forall strict s1 s2 r n,
      r_action r = v -> ub_norm_row r = Ok n ->
      (forall a, In a labels -> ub_norm_action v <> Some a) ->
      funnel_rows strict (s1 ++ r :: s2) = funnel_rows strict (s1 ++ s2)).
Proof.
  repeat split.
  1-5: unfold ub_norm_action; rewrite H; intros Hn.
  1-4: subst n; reflexivity.
  - destruct (Z.eqb_spec n 1); [lia|]. destruct (Z.eqb_spec n 2); [lia|].
    destruct (Z.eqb_spec n 3); [lia|]. destruct (Z.eqb_spec n 4); [lia|]. reflexivity.
  - intros s -> Hn. unfold ub_norm_action. rewrite Hn. reflexivity.
  - intros Hw. apply stage_where_iff in Hw. destruct Hw as [Ha _]. exact Ha.
  - intros Ha. apply stage_where_iff. split; [exact Ha | discriminate].
  - intros strict s1 s2 r n Hr Hn Hno.
    apply (funnel_rows_skip strict s1 s2 r n Hn).
    destruct (stage_where n) eqn:Hw; [|reflexivity].
    apply stage_where_iff in Hw. destruct Hw as [[a [Ha Hin]] _].
    rewrite (ub_norm_row_action r n Hn), Hr in Ha. now elim (Hno a Hin).
Qed.

Lemma C6_witness :
  ub_norm_action (VStr " pv ") = Some " pv " /\
  funnel_rows 1 ([] ++ ev 9 1 (VStr " pv ") 5 :: events) = funnel_rows 1 ([] ++ events).
Proof.
  destruct (C6_action_decoding (E := duck) (VStr " pv ")) as [_ [Hlow [_ Hskip]]].
  split.
  - apply (Hlow " pv "); reflexivity.
  - apply (Hskip 1 [] events (ev 9 1 (VStr " pv ") 5)
             {| user_id := Some 9; item_id := Some 1; action := Some " pv "; ts := Some 5 |}).
    + reflexivity.
    + vm_compute. reflexivity.
    + intros a Hin. simpl in Hin. vm_compute.
      repeat (destruct Hin as [<- | Hin]; [discriminate|]). contradiction.
Defined.

Example integer_codes_decode :
  map ub_norm_action [VInt 1; VInt 2; VInt 3; VInt 4; VInt 0; VInt 5; VStr "3"; VStr "Buy"; VStr "7"]
  = [Some "pv"; Some "fav"; Some "cart"; Some "buy"; None; None; Some "cart"; Some "buy"; None].
Proof. vm_compute. reflexivity. Qed.

(** ** Numeric codes and labels *)

Lemma filter_map_comm {A B : Type} (p : B -> bool) (g : A -> B) (l : list A) :
  filter p (map g l) = map g (filter (fun x => p (g x)) l).
Proof.
  induction l as [|x t IH]; simpl; [reflexivity|].
  rewrite IH. destruct (p (g x)); reflexivity.
Qed.

Lemma project_map {A B C : Type} (f : B -> result C) (g : A -> B) (l : list A) :
  project f (map g l) = project (fun x => f (g x)) l.
Proof.
  induction l as [|x t IH]; simpl; [reflexivity|]. now rewrite IH.
Qed.

Lemma project_ext {A B : Type} (f g : A -> result B) (l : list A) :
  (forall x, f x = g x) -> project f l = project g l.
Proof.
  intros H. induction l as [|x t IH]; simpl; [reflexivity|]. now rewrite H, IH.
Qed.

Section Codes.
Context {E : Engine} {L : EngineLaws E}.

Lemma action_of_string_code (v : sqlval) :
  ub_norm_action (to_string_code v) = ub_norm_action v.
Proof.
  assert (Hlab : forall l, In l labels -> ub_norm_action (VStr l) = Some l).
  { intros l Hl. unfold ub_norm_action, try_cast_integer.
    rewrite (labels_not_integers l Hl). simpl. now rewrite (labels_lower l Hl). }
  destruct v as [|z|s]; try reflexivity. unfold to_string_code.
  destruct (Z.eqb_spec z 1) as [->|_]; [rewrite Hlab; simpl; auto|].
  destruct (Z.eqb_spec z 2) as [->|_]; [rewrite Hlab; simpl; auto|].
  destruct (Z.eqb_spec z 3) as [->|_]; [rewrite Hlab; simpl; auto|].
  destruct (Z.eqb_spec z 4) as [->|_]; [rewrite Hlab; simpl; auto 6|].
  reflexivity.
Qed.

Lemma not_null_string_code (v : sqlval) :
  val_not_null (to_string_code v) = val_not_null v.
Proof.
  destruct v as [|z|s]; try reflexivity. unfold to_string_code.
  destruct (z =? 1), (z =? 2), (z =? 3), (z =? 4); reflexivity.
Qed.

Lemma ub_norm_string_codes (source : list raw_row) :
  ub_norm (map with_string_codes source) = ub_norm source.
Proof.
  unfold ub_norm. rewrite filter_map_comm, project_map.
  assert (Hw : forall r, ub_norm_where (with_string_codes r) = ub_norm_where r).
  { intros r. unfold ub_norm_where, with_string_codes. cbn [r_user r_item r_action r_ts].
    now rewrite not_null_string_code. }
  rewrite (filter_ext _ _ Hw).
  apply project_ext. intros r. unfold ub_norm_row, with_string_codes.
  cbn [r_user r_item r_action r_ts]. now rewrite action_of_string_code.
Qed.

End Codes.

(** C8. Writing the codes 1, 2, 3, 4 of the action column as pv, fav, cart,
    buy changes nothing in what the builder leaves: the same stage table,
    the same loose and strict tables (rows, counts and rates), the same
    views, and the same outcome of the run. *)
Theorem C8_codes_and_labels_agree {E : Engine} (L : EngineLaws E)
    (source : list raw_row) (mode : string) :
  let numeric := build_item_funnel_features mode (fresh_db source) in
  let textual := build_item_funnel_features mode (fresh_db (map with_string_codes source)) in
  snd textual = snd numeric /\
  user_item_stage (fst textual) = user_item_stage (fst numeric) /\
  item_funnel_features_loose (fst textual) = item_funnel_features_loose (fst numeric) /\
  item_funnel_features_strict (fst textual) = item_funnel_features_strict (fst numeric) /\
  item_funnel_features (fst textual) = item_funnel_features (fst numeric) /\
  item_funnel_features_default (fst textual) = item_funnel_features_default (fst numeric) /\
  item_funnel_features_both (fst textual) = item_funnel_features_both (fst numeric).
Proof.
  unfold build_item_funnel_features, seq, create_user_item_stage,
    when, create_features, create_default_views, create_both_view, ret.
  cbn. rewrite ub_norm_string_codes.
  destruct (ub_norm source) as [ns|err]; cbn.
  - destruct (String.eqb mode "both"), (String.eqb mode "nonstrict"),
      (String.eqb mode "strict"); cbn; repeat split; reflexivity.
  - repeat split; reflexivity.
Qed.

Lemma C8_witness :
  let numeric := build_item_funnel_features "both" (fresh_db [ev 1 1 (VInt 1) 0; ev 1 1 (VInt 4) 9]) in
  let textual := build_item_funnel_features "both"
                   (fresh_db (map with_string_codes [ev 1 1 (VInt 1) 0; ev 1 1 (VInt 4) 9])) in
  snd textual = snd numeric /\
  user_item_stage (fst textual) = user_item_stage (fst numeric) /\
  item_funnel_features_loose (fst textual) = item_funnel_features_loose (fst numeric) /\
  item_funnel_features_strict (fst textual) = item_funnel_features_strict (fst numeric) /\
  item_funnel_features (fst textual) = item_funnel_features (fst numeric) /\
  item_funnel_features_default (fst textual) = item_funnel_features_default (fst numeric) /\
  item_funnel_features_both (fst textual) = item_funnel_features_both (fst numeric).
Proof.
  apply (C8_codes_and_labels_agree (E := duck) duck_laws).
Defined.

Example string_codes_of_sample :
  map with_string_codes [ev 1 1 (VInt 1) 0; ev 1 1 (VInt 4) 9; ev 1 1 (VInt 7) 9]
  = [ev 1 1 (VStr "pv") 0; ev 1 1 (VStr "buy") 9; ev 1 1 (VInt 7) 9].
Proof. reflexivity. Qed.

(** C9 at the failing input: a table whose only row has the time
    "not-a-time".  Reading it is not a filter in the builder: the statement
    that fills [user_item_stage] raises a conversion error and no feature
    table is written.  The queries of [merchant.py] drop the same row. *)
Theorem C9_builder_raises_on_bad_time :
  funnel_rows 0 [bad_time] = Raise ConversionError /\
  funnel_rows 1 [bad_time] = Raise ConversionError /\
  snd (build_item_funnel_features "both" (fresh_db [bad_time])) = Raise ConversionError /\
  item_funnel_features_loose
    (fst (build_item_funnel_features "both" (fresh_db [bad_time]))) = None /\
  item_funnel_features_strict
    (fst (build_item_funnel_features "both" (fresh_db [bad_time]))) = None /\
  Merchant._ts_expr (r_ts bad_time) = None /\
  Merchant.day_users [bad_time] = [] /\
  Merchant.e [bad_time] = [] /\
  Merchant.buys [bad_time] = [].
Proof. vm_compute. repeat split; reflexivity. Qed.

(** ** Retention: which day the D1 query reports *)

Import Merchant.

Lemma sql_max_spec {A : Type} (f : A -> Z) (l : list A) (m : Z) :
  sql_max (map (fun x => Some (f x)) l) = Some m ->
  (exists x, In x l /\ f x = m) /\ (forall x, In x l -> f x <= m).
Proof.
  revert m. induction l as [|a t IH]; simpl; intros m H; [discriminate|].
  destruct (sql_max (map (fun x => Some (f x)) t)) as [m'|] eqn:Ht; simpl in H.
  - inversion H. subst m. destruct (IH m' eq_refl) as [[x [Hx Hfx]] Hall]. split.
    + destruct (Z.max_spec (f a) m') as [[_ ->] | [_ ->]]; eauto.
    + intros y [<- | Hy]; [lia|]. specialize (Hall y Hy). lia.
  - inversion H. subst m. destruct t as [|b t]; [|simpl in Ht;
      destruct (sql_max (map (fun x => Some (f x)) t)); discriminate].
    split; [eauto|]. intros y [<- | []]. lia.
Qed.

Lemma sql_min_spec {A : Type} (f : A -> Z) (l : list A) :
  l <> [] ->
  exists m, sql_min (map (fun x => Some (f x)) l) = Some m /\
            (exists x, In x l /\ f x = m) /\ (forall x, In x l -> m <= f x).
Proof.
  induction l as [|a t IH]; [congruence|]. intros _. simpl.
  destruct t as [|b t].
  - exists (f a). simpl. repeat split; eauto. intros x [<- | []]. lia.
  - destruct IH as [m [Hm [[x [Hx Hfx]] Hall]]]; [discriminate|].
    rewrite Hm. simpl. exists (Z.min (f a) m). split; [reflexivity|]. split.
    + destruct (Z.min_spec (f a) m) as [[_ ->] | [_ ->]]; eauto.
    + intros y [<- | Hy]; [lia|]. specialize (Hall y Hy). lia.
Qed.

Lemma latest_spec (rows : list ret_row) (x : ret_row) :
  latest rows = Some x ->
  In x rows /\ forall y, In y rows -> ret_d y <= ret_d x.
Proof.
  revert x. induction rows as [|a t IH]; simpl; intros x H; [discriminate|].
  destruct (latest t) as [y|] eqn:Ht.
  - destruct (IH y eq_refl) as [Hin Hall].
    destruct (Z.ltb_spec (ret_d y) (ret_d a)); inversion H; subst x; split; auto.
    + intros z [<- | Hz]; [lia|]. specialize (Hall z Hz). lia.
    + intros z [<- | Hz]; [lia|]. auto.
  - inversion H. subst x. destruct t as [|b t].
    + split; auto. intros z [<- | []]. lia.
    + simpl in Ht. destruct (latest t); [destruct (ret_d r <? ret_d b)|]; discriminate.
Qed.

Lemma filter_never {A : Type} (p : A -> bool) (l : list A) :
  (forall x, p x = false) -> filter p l = [].
Proof.
  intros H. induction l as [|a t IH]; simpl; [reflexivity|]. now rewrite H.
Qed.

Lemma Z_eqb_spec_iff (x y : Z) : (x =? y) = true <-> x = y.
Proof. apply Z.eqb_eq. Qed.

(** What the query does: it reports the latest day before the last day of
    the data, whether or not the day after it is in the data. *)
Lemma d1_day_is_latest_before_last {E : Engine} (ub : list raw_row) (p : d1_payload) :
  d1_retention ub = Some p ->
  let days := map fst (day_users ub) in
  In (d1_day p) days /\
  exists last, In last days /\ (forall d, In d days -> d <= last) /\
               d1_day p < last /\
               (forall d, In d days -> d < last -> d <= d1_day p).
Proof.
  unfold d1_retention. set (du := day_users ub).
  set (r := ret du).
  destruct (sql_max (map (fun x => Some (ret_d x)) r)) as [m|] eqn:Hmax.
  2:{ rewrite (filter_never (fun x => holds (sql_lt (Some (ret_d x)) None)) r)
        by reflexivity.
      simpl. discriminate. }
  destruct (latest _) as [x|] eqn:Hl; [|discriminate].
  intros H. inversion H. subst p. cbn [d1_day]. clear H.
  apply latest_spec in Hl. destruct Hl as [Hin Hall].
  apply filter_In in Hin. destruct Hin as [Hin Hlt].
  cbn in Hlt. destruct (Z.ltb_spec (ret_d x) m) as [Hxm|]; [|discriminate].
  apply sql_max_spec in Hmax. destruct Hmax as [[y [Hy Hym]] Hle].
  assert (Hdays : forall d, In d (map fst du) <-> exists z, In z r /\ ret_d z = d).
  { intros d. unfold r, ret. split.
    - intros Hd. eexists. split.
      + apply in_map_iff. exists d. split; [reflexivity|].
        now apply (proj2 (In_distinct Z.eqb Z_eqb_spec_iff _ _)).
      + reflexivity.
    - intros [z [Hz Hzd]]. apply in_map_iff in Hz. destruct Hz as [d' [Hz Hd']].
      subst z. cbn in Hzd. subst d'.
      now apply (proj1 (In_distinct Z.eqb Z_eqb_spec_iff _ _)). }
  split; [apply Hdays; eauto|].
  exists m. repeat split.
  - apply Hdays. eauto.
  - intros d Hd. apply Hdays in Hd. destruct Hd as [z [Hz <-]]. auto.
  - exact Hxm.
  - intros d Hd Hdm. apply Hdays in Hd. destruct Hd as [z [Hz <-]].
    apply Hall. apply filter_In. split; [exact Hz|].
    cbn. destruct (Z.ltb_spec (ret_d z) m); [reflexivity | lia].
Qed.

Example d1_day_example :
  In (d1_day {| d1_day := civil 2024 1 2; d1_active_users := 1;
                d1_retained_users := 0; d1_rate := Some (0 # 1)%Q |})
     (map fst (day_users gap_days)).
Proof.
  apply (d1_day_is_latest_before_last (E := duck) gap_days).
  vm_compute. reflexivity.
Defined.

(** The scenario of the specification: five consecutive days, and the day
    reported is the fourth. *)
Example d1_five_days :
  d1_retention five_days =
  Some {| d1_day := civil 2024 1 4; d1_active_users := 1; d1_retained_users := 1;
          d1_rate := Some (1 # 1)%Q |}.
Proof. vm_compute. reflexivity. Qed.

(** C3 at the failing inputs.  With days 2024-01-01, 01-02 and 01-04 the
    query reports 2024-01-02, whose next day is not in the data, while
    2024-01-01 is the latest day followed by its next day.  With days
    2024-01-01 and 01-03 no day is followed by its next day, and the query
    still reports 2024-01-01. *)
Theorem C3_anchor_ignores_next_day :
  d1_retention gap_days =
    Some {| d1_day := civil 2024 1 2; d1_active_users := 1; d1_retained_users := 0;
            d1_rate := Some (0 # 1)%Q |} /\
  map fst (day_users gap_days) = [civil 2024 1 1; civil 2024 1 2; civil 2024 1 4] /\
  d1_retention two_apart =
    Some {| d1_day := civil 2024 1 1; d1_active_users := 1; d1_retained_users := 0;
            d1_rate := Some (0 # 1)%Q |} /\
  map fst (day_users two_apart) = [civil 2024 1 1; civil 2024 1 3].
Proof. vm_compute. repeat split; reflexivity. Qed.

(** ** Lifecycle segments: who is new *)

Section Segments.
Context {E : Engine}.

(** What [agg] computes: [first_day] is the user's earliest day among the
    days of the last thirty before the anchor day. *)
Lemma agg_first_day (es : list (sqlval * Z)) (r : agg_row) :
  In r (agg es) ->
  exists a m,
    anchor_day es = Some a /\ first_day r = Some m /\
    In (u r, m) es /\ a - 30 <= m /\
    (forall d, In (u r, d) es -> a - 30 <= d -> m <= d).
Proof.
  unfold agg. destruct (anchor_day es) as [a|] eqn:Ha.
  2:{ rewrite (filter_never _ es) by reflexivity. simpl. contradiction. }
  cbn [minus_days option_map].
  set (base := filter (fun x => holds (sql_ge (Some (snd x)) (Some (a - 30)))) es).
  intros Hin. apply in_map_iff in Hin. destruct Hin as [who [Hr Hwho]].
  apply (proj1 (In_distinct sqlval_eqb sqlval_eqb_spec _ _)) in Hwho.
  set (g := filter (fun x => sqlval_eqb (fst x) who) base) in Hr.
  assert (Hbase : forall x, In x base <-> In x es /\ a - 30 <= snd x).
  { intros x. unfold base. rewrite filter_In. unfold sql_ge, sql_cmp.
    rewrite holds_some, Z.geb_le. reflexivity. }
  assert (Hg : g <> []).
  { apply in_map_iff in Hwho. destruct Hwho as [x [Hx Hxb]].
    intros Hnil. assert (Hi : In x g).
    { apply filter_In. split; [exact Hxb|]. now apply sqlval_eqb_spec. }
    rewrite Hnil in Hi. contradiction. }
  destruct (sql_min_spec snd g Hg) as [m [Hm [[x [Hx Hxm]] Hall]]].
  apply filter_In in Hx. destruct Hx as [Hxb Hxu].
  apply sqlval_eqb_spec in Hxu. apply Hbase in Hxb. destruct Hxb as [Hxe Hxw].
  exists a, m. subst r. cbn [first_day u]. repeat split.
  - exact Hm.
  - destruct x as [x1 x2]. simpl in *. now subst.
  - lia.
  - intros d Hd Hw. apply (Hall (who, d)). apply filter_In. split.
    + apply Hbase. auto.
    + now apply sqlval_eqb_spec.
Qed.

End Segments.

(** C5 at the failing input.  User 1 is first seen on 2024-01-01 and again
    on 2024-03-01, the last day of the data.  The aggregation keeps only the
    days of the last thirty, so [first_day] is 2024-03-01, not the first day
    the user was seen, and the user is classified new. *)
Theorem C5_returning_user_is_new :
  e returning = [(VInt 1, civil 2024 1 1); (VInt 2, civil 2024 2 29); (VInt 1, civil 2024 3 1)] /\
  anchor_day (e returning) = Some (civil 2024 3 1) /\
  agg (e returning) =
    [ {| u := VInt 2; first_day := Some (civil 2024 2 29); last_day := Some (civil 2024 2 29);
         days_7d := 1; active_days_30d := 1 |};
      {| u := VInt 1; first_day := Some (civil 2024 3 1); last_day := Some (civil 2024 3 1);
         days_7d := 1; active_days_30d := 1 |} ] /\
  seg returning = [(VInt 2, "warm"); (VInt 1, "new")].
Proof. vm_compute. repeat split; reflexivity. Qed.

(** ** Repurchase within seven days *)

Lemma sum_case_bool {A : Type} (p : A -> bool) (l : list A) :
  sum_case (fun x => Some (p x)) l = Z.of_nat (List.length (filter p l)).
Proof.
  induction l as [|a t IH]; [reflexivity|].
  change (sum_case (fun x => Some (p x)) (a :: t))
    with ((if holds (Some (p a)) then 1 else 0) + sum_case (fun x => Some (p x)) t).
  rewrite IH. simpl filter. destruct (p a); simpl holds.
  - change (List.length (a :: filter p t)) with (S (List.length (filter p t))). lia.
  - lia.
Qed.

Lemma filter_map_In {A B : Type} (f : A -> option B) (l : list A) (y : B) :
  In y (filter_map f l) <-> exists x, In x l /\ f x = Some y.
Proof.
  induction l as [|a t IH]; simpl.
  - split; [contradiction | intros [x [[] _]]].
  - destruct (f a) as [b|] eqn:Hfa; simpl; rewrite IH; split.
    + intros [<- | [x [Hx Hfx]]]; eauto.
    + intros [x [[<- | Hx] Hfx]]; [left; congruence | right; eauto].
    + intros [x [Hx Hfx]]; eauto.
    + intros [x [[<- | Hx] Hfx]]; [congruence | eauto].
Qed.

Section Repurchase.
Context {E : Engine}.

(** Which rows are purchases. *)
Lemma _buy_pred_iff (v : sqlval) :
  holds (_buy_pred v) = true <->
  exists s, cast_varchar v = Some s /\ (lower s = "buy" \/ s = "4").
Proof.
  unfold _buy_pred. destruct (cast_varchar v) as [s|]; cbn.
  - destruct (String.eqb_spec (lower s) "buy") as [H1|H1];
      destruct (String.eqb_spec s "4") as [H2|H2]; cbn;
      (split; [intros H; try discriminate; eauto | intros [s' [Hs [H|H]]]; inversion Hs; subst;
                                                  try reflexivity; contradiction]).
  - split; [discriminate | intros [s [Hs _]]; discriminate].
Qed.

Lemma In_buys (ub : list raw_row) (uid : sqlval) (t : Z) :
  In (uid, t) (buys ub) <->
  exists r, In r ub /\ r_user r = uid /\ _ts_expr (r_ts r) = Some t /\
            holds (_buy_pred (r_action r)) = true.
Proof.
  unfold buys. rewrite filter_map_In. split.
  - intros [r [Hin Hr]]. exists r. split; [exact Hin|].
    destruct (_ts_expr (r_ts r)) as [t'|]; [|discriminate].
    destruct (holds (_buy_pred (r_action r))); [|discriminate].
    inversion Hr. auto.
  - intros [r [Hin [Hu [Ht Hb]]]]. exists r. split; [exact Hin|].
    rewrite Ht, Hb. now subst.
Qed.

(** [first_buy] has one row per buyer, and it holds the earliest purchase. *)
Lemma first_buy_row (bs : list (sqlval * Z)) (uid : sqlval) :
  In uid (map fst bs) ->
  exists first_ts,
    In (uid, Some first_ts) (first_buy bs) /\
    In (uid, first_ts) bs /\
    (forall t, In (uid, t) bs -> first_ts <= t).
Proof.
  intros Hin.
  set (g := filter (fun b => sqlval_eqb (fst b) uid) bs).
  assert (Hg : g <> []).
  { apply in_map_iff in Hin. destruct Hin as [[u0 t0] [Hu Hb]]. simpl in Hu. subst u0.
    intros Hnil. assert (Hi : In (uid, t0) g).
    { apply filter_In. split; [exact Hb|]. now apply sqlval_eqb_spec. }
    rewrite Hnil in Hi. contradiction. }
  destruct (sql_min_spec snd g Hg) as [m [Hm [[x [Hx Hxm]] Hall]]].
  exists m. repeat split.
  - unfold first_buy. apply in_map_iff. exists uid. split.
    + fold g. now rewrite Hm.
    + now apply (proj2 (In_distinct sqlval_eqb sqlval_eqb_spec _ _)).
  - apply filter_In in Hx. destruct Hx as [Hx Hu].
    apply sqlval_eqb_spec in Hu. destruct x as [u0 t0]. simpl in *. now subst.
  - intros t Ht. apply (Hall (uid, t)). apply filter_In. split; [exact Ht|].
    now apply sqlval_eqb_spec.
Qed.

Lemma first_buy_users (bs : list (sqlval * Z)) :
  map fst (first_buy bs) = distinct sqlval_eqb (map fst bs).
Proof.
  unfold first_buy. rewrite map_map. simpl. apply map_id.
Qed.

Lemma repurchased_iff (bs : list (sqlval * Z)) (uid : sqlval) (first_ts : Z) :
  uid <> VNull ->
  (repurchased bs (uid, Some first_ts) = true <->
   exists t, In (uid, t) bs /\ first_ts < t /\ t <= first_ts + 7 * 86400).
Proof.
  intros Hnn. unfold repurchased. rewrite existsb_exists.
  unfold plus_days, day_interval, seconds_per_day, sql_gt, sql_le, sql_cmp.
  cbn [fst snd option_map].
  split.
  - intros [[u2 t2] [Hin H]]. cbn [fst snd] in H.
    rewrite !holds_and, holds_eqv, !holds_some, Z.gtb_gt, Z.leb_le in H.
    destruct H as [[[-> _] Hgt] Hle]. exists t2. repeat split; [exact Hin | lia | lia].
  - intros [t [Hin [Hgt Hle]]]. exists (uid, t). split; [exact Hin|].
    cbn [fst snd]. rewrite !holds_and, holds_eqv, !holds_some, Z.gtb_gt, Z.leb_le.
    repeat split; auto; lia.
Qed.

Lemma buys_nil_iff (ub : list raw_row) :
  buys ub = [] <->
  forall r t, In r ub -> _ts_expr (r_ts r) = Some t -> holds (_buy_pred (r_action r)) = false.
Proof.
  split.
  - intros Hnil r t Hin Ht. destruct (holds (_buy_pred (r_action r))) eqn:Hb; [|reflexivity].
    assert (Hi : In (r_user r, t) (buys ub)) by (apply In_buys; exists r; auto).
    rewrite Hnil in Hi. contradiction.
  - intros H. destruct (buys ub) as [|[uid t] rest] eqn:Hb; [reflexivity|].
    assert (Hi : In (uid, t) (buys ub)) by (rewrite Hb; now left).
    apply In_buys in Hi. destruct Hi as [r [Hin [_ [Ht Hp]]]].
    rewrite (H r t Hin Ht) in Hp. discriminate.
Qed.

Lemma first_buy_nil_iff (bs : list (sqlval * Z)) : first_buy bs = [] <-> bs = [].
Proof.
  split.
  - destruct bs as [|b t]; [reflexivity|]. unfold first_buy. simpl. discriminate.
  - intros ->. reflexivity.
Qed.

End Repurchase.

(** C7. The purchases ([buys]) are the rows with a time that parses whose
    behaviour, as text, is "buy" in any case or is "4".  Among them every
    user with an identifier has one row in [first_buy], holding the earliest
    purchase time [first_ts]; the user is counted as a repurchaser exactly
    when some purchase of the same user lies in the interval
    (first_ts, first_ts + 7 days], the upper bound included.  So a second
    purchase exactly seven days later counts and one eight days later does
    not.  [buyers] is the number of distinct users who bought,
    [repurchasers] the number of those counted (a buyer without an
    identifier is a buyer and never a repurchaser); with a buyer, [rate] is
    their quotient and the payload reports the three.  With no buyer the
    query gives NULL for [repurchasers] and for [rate], and the payload code
    does not get to the NULL rate: [int(rep[1])] raises. *)
Theorem C7_repurchase_within_7_days {E : Engine} (db : database) :
  let ub := user_behavior db in
  let bs := buys ub in
  let q := repurchase_query ub in
  let cols := user_behavior_cols db in
  let asked :=
    Py.mem "user_behavior" (tables db)
    && match _pick cols ["user_id"; "user"], _pick cols ["timestamp"; "time"; "ts"],
             _pick cols ["behavior_type"; "behavior"] with
       | Some _, Some _, Some _ => true
       | _, _, _ => false
       end in
  (forall uid t,
     In (uid, t) bs <->
     exists r s, In r ub /\ r_user r = uid /\ _ts_expr (r_ts r) = Some t /\
                 cast_varchar (r_action r) = Some s /\ (lower s = "buy" \/ s = "4")) /\
  (forall uid, uid <> VNull -> In uid (map fst bs) ->
     exists first_ts,
       In (uid, Some first_ts) (first_buy bs) /\
       In (uid, first_ts) bs /\
       (forall t, In (uid, t) bs -> first_ts <= t) /\
       (repurchased bs (uid, Some first_ts) = true <->
        exists t, In (uid, t) bs /\ first_ts < t /\ t <= first_ts + 7 * 86400)) /\
  (forall uid first_ts, uid <> VNull ->
     repurchased [(uid, first_ts); (uid, first_ts + 7 * 86400)] (uid, Some first_ts) = true /\
     repurchased [(uid, first_ts); (uid, first_ts + 8 * 86400)] (uid, Some first_ts) = false) /\
  NoDup (map fst (first_buy bs)) /\
  buyers q = Z.of_nat (List.length (distinct sqlval_eqb (map fst bs))) /\
  (buyers q <> 0 ->
     exists r, repurchasers q = Some r /\
               r = Z.of_nat (List.length (filter (repurchased bs) (first_buy bs))) /\
               0 <= r <= buyers q /\
               rate q = Some (r # Z.to_pos (buyers q))%Q /\
               (asked = true ->
                _metrics_payload true db
                = Ok (Metrics (d1_retention ub)
                              (Some {| p_buyers := buyers q;
                                       p_repurchasers_7d := r;
                                       p_rate := Some (r # Z.to_pos (buyers q))%Q |})))) /\
  (buyers q = 0 ->
     bs = [] /\ repurchasers q = None /\ rate q = None /\
     (asked = true -> _metrics_payload true db = Raise TypeError)) /\
  map fst (first_buy bs) = distinct sqlval_eqb (map fst bs) /\
  (forall first_ts, repurchased bs (VNull, first_ts) = false).
Proof.
  cbv zeta.
  assert (Hpayload :
    Py.mem "user_behavior" (tables db)
    && match _pick (user_behavior_cols db) ["user_id"; "user"],
             _pick (user_behavior_cols db) ["timestamp"; "time"; "ts"],
             _pick (user_behavior_cols db) ["behavior_type"; "behavior"] with
       | Some _, Some _, Some _ => true
       | _, _, _ => false
       end = true ->
    _metrics_payload true db
    = (p <- rep_payload_of (repurchase_query (user_behavior db)) ;;
       Ok (Metrics (d1_retention (user_behavior db)) (Some p)))).
  { intros Hask. apply andb_prop in Hask. destruct Hask as [Hmem Hcols].
    unfold _metrics_payload. cbn [negb]. rewrite Hmem. cbn [negb].
    destruct (_pick (user_behavior_cols db) ["user_id"; "user"]); [|discriminate].
    destruct (_pick (user_behavior_cols db) ["timestamp"; "time"; "ts"]); [|discriminate].
    destruct (_pick (user_behavior_cols db) ["behavior_type"; "behavior"]); [|discriminate].
    reflexivity. }
  split.
  { intros uid t. rewrite In_buys. split.
    - intros [r [Hin [Hu [Ht Hb]]]]. apply _buy_pred_iff in Hb.
      destruct Hb as [s [Hs Hl]]. exists r, s. auto.
    - intros [r [s [Hin [Hu [Ht [Hs Hl]]]]]]. exists r.
      split; [exact Hin|]. split; [exact Hu|]. split; [exact Ht|].
      apply _buy_pred_iff. eauto. }
  split.
  { intros uid Hnn Hin.
    destruct (first_buy_row (buys (user_behavior db)) uid Hin) as [first_ts [H1 [H2 H3]]].
    exists first_ts. repeat split; auto; now apply repurchased_iff. }
  split.
  { intros uid first_ts Hnn. split.
    - apply repurchased_iff; [assumption|].
      exists (first_ts + 7 * 86400). simpl. split; [auto | lia].
    - destruct (repurchased _ _) eqn:Hr; [|reflexivity].
      apply repurchased_iff in Hr; [|assumption].
      destruct Hr as [t [[Ht | [Ht | []]] [Hgt Hle]]]; inversion Ht; lia. }
  split; [rewrite first_buy_users; apply NoDup_distinct; apply sqlval_eqb_spec|].
  split.
  { unfold repurchase_query. cbn [buyers]. unfold count_star.
    now rewrite <- first_buy_users, length_map. }
  split; [|split; [|split]].
  - intros Hb. unfold repurchase_query in Hb |- *.
    cbn [buyers repurchasers rate] in Hb |- *.
    destruct (first_buy (buys (user_behavior db))) as [|fb fbs] eqn:Hfb; [now elim Hb|].
    unfold sum_case_nullable. eexists. split; [reflexivity|].
    rewrite sum_case_bool. split; [reflexivity|].
    assert (Hle : Z.of_nat (List.length (filter (repurchased (buys (user_behavior db)))
                                                (fb :: fbs)))
                  <= count_star (fb :: fbs)).
    { rewrite <- sum_case_bool. apply sum_case_le_count. }
    assert (Hrate : div_nullif
                      (Z.of_nat (List.length (filter (repurchased (buys (user_behavior db)))
                                                     (fb :: fbs))))
                      (count_star (fb :: fbs))
                    = Some (Z.of_nat (List.length
                                        (filter (repurchased (buys (user_behavior db)))
                                                (fb :: fbs)))
                            # Z.to_pos (count_star (fb :: fbs)))%Q).
    { unfold div_nullif.
      destruct (Z.eqb_spec (count_star (fb :: fbs)) 0); [contradiction | reflexivity]. }
    split; [lia|]. split; [exact Hrate|].
    intros Hask. rewrite (Hpayload Hask).
    unfold rep_payload_of, repurchase_query. cbn [repurchasers buyers rate].
    rewrite Hfb. unfold sum_case_nullable. rewrite sum_case_bool, Hrate. reflexivity.
  - intros Hb. unfold repurchase_query in Hb |- *.
    cbn [buyers repurchasers rate] in Hb |- *.
    assert (Hnil : first_buy (buys (user_behavior db)) = []).
    { destruct (first_buy (buys (user_behavior db))) as [|fb fbs]; [reflexivity|].
      unfold count_star in Hb.
      change (List.length (fb :: fbs)) with (S (List.length fbs)) in Hb. lia. }
    split; [now apply first_buy_nil_iff|].
    rewrite Hnil. cbn [sum_case_nullable]. split; [reflexivity|]. split; [reflexivity|].
    intros Hask. rewrite (Hpayload Hask).
    unfold rep_payload_of, repurchase_query. cbn [repurchasers buyers rate].
    rewrite Hnil. reflexivity.
  - apply first_buy_users.
  - intros first_ts.
    destruct (repurchased (buys (user_behavior db)) (VNull, first_ts)) eqn:Hr; [|reflexivity].
    unfold repurchased in Hr. apply existsb_exists in Hr. destruct Hr as [b2 [_ H]].
    cbn [fst snd] in H. rewrite !holds_and, holds_eqv in H.
    destruct H as [[[_ Hn] _] _]. now elim Hn.
Qed.

(** A table of views only, with a behaviour column and no purchase: the
    metrics raise.  In the sample of purchases user 1 is counted. *)
Lemma C7_witness :
  _metrics_payload true
    {| tables := ["user_behavior"];
       user_behavior_cols := ["user_id"; "item_id"; "behavior_type"; "timestamp"];
       user_behavior := five_days |} = Raise TypeError /\
  (exists first_ts,
      In (VInt 1, Some first_ts) (first_buy (buys purchases)) /\
      In (VInt 1, first_ts) (buys purchases) /\
      (forall t, In (VInt 1, t) (buys purchases) -> first_ts <= t) /\
      (repurchased (buys purchases) (VInt 1, Some first_ts) = true <->
       exists t, In (VInt 1, t) (buys purchases) /\
                 first_ts < t /\ t <= first_ts + 7 * 86400)).
Proof.
  split.
  - destruct (C7_repurchase_within_7_days (E := duck)
                {| tables := ["user_behavior"];
                   user_behavior_cols := ["user_id"; "item_id"; "behavior_type"; "timestamp"];
                   user_behavior := five_days |})
      as [_ [_ [_ [_ [_ [_ [Hnone _]]]]]]].
    destruct Hnone as [_ [_ [_ Hraise]]]; [vm_compute; reflexivity|].
    apply Hraise. vm_compute. reflexivity.
  - destruct (C7_repurchase_within_7_days (E := duck)
                {| tables := ["user_behavior"];
                   user_behavior_cols := ["user_id"; "item_id"; "behavior_type"; "timestamp"];
                   user_behavior := purchases |})
      as [_ [Huser _]].
    apply (Huser (VInt 1)); [discriminate|]. vm_compute. auto.
Defined.

(** The scenario of the specification, on calendar times: user 1 (second
    purchase after exactly seven days) is the one repurchaser among three
    buyers; users 2 and 3 come one second and one day too late. *)
Example repurchase_boundary :
  repurchase_query purchases = {| buyers := 3; repurchasers := Some 1; rate := Some (1 # 3)%Q |} /\
  map (repurchased (buys purchases)) (first_buy (buys purchases)) = [true; false; false].
Proof. vm_compute. split; reflexivity. Qed.

(** With no purchase at all the query returns NULL for [repurchasers], and
    building the payload from it raises. *)
Example repurchase_payload_without_buyers :
  repurchase_query five_days = {| buyers := 0; repurchasers := None; rate := None |} /\
  rep_payload_of (repurchase_query five_days) = Raise TypeError.
Proof. vm_compute. split; reflexivity. Qed.

(** ** Segment names and the export limit *)

Lemma In_firstn {A : Type} (n : nat) (l : list A) (x : A) :
  In x (firstn n l) -> In x l.
Proof.
  intros H. rewrite <- (firstn_skipn n l). apply in_or_app. now left.
Qed.

Lemma in_dict_SEG_ZH (s : string) :
  in_dict s _SEG_ZH = true <-> In s segment_names.
Proof.
  unfold in_dict, _SEG_ZH, segment_names. cbn [Py.get].
  destruct (String.eqb_spec s "new"); [simpl; intuition|].
  destruct (String.eqb_spec s "active"); [simpl; intuition|].
  destruct (String.eqb_spec s "warm"); [simpl; intuition|].
  destruct (String.eqb_spec s "dormant"); [simpl; intuition|].
  simpl. split; [discriminate|]. intuition congruence.
Qed.

Lemma normalize_segment_known (segment : string) :
  In (normalize_segment segment) segment_names.
Proof.
  unfold normalize_segment.
  destruct (in_dict (Py.lower (Py.strip segment)) _SEG_ZH) eqn:H.
  - now apply in_dict_SEG_ZH.
  - simpl. auto.
Qed.

Lemma normalize_segment_unknown (segment : string) :
  ~ In (Py.lower (Py.strip segment)) segment_names ->
  normalize_segment segment = "warm".
Proof.
  intros H. unfold normalize_segment.
  destruct (in_dict (Py.lower (Py.strip segment)) _SEG_ZH) eqn:Hd; [|reflexivity].
  apply in_dict_SEG_ZH in Hd. contradiction.
Qed.

Lemma _segment_sql_by_name (duckdb : bool) (db : database) (s1 s2 : string) :
  normalize_segment s1 = normalize_segment s2 ->
  _segment_sql duckdb db s1 = _segment_sql duckdb db s2.
Proof. intros H. unfold _segment_sql. now rewrite H. Qed.

(** Keeping some rows of a list of pairs keeps the first components
    distinct. *)
Lemma kept_keys_once {K V : Type} (keep : K * V -> bool) (rows : list (K * V)) :
  NoDup (map fst rows) -> NoDup (map fst (filter keep rows)).
Proof.
  intros Hnd. induction rows as [|[k v] rest IH]; [constructor|].
  simpl in Hnd. inversion Hnd as [|? ? Hfresh Hrest]. subst.
  simpl. destruct (keep (k, v)); [|now apply IH].
  simpl. constructor; [|now apply IH].
  intros Hin. apply Hfresh. apply in_map_iff in Hin.
  destruct Hin as [[k' v'] [Hk Hin]]. apply filter_In in Hin.
  apply in_map_iff. exists (k', v'). tauto.
Qed.

Lemma NoDup_first_rows {A : Type} (n : nat) (l : list A) :
  NoDup l -> NoDup (firstn n l).
Proof.
  intros Hnd. rewrite <- (firstn_skipn n l) in Hnd.
  exact (NoDup_app_remove_r _ _ Hnd).
Qed.

Lemma seg_users_once {E : Engine} (ub : list raw_row) : NoDup (map fst (seg ub)).
Proof.
  unfold seg, agg. rewrite !map_map. cbn [fst u]. rewrite map_id.
  apply NoDup_distinct. apply sqlval_eqb_spec.
Qed.

(** C10. Whatever name is passed, the segment used is one of new, active,
    warm, dormant, and the query returned is the query of that segment.  A
    name that is one of the four once stripped and lower-cased is used in
    that form.  A name that is none of these (the empty name among them) is
    replaced by warm: the segment query and the export answer
    exactly as they do for "warm", with no error of their own, and with
    duckdb, the table and the two columns the export is a file of users.
    The limit of the export is clamped to [1, 200000]: a limit in the range
    is kept, a smaller one becomes 1 and a larger one 200000.  The export
    then holds the users of the segment used, each once: as many as the
    clamped limit allows, and all of them when they are no more than that. *)
Theorem C10_segment_fallback_and_limit {E : Engine} (duckdb : bool) (db : database)
    (segment : string) (limit : Z) :
  In (normalize_segment segment) segment_names /\
  fst (fst (fst (_segment_sql duckdb db segment))) = normalize_segment segment /\
  (~ In (Py.lower (Py.strip segment)) segment_names ->
     normalize_segment segment = "warm" /\
     _segment_sql duckdb db segment = _segment_sql duckdb db "warm" /\
     action_export_users duckdb db segment limit = action_export_users duckdb db "warm" limit) /\
  _segment_sql duckdb db "" = _segment_sql duckdb db "warm" /\
  1 <= clamp_limit limit <= 200000 /\
  (forall name header rows,
     action_export_users duckdb db segment limit = Csv name header rows ->
     Z.of_nat (List.length rows) <= clamp_limit limit /\
     forall who, In who rows -> In (who, normalize_segment segment) (seg (user_behavior db))) /\
  (forall q, snd (_segment_sql duckdb db segment) = Some q ->
     q = SelectUsers (normalize_segment segment)) /\
  ((1 <= limit <= 200000 -> clamp_limit limit = limit) /\
   (limit < 1 -> clamp_limit limit = 1) /\
   (200000 < limit -> clamp_limit limit = 200000)) /\
  (In (Py.lower (Py.strip segment)) segment_names ->
   normalize_segment segment = Py.lower (Py.strip segment)) /\
  (duckdb = true -> Py.mem "user_behavior" (tables db) = true ->
   _pick (user_behavior_cols db) ["user_id"; "user"] <> None ->
   _pick (user_behavior_cols db) ["timestamp"; "time"; "ts"] <> None ->
   exists rows,
     action_export_users duckdb db segment limit
     = Csv ("users_" ++ normalize_segment segment ++ ".csv") "user_id" rows) /\
  (forall name header rows,
     action_export_users duckdb db segment limit = Csv name header rows ->
     let members :=
       map fst (filter (fun x => String.eqb (snd x) (normalize_segment segment))
                       (seg (user_behavior db))) in
     name = ("users_" ++ normalize_segment segment ++ ".csv")%string /\
     header = "user_id" /\
     NoDup rows /\
     Z.of_nat (List.length rows)
     = Z.min (clamp_limit limit) (Z.of_nat (List.length members)) /\
     (Z.of_nat (List.length members) <= clamp_limit limit ->
      forall who, In (who, normalize_segment segment) (seg (user_behavior db)) ->
                  In who rows)).
Proof.
  split; [apply normalize_segment_known|].
  split.
  { unfold _segment_sql. destruct (negb duckdb); [reflexivity|].
    destruct (negb _); [reflexivity|].
    destruct (_pick _ _); [|reflexivity]. destruct (_pick _ _); reflexivity. }
  split.
  { intros Hun. pose proof (normalize_segment_unknown segment Hun) as Hw.
    assert (Hsql : _segment_sql duckdb db segment = _segment_sql duckdb db "warm")
      by (apply _segment_sql_by_name; rewrite Hw; reflexivity).
    repeat split; auto. unfold action_export_users. now rewrite Hsql. }
  split; [apply _segment_sql_by_name; reflexivity|].
  split; [unfold clamp_limit; lia|].
  split.
  { intros name header rows. unfold action_export_users, _segment_sql.
    destruct (negb duckdb); [discriminate|].
    destruct (negb _); [discriminate|].
    destruct (_pick _ _); [|discriminate]. destruct (_pick _ _); [|discriminate].
    intros H. inversion H. subst. clear H. unfold run_segment_query. split.
    - rewrite length_firstn. unfold clamp_limit. lia.
    - intros who Hin. apply In_firstn in Hin. apply in_map_iff in Hin.
      destruct Hin as [[who' sg] [Hw Hin]]. simpl in Hw. subst who'.
      apply filter_In in Hin. destruct Hin as [Hin Hs].
      simpl in Hs. apply String.eqb_eq in Hs. now subst. }
  split.
  { intros q. unfold _segment_sql. destruct (negb duckdb); [discriminate|].
    destruct (negb _); [discriminate|].
    destruct (_pick _ _); [|discriminate]. destruct (_pick _ _); [|discriminate].
    cbn [snd]. intros H. now inversion H. }
  split; [unfold clamp_limit; lia|].
  split.
  { intros Hknown. unfold normalize_segment.
    destruct (in_dict (Py.lower (Py.strip segment)) _SEG_ZH) eqn:Hd; [reflexivity|].
    apply in_dict_SEG_ZH in Hknown. congruence. }
  split.
  { intros -> Hub Hu Ht. unfold action_export_users, _segment_sql. cbn [negb].
    rewrite Hub. cbn [negb].
    destruct (_pick (user_behavior_cols db) ["user_id"; "user"]); [|now elim Hu].
    destruct (_pick (user_behavior_cols db) ["timestamp"; "time"; "ts"]); [|now elim Ht].
    eexists. reflexivity. }
  intros name header rows. unfold action_export_users, _segment_sql.
  destruct (negb duckdb); [discriminate|].
  destruct (negb _); [discriminate|].
  destruct (_pick _ _); [|discriminate]. destruct (_pick _ _); [|discriminate].
  intros H. inversion H. subst. clear H. unfold run_segment_query. cbv zeta.
  set (members := map fst (filter (fun x => String.eqb (snd x) (normalize_segment segment))
                                  (seg (user_behavior db)))).
  assert (Hclamp : 1 <= clamp_limit limit) by (unfold clamp_limit; lia).
  split; [reflexivity|]. split; [reflexivity|]. split.
  { apply NoDup_first_rows. unfold members. apply kept_keys_once. apply seg_users_once. }
  split; [rewrite length_firstn; lia|].
  intros Hall who Hin. rewrite firstn_all2 by lia.
  unfold members. apply in_map_iff. exists (who, normalize_segment segment).
  split; [reflexivity|]. apply filter_In. split; [exact Hin|]. apply String.eqb_refl.
Qed.

Lemma C10_witness :
  normalize_segment "  Bogus " = "warm" /\
  action_export_users true
    {| tables := ["user_behavior"]; user_behavior_cols := ["user_id"; "timestamp"];
       user_behavior := returning |} "  Bogus " 0
  = action_export_users true
    {| tables := ["user_behavior"]; user_behavior_cols := ["user_id"; "timestamp"];
       user_behavior := returning |} "warm" 0.
Proof.
  destruct (C10_segment_fallback_and_limit (E := duck) true
              {| tables := ["user_behavior"]; user_behavior_cols := ["user_id"; "timestamp"];
                 user_behavior := returning |} "  Bogus " 0) as [_ [_ [Hun _]]].
  destruct Hun as [Hw [_ Hexp]].
  - vm_compute. intros H. repeat (destruct H as [H | H]; [discriminate|]). contradiction.
  - split; assumption.
Defined.

Example export_of_unknown_segment :
  action_export_users true
    {| tables := ["user_behavior"]; user_behavior_cols := ["user_id"; "timestamp"];
       user_behavior := returning |} "  Bogus " 0
  = Csv "users_warm.csv" "user_id" [VInt 2].
Proof. vm_compute. reflexivity. Qed.

(** * Further properties of the two files *)

(** ** Resolving column names *)

(** [_pick] returns the first candidate that is a column, and nothing only
    when no candidate is a column. *)
Theorem pick_first_candidate (cols cands : list string) :
  match _pick cols cands with
  | Some c =>
      exists pre post, cands = (pre ++ c :: post)%list /\ In c cols /\
                       forall p, In p pre -> ~ In p cols
  | None => forall c, In c cands -> ~ In c cols
  end.
Proof.
  assert (Hmem : forall c, Py.mem c cols = true <-> In c cols).
  { intros c. unfold Py.mem. rewrite existsb_exists. split.
    - intros [x [Hx Heq]]. apply String.eqb_eq in Heq. now subst.
    - intros H. exists c. split; [exact H | apply String.eqb_refl]. }
  induction cands as [|a t IH]; simpl.
  - intros c [].
  - destruct (Py.mem a cols) eqn:Ha.
    + exists [], t. repeat split; [now apply Hmem | intros p []].
    + assert (Hna : ~ In a cols) by (rewrite <- Hmem; congruence).
      destruct (_pick cols t) as [c|].
      * destruct IH as [pre [post [-> [Hc Hpre]]]].
        exists (a :: pre), post. repeat split; auto.
        intros p [<- | Hp]; auto.
      * intros c [<- | Hc]; auto.
Qed.

Import BuilderCli.

Lemma get_dict_set_same (k v : string) (d : list (string * string)) :
  Py.get k (dict_set k v d) = Some v.
Proof.
  induction d as [|[k' v'] t IH]; simpl.
  - now rewrite String.eqb_refl.
  - destruct (String.eqb k k') eqn:Hk; simpl; rewrite ?String.eqb_refl, ?Hk; auto.
Qed.

Lemma get_dict_set_other (k k' v : string) (d : list (string * string)) :
  k <> k' -> Py.get k (dict_set k' v d) = Py.get k d.
Proof.
  intros Hne. induction d as [|[k2 v2] t IH]; simpl.
  - destruct (String.eqb_spec k k'); [contradiction | reflexivity].
  - destruct (String.eqb_spec k' k2) as [->|Hk2]; simpl.
    + destruct (String.eqb_spec k k2); [contradiction | reflexivity].
    + destruct (String.eqb_spec k k2); [reflexivity | exact IH].
Qed.

Lemma lower_map_fold (key : string) (existing : list string) (d0 : list (string * string)) :
  match Py.get key (fold_left (fun d c => dict_set (Py.lower c) c d) existing d0) with
  | Some c =>
      (exists l1 l2, existing = (l1 ++ c :: l2)%list /\ Py.lower c = key /\
                     forall x, In x l2 -> Py.lower x <> key)
      \/ (Py.get key d0 = Some c /\ forall x, In x existing -> Py.lower x <> key)
  | None => Py.get key d0 = None /\ forall x, In x existing -> Py.lower x <> key
  end.
Proof.
  revert d0. induction existing as [|a t IH]; intros d0; simpl.
  - destruct (Py.get key d0); [right|]; split; auto.
  - specialize (IH (dict_set (Py.lower a) a d0)).
    destruct (Py.get key (fold_left _ t _)) as [c|].
    + destruct IH as [[l1 [l2 [-> [Hc Hl2]]]] | [Hget Ht]].
      * left. exists (a :: l1), l2. auto.
      * destruct (String.eqb_spec key (Py.lower a)) as [->|Hne].
        -- rewrite get_dict_set_same in Hget. inversion Hget. subst c.
           left. exists [], t. auto.
        -- rewrite get_dict_set_other in Hget by exact Hne.
           right. split; [exact Hget|]. intros x [<- | Hx]; auto.
    + destruct IH as [Hget Ht].
      destruct (String.eqb_spec key (Py.lower a)) as [->|Hne].
      * rewrite get_dict_set_same in Hget. discriminate.
      * rewrite get_dict_set_other in Hget by exact Hne.
        split; [exact Hget|]. intros x [<- | Hx]; auto.
Qed.

Lemma lower_map_get (key : string) (existing : list string) :
  match Py.get key (lower_map existing) with
  | Some c =>
      exists l1 l2, existing = (l1 ++ c :: l2)%list /\ Py.lower c = key /\
                    forall x, In x l2 -> Py.lower x <> key
  | None => forall x, In x existing -> Py.lower x <> key
  end.
Proof.
  unfold lower_map. pose proof (lower_map_fold key existing []) as H.
  destruct (Py.get key (fold_left _ existing [])) as [c|].
  - destruct H as [H | [H _]]; [exact H | discriminate].
  - apply H.
Qed.

Lemma pick_col_spec (existing candidates : list string) :
  match _pick_col existing candidates with
  | Some c =>
      (exists pre cand post,
          candidates = (pre ++ cand :: post)%list /\ Py.lower c = Py.lower cand /\
          forall p x, In p pre -> In x existing -> Py.lower x <> Py.lower p) /\
      (exists l1 l2,
          existing = (l1 ++ c :: l2)%list /\
          forall x, In x l2 -> Py.lower x <> Py.lower c)
  | None =>
      forall cand x, In cand candidates -> In x existing -> Py.lower x <> Py.lower cand
  end.
Proof.
  unfold _pick_col.
  induction candidates as [|a t IH]; simpl.
  - intros cand x [].
  - pose proof (lower_map_get (Py.lower a) existing) as Ha.
    destruct (Py.get (Py.lower a) (lower_map existing)) as [c|].
    + destruct Ha as [l1 [l2 [He [Hc Hl2]]]]. split.
      * exists [], a, t. repeat split; auto.
      * exists l1, l2. split; [exact He|]. now rewrite Hc.
    + destruct (pick_from (lower_map existing) t) as [c|].
      * destruct IH as [[pre [cand [post [-> [Hc Hpre]]]]] Hlast].
        split; [|exact Hlast].
        exists (a :: pre), cand, post. repeat split; auto.
        intros p x [<- | Hp] Hx; auto.
      * intros cand x [<- | Hc] Hx; auto.
Qed.

(** [_pick_col] compares names without regard to case.  It returns a column
    of the table in its own spelling (the last one, when several differ only
    by case), for the first candidate that has one; it returns nothing only
    when no candidate matches a column.  [_require_col] gives that column,
    and raises when there is none, or when the column found has the empty
    name. *)
Theorem pick_col_case_insensitive (existing candidates : list string) (human_name : string) :
  match _pick_col existing candidates with
  | Some c =>
      (exists pre cand post,
          candidates = (pre ++ cand :: post)%list /\ Py.lower c = Py.lower cand /\
          forall p x, In p pre -> In x existing -> Py.lower x <> Py.lower p) /\
      (exists l1 l2,
          existing = (l1 ++ c :: l2)%list /\
          forall x, In x l2 -> Py.lower x <> Py.lower c) /\
      _require_col existing candidates human_name =
        (if String.eqb c "" then RuntimeError human_name else Column c)
  | None =>
      (forall cand x, In cand candidates -> In x existing -> Py.lower x <> Py.lower cand) /\
      _require_col existing candidates human_name = RuntimeError human_name
  end.
Proof.
  pose proof (pick_col_spec existing candidates) as H.
  unfold _require_col.
  destruct (_pick_col existing candidates) as [c|].
  - destruct H as [H1 H2]. repeat split; assumption.
  - split; [exact H | reflexivity].
Qed.

Example pick_col_last_spelling :
  _pick_col ["Item"; "USER_ID"; "User_Id"; "ts"] user_candidates = Some "User_Id" /\
  _pick_col ["Item"; "uid"; "USER"] user_candidates = Some "uid" /\
  _require_col ["item"; "ts"] user_candidates "user_id" = RuntimeError "user_id".
Proof. vm_compute. repeat split; reflexivity. Qed.

(** ** Running the builder again, and running it for one mode *)

Section BuilderModes.
Context {E : Engine}.

(** A run that ended without an error can be repeated: the second run
    ends without an error too and leaves the database as the first did. *)
Theorem rebuild_changes_nothing (d0 : db) (mode : string) :
  snd (build_item_funnel_features mode d0) = Ok tt ->
  build_item_funnel_features mode (fst (build_item_funnel_features mode d0))
  = (fst (build_item_funnel_features mode d0), Ok tt).
Proof.
  unfold build_item_funnel_features, seq, create_user_item_stage,
    when, create_features, create_default_views, create_both_view, ret.
  destruct d0 as [src st lo sr v vd vb]. cbn.
  destruct (ub_norm src) as [ns|err] eqn:Hns; cbn; [|discriminate].
  destruct (String.eqb mode "both"), (String.eqb mode "nonstrict"),
    (String.eqb mode "strict"); cbn;
    destruct lo, sr; cbn;
    intros H; try discriminate; rewrite ?Hns; cbn; reflexivity.
Qed.

(** Mode [strict] writes the strict table and never touches the loose one.
    The two compatibility views are then created over the loose table as it
    was: without one the run raises after the strict table is written and
    leaves no view; with one the run succeeds and the default view shows the
    rows of the earlier run. *)
Theorem strict_mode_keeps_loose_table (d0 : db) (ns : list norm_row) :
  ub_norm (source_table d0) = Ok ns ->
  let r := build_item_funnel_features "strict" d0 in
  item_funnel_features_loose (fst r) = item_funnel_features_loose d0 /\
  item_funnel_features_strict (fst r) = Some (_select_sql 1 (user_item_stage_of ns)) /\
  (item_funnel_features_loose d0 = None ->
     snd r = Raise CatalogError /\
     item_funnel_features (fst r) = false /\
     item_funnel_features_default (fst r) = false) /\
  (forall old, item_funnel_features_loose d0 = Some old ->
     snd r = Ok tt /\ read_item_funnel_features (fst r) = Some old).
Proof.
  intros Hns.
  unfold build_item_funnel_features, seq, create_user_item_stage,
    when, create_features, create_default_views, create_both_view, ret,
    read_item_funnel_features.
  destruct d0 as [src st lo sr v vd vb]. cbn in *. rewrite Hns. cbn.
  destruct lo as [old|]; cbn; repeat split;
    try reflexivity; try discriminate; inversion H; reflexivity.
Qed.

End BuilderModes.

Lemma rebuild_changes_nothing_example :
  build_item_funnel_features "both"
    (fst (build_item_funnel_features "both" (fresh_db events)))
  = (fst (build_item_funnel_features "both" (fresh_db events)), Ok tt).
Proof.
  apply (rebuild_changes_nothing (E := duck)). vm_compute. reflexivity.
Defined.

Lemma strict_mode_on_fresh_database :
  item_funnel_features_loose (fst (build_item_funnel_features "strict" (fresh_db events))) = None /\
  snd (build_item_funnel_features "strict" (fresh_db events)) = Raise CatalogError.
Proof.
  destruct (strict_mode_keeps_loose_table (E := duck) (fresh_db events)
              [ {| user_id := Some 1; item_id := Some 1; action := Some "pv"; ts := Some 0 |};
                {| user_id := Some 1; item_id := Some 1; action := Some "fav"; ts := Some 3600 |};
                {| user_id := Some 1; item_id := Some 1; action := Some "cart"; ts := Some 7200 |};
                {| user_id := Some 1; item_id := Some 1; action := Some "buy"; ts := Some 10800 |};
                {| user_id := Some 2; item_id := Some 1; action := Some "pv"; ts := Some 0 |};
                {| user_id := Some 2; item_id := Some 1; action := Some "cart"; ts := Some 3600 |};
                {| user_id := Some 2; item_id := Some 1; action := Some "fav"; ts := Some 7200 |};
                {| user_id := Some 2; item_id := Some 1; action := Some "buy"; ts := Some 10800 |};
                {| user_id := Some 3; item_id := Some 2; action := Some "fav"; ts := Some 50 |} ])
    as [Hloose [_ [Hnone _]]].
  - vm_compute. reflexivity.
  - split; [exact Hloose|]. apply Hnone. reflexivity.
Defined.

(** ** The stage table: one row per pair, earliest times *)

Lemma sql_min_Some (l : list (option Z)) (t : Z) :
  sql_min l = Some t <->
  In (Some t) l /\ forall t', In (Some t') l -> t <= t'.
Proof.
  revert t. induction l as [|x l IH]; intros t; simpl.
  - split; [discriminate | intros [[] _]].
  - destruct (sql_min l) as [m|] eqn:Hm.
    + destruct (IH m) as [IH1 _]. destruct (IH1 eq_refl) as [Hin Hall].
      destruct x as [a|]; simpl.
      * split.
        -- intros H. inversion H. subst t. split.
           ++ destruct (Z.min_spec a m) as [[_ ->] | [_ ->]]; auto.
           ++ intros t' [Ht | Ht]; [inversion Ht; lia | specialize (Hall t' Ht); lia].
        -- intros [[Ht | Ht] Hle].
           ++ inversion Ht. subst a. f_equal. specialize (Hle m (or_intror Hin)). lia.
           ++ specialize (Hall t Ht).
              pose proof (Hle a (or_introl eq_refl)). pose proof (Hle m (or_intror Hin)).
              f_equal. lia.
      * split.
        -- intros H. inversion H. subst t. split; [auto|].
           intros t' [Ht | Ht]; [discriminate | auto].
        -- intros [[Ht | Ht] Hle]; [discriminate|].
           f_equal. specialize (Hall t Ht). specialize (Hle m (or_intror Hin)). lia.
    + assert (Hnone : forall t', ~ In (Some t') l).
      { intros t' Hin. clear IH. induction l as [|y l IHl]; [contradiction|].
        simpl in Hm. destruct y as [b|]; simpl in Hm.
        - destruct (sql_min l); discriminate.
        - destruct Hin as [Hin | Hin]; [discriminate | auto]. }
      destruct x as [a|]; simpl.
      * split.
        -- intros H. inversion H. subst t. split; [auto|].
           intros t' [Ht | Ht]; [inversion Ht; lia | now elim (Hnone t')].
        -- intros [[Ht | Ht] _]; [exact Ht | now elim (Hnone t)].
      * split; [discriminate|]. intros [[Ht | Ht] _]; [discriminate | now elim (Hnone t)].
Qed.

Lemma min_ts_of_spec (a : string) (g : list norm_row) (t : Z) :
  min_ts_of a g = Some t <->
  (exists n, In n g /\ action n = Some a /\ ts n = Some t) /\
  (forall n t', In n g -> action n = Some a -> ts n = Some t' -> t <= t').
Proof.
  unfold min_ts_of. rewrite sql_min_Some.
  assert (Hf : forall n x,
             (if holds (sql_eqs (action n) a) then ts n else None) = Some x <->
             action n = Some a /\ ts n = Some x).
  { intros n x. destruct (action n) as [b|]; simpl.
    - destruct (String.eqb_spec b a) as [->|Hne]; simpl.
      + split; [auto | intros [_ H]; exact H].
      + split; [discriminate | intros [H _]; congruence].
    - split; [discriminate | intros [H _]; discriminate]. }
  split.
  - intros [Hin Hle]. split.
    + apply in_map_iff in Hin. destruct Hin as [n [Hn Hin]].
      apply Hf in Hn. exists n. tauto.
    + intros n t' Hin' Ha Ht. apply Hle. apply in_map_iff. exists n.
      split; [apply Hf; auto | exact Hin'].
  - intros [[n [Hin [Ha Ht]]] Hle]. split.
    + apply in_map_iff. exists n. split; [apply Hf; auto | exact Hin].
    + intros t' Hin'. apply in_map_iff in Hin'. destruct Hin' as [n' [Hn' Hin']].
      apply Hf in Hn'. destruct Hn'. eauto.
Qed.

(** [user_item_stage] holds one row for each (user, item) that has an event
    with one of the four actions, and only for those; each of its four times
    is the earliest time of that action among the events of the pair, and is
    NULL exactly when the pair has no event of that action. *)
Theorem user_item_stage_earliest (ns : list norm_row) :
  let st := user_item_stage_of ns in
  let earliest (s : stage_row) (a : string) (x : option Z) :=
    forall t,
      x = Some t <->
      (exists n, In n ns /\ user_id n = s_user s /\ item_id n = s_item s /\
                 action n = Some a /\ ts n = Some t) /\
      (forall n t', In n ns -> user_id n = s_user s -> item_id n = s_item s ->
                    action n = Some a -> ts n = Some t' -> t <= t') in
  NoDup (map (fun s => (s_user s, s_item s)) st) /\
  (forall us it,
      (exists s, In s st /\ s_user s = us /\ s_item s = it) <->
      (exists n, In n ns /\ stage_where n = true /\ user_id n = us /\ item_id n = it)) /\
  (forall s, In s st ->
      earliest s "pv" (pv_ts s) /\ earliest s "fav" (fav_ts s) /\
      earliest s "cart" (cart_ts s) /\ earliest s "buy" (buy_ts s)).
Proof.
  cbv zeta. unfold user_item_stage_of.
  set (kept := filter stage_where ns).
  split; [|split].
  - rewrite map_map. cbn [s_user s_item stage_of_group].
    rewrite (map_ext _ (fun k => k)) by (intros [a b]; reflexivity).
    rewrite map_id. apply NoDup_distinct. apply pair_eqb_spec.
  - intros us it. split.
    + intros [s [Hin [Hu Hi]]]. apply in_map_iff in Hin. destruct Hin as [k [Hs Hk]].
      apply (proj1 (In_distinct pair_eqb pair_eqb_spec _ _)) in Hk.
      apply in_map_iff in Hk. destruct Hk as [n [Hn Hin]].
      apply filter_In in Hin. destruct Hin as [Hin Hw].
      exists n. subst s k. cbn in Hu, Hi. auto.
    + intros [n [Hin [Hw [Hu Hi]]]].
      exists (stage_of_group (stage_key n)
                (filter (fun m => pair_eqb (stage_key m) (stage_key n)) kept)).
      split; [|cbn; auto].
      apply in_map_iff. exists (stage_key n). split; [reflexivity|].
      apply (proj2 (In_distinct pair_eqb pair_eqb_spec _ _)).
      apply in_map. apply filter_In. auto.
  - intros s Hin. apply in_map_iff in Hin. destruct Hin as [k [Hs Hk]].
    subst s. cbn [pv_ts fav_ts cart_ts buy_ts s_user s_item stage_of_group].
    assert (Hlab : forall a, In a labels -> forall t,
               min_ts_of a (filter (fun n => pair_eqb (stage_key n) k) kept) = Some t <->
               (exists n, In n ns /\ user_id n = fst k /\ item_id n = snd k /\
                          action n = Some a /\ ts n = Some t) /\
               (forall n t', In n ns -> user_id n = fst k -> item_id n = snd k ->
                             action n = Some a -> ts n = Some t' -> t <= t')).
    { intros a Ha t. rewrite min_ts_of_spec.
      assert (Hg : forall n x, action n = Some a -> ts n = Some x ->
                 (In n (filter (fun n => pair_eqb (stage_key n) k) kept) <->
                  In n ns /\ user_id n = fst k /\ item_id n = snd k)).
      { intros n x Hact Hts. rewrite filter_In. unfold kept. rewrite filter_In.
        rewrite pair_eqb_spec. unfold stage_key.
        assert (Hw : stage_where n = true).
        { apply stage_where_iff. split; [eauto | congruence]. }
        destruct k as [k1 k2]. cbn [fst snd]. split.
        - intros [[Hin _] Hk']. inversion Hk'. auto.
        - intros [Hin [-> ->]]. auto. }
      split.
      - intros [[n [Hin [Hact Hts]]] Hle]. split.
        + exists n. apply (Hg n t Hact Hts) in Hin. tauto.
        + intros n' t' Hin' Hu Hi Hact' Hts'. apply (Hle n' t'); auto.
          apply (Hg n' t' Hact' Hts'). auto.
      - intros [[n [Hin [Hu [Hi [Hact Hts]]]]] Hle]. split.
        + exists n. repeat split; auto. apply (Hg n t Hact Hts). auto.
        + intros n' t' Hin' Hact' Hts'. apply (Hg n' t' Hact' Hts') in Hin'.
          destruct Hin' as [Hin' [Hu' Hi']]. eauto. }
    repeat split; apply Hlab; simpl; auto; apply Hlab; simpl; auto.
Qed.

(** ** The feature tables: one row per item, counts of pairs *)

Lemma cart_pv (strict : Z) (s : stage_row) :
  holds (cart_ok (preds_of strict) s) = true -> holds (pv_seen s) = true.
Proof. unfold preds_of. destruct (strict =? 0); tv_cases s. Qed.

Lemma rate_in_unit_interval (n d : Z) :
  0 <= n <= d ->
  match div_nullif n d with
  | Some q => d <> 0 /\ (0 <= q)%Q /\ (q <= 1)%Q
  | None => d = 0
  end.
Proof.
  intros H. unfold div_nullif. destruct (Z.eqb_spec d 0) as [H0|H0]; [exact H0|].
  split; [exact H0|]. unfold Qle. cbn [Qnum Qden]. rewrite Z2Pos.id by lia. lia.
Qed.

(** In the table of either mode there is one row per item.  In each row
    fav, cart and buy are at most pv, and pv is at most the number of
    (user, item) pairs of the item in [user_item_stage]: the counts are
    counts of pairs, not of events.  The three rates taken over pv are NULL
    exactly when pv is 0 and lie in [0, 1] otherwise. *)
Theorem feature_rows_count_pairs {E : Engine} (strict : Z) (source : list raw_row)
    (mode : string) (ns : list norm_row) (rows : list feature_row) :
  ub_norm source = Ok ns ->
  produced_table strict
    (fst (build_item_funnel_features mode (fresh_db source))) = Some rows ->
  NoDup (map f_item_id rows) /\
  forall row, In row rows ->
    0 <= fav row <= pv row /\ 0 <= cart row <= pv row /\ 0 <= buy row <= pv row /\
    pv row <= Z.of_nat (List.length (filter (fun s => optZ_eqb (s_item s) (f_item_id row))
                                            (user_item_stage_of ns))) /\
    (forall rate, In rate [pv_to_fav_rate row; pv_to_cart_rate row; pv_to_buy_rate row] ->
       match rate with
       | Some q => pv row <> 0 /\ (0 <= q)%Q /\ (q <= 1)%Q
       | None => pv row = 0
       end).
Proof.
  intros Hns Htab.
  apply produced_table_rows in Htab.
  apply funnel_rows_inv in Htab. destruct Htab as [ns' [Hns' ->]].
  assert (ns' = ns) by congruence. subst ns'.
  set (p := preds_of (if strict =? 0 then 0 else 1)).
  split.
  - unfold _select_sql. rewrite map_map. cbn [f_item_id feature_of_group].
    rewrite map_id. apply NoDup_distinct. apply optZ_eqb_spec.
  - intros row Hin. apply In_select_sql in Hin. destruct Hin as [it [_ ->]].
    cbn [fav cart buy pv pv_to_fav_rate pv_to_cart_rate pv_to_buy_rate f_item_id
         feature_of_group].
    fold p. set (g := filter _ _).
    assert (Hf : sum_case (fav_ok p) g <= sum_case pv_seen g)
      by (apply sum_case_le; intros r; apply fav_pv).
    assert (Hc : sum_case (cart_ok p) g <= sum_case pv_seen g)
      by (apply sum_case_le; intros r; apply cart_pv).
    assert (Hb : sum_case (buy_ok p) g <= sum_case pv_seen g)
      by (apply sum_case_le; intros r; apply buy_pv).
    pose proof (sum_case_nonneg (fav_ok p) g).
    pose proof (sum_case_nonneg (cart_ok p) g).
    pose proof (sum_case_nonneg (buy_ok p) g).
    pose proof (sum_case_le_count pv_seen g) as Hcnt. unfold count_star in Hcnt.
    repeat split; try lia.
    intros rate [<- | [<- | [<- | []]]]; apply rate_in_unit_interval; lia.
Qed.

Lemma feature_rows_count_pairs_example :
  NoDup (map f_item_id [strict_item1; item2]) /\
  0 <= fav strict_item1 <= pv strict_item1.
Proof.
  destruct (feature_rows_count_pairs (E := duck) 1 events "both"
              [ {| user_id := Some 1; item_id := Some 1; action := Some "pv"; ts := Some 0 |};
                {| user_id := Some 1; item_id := Some 1; action := Some "fav"; ts := Some 3600 |};
                {| user_id := Some 1; item_id := Some 1; action := Some "cart"; ts := Some 7200 |};
                {| user_id := Some 1; item_id := Some 1; action := Some "buy"; ts := Some 10800 |};
                {| user_id := Some 2; item_id := Some 1; action := Some "pv"; ts := Some 0 |};
                {| user_id := Some 2; item_id := Some 1; action := Some "cart"; ts := Some 3600 |};
                {| user_id := Some 2; item_id := Some 1; action := Some "fav"; ts := Some 7200 |};
                {| user_id := Some 2; item_id := Some 1; action := Some "buy"; ts := Some 10800 |};
                {| user_id := Some 3; item_id := Some 2; action := Some "fav"; ts := Some 50 |} ]
              [strict_item1; item2]) as [Hnd Hrow].
  - vm_compute. reflexivity.
  - vm_compute. reflexivity.
  - split; [exact Hnd|]. apply (Hrow strict_item1). left. reflexivity.
Defined.

(** ** The rate check at the end of [main] *)

Lemma sum_case_none {A : Type} (c : A -> tv) (l : list A) :
  (forall x, In x l -> holds (c x) = false) -> sum_case c l = 0.
Proof.
  induction l as [|a t IH]; intros H; [reflexivity|].
  change (sum_case c (a :: t)) with ((if holds (c a) then 1 else 0) + sum_case c t).
  rewrite (H a (or_introl eq_refl)), IH; [reflexivity|].
  intros x Hx. apply H. now right.
Qed.

Lemma sql_maxq_In (l : list (option Q)) (q : Q) :
  sql_maxq l = Some q -> In (Some q) l.
Proof.
  revert q. induction l as [|x t IH]; simpl; intros q H; [discriminate|].
  destruct x as [a|]; simpl in H.
  - destruct (sql_maxq t) as [m|].
    + destruct (Qle_bool a m); inversion H; subst; auto.
    + inversion H. auto.
  - right. auto.
Qed.

(** Read from the default view after a run of the builder, the check never
    counts a row: [bad_rate_rows] is 0 (NULL when the view has no row), and
    [max_rate], when there is one, is the rate of a row and lies in [0, 1]. *)
Theorem rate_check_finds_nothing {E : Engine} (source : list raw_row) (mode : string)
    (rows : list feature_row) :
  read_item_funnel_features
    (fst (build_item_funnel_features mode (fresh_db source))) = Some rows ->
  fst (rate_check rows) = match rows with [] => None | _ => Some 0 end /\
  forall q, snd (rate_check rows) = Some q ->
    (exists row, In row rows /\ pv_to_buy_rate row = Some q) /\ (0 <= q)%Q /\ (q <= 1)%Q.
Proof.
  intros Hview.
  assert (Htab : produced_table 0
                   (fst (build_item_funnel_features mode (fresh_db source))) = Some rows).
  { unfold read_item_funnel_features in Hview. unfold produced_table. cbn.
    destruct (item_funnel_features _); [exact Hview | discriminate]. }
  apply produced_table_rows in Htab. cbn in Htab.
  apply funnel_rows_inv in Htab. destruct Htab as [ns [_ Hrows]].
  assert (Hbound : forall row, In row rows ->
             match pv_to_buy_rate row with
             | Some q => (0 <= q)%Q /\ (q <= 1)%Q
             | None => True
             end).
  { intros row Hin. rewrite Hrows in Hin. apply In_select_sql in Hin.
    destruct Hin as [it [_ ->]]. cbn [pv_to_buy_rate feature_of_group].
    set (g := filter _ _).
    pose proof (rate_in_unit_interval (sum_case (buy_ok (preds_of 0)) g) (sum_case pv_seen g)) as Hr.
    destruct (div_nullif _ _); [|exact I]. apply Hr. split.
    - apply sum_case_nonneg.
    - apply sum_case_le. intros r. apply buy_pv. }
  unfold rate_check. cbn [fst snd]. split.
  - unfold sum_case_nullable. destruct rows as [|r0 rs] eqn:Hr; [reflexivity|].
    rewrite <- Hr in *. f_equal. apply sum_case_none. intros x Hx.
    specialize (Hbound x Hx). unfold sql_gtq.
    destruct (pv_to_buy_rate x) as [q|]; [|reflexivity].
    destruct Hbound as [_ Hle]. simpl.
    assert (Hq : Qle_bool q (100001 # 100000) = true).
    { apply Qle_bool_iff. eapply Qle_trans; [exact Hle|]. unfold Qle. simpl. lia. }
    now rewrite Hq.
  - intros q Hq. apply sql_maxq_In in Hq. apply in_map_iff in Hq.
    destruct Hq as [row [Hrate Hin]]. specialize (Hbound row Hin).
    rewrite Hrate in Hbound. split; [eauto | exact Hbound].
Qed.

Lemma rate_check_finds_nothing_example :
  fst (rate_check [loose_item1; item2]) = Some 0.
Proof.
  apply (rate_check_finds_nothing (E := duck) events "both" [loose_item1; item2]).
  vm_compute. reflexivity.
Defined.

(** ** Retention: what the two numbers count *)

Lemma du_eqb_spec (a b : Z * sqlval) : du_eqb a b = true <-> a = b.
Proof.
  destruct a as [d1 u1], b as [d2 u2]. unfold du_eqb. simpl.
  rewrite andb_true_iff, Z.eqb_eq, sqlval_eqb_spec. split.
  - intros [-> ->]. reflexivity.
  - intros H. inversion H. auto.
Qed.

Lemma filter_at_most_one {A : Type} (p : A -> bool) (l : list A) (y : A) :
  NoDup l -> (forall x, In x l -> p x = true -> x = y) ->
  filter p l = [] \/ filter p l = [y].
Proof.
  intros Hnd Hy.
  assert (Hf : NoDup (filter p l)) by now apply NoDup_filter.
  destruct (filter p l) as [|a [|b t]] eqn:Hfl; [auto| |].
  - right. f_equal. assert (Ha : In a (filter p l)) by (rewrite Hfl; now left).
    apply filter_In in Ha. destruct Ha. auto.
  - exfalso.
    assert (Ha : In a (filter p l)) by (rewrite Hfl; now left).
    assert (Hb : In b (filter p l)) by (rewrite Hfl; right; now left).
    apply filter_In in Ha. apply filter_In in Hb. destruct Ha as [Ha1 Ha2], Hb as [Hb1 Hb2].
    assert (a = b) by (rewrite (Hy a Ha1 Ha2), (Hy b Hb1 Hb2); reflexivity). subst b.
    inversion Hf. subst. apply H1. now left.
Qed.

Lemma existsb_filter_nil {A : Type} (p : A -> bool) (l : list A) :
  existsb p l = match filter p l with [] => false | _ => true end.
Proof.
  induction l as [|a t IH]; simpl; [reflexivity|].
  destruct (p a); simpl; [reflexivity | exact IH].
Qed.

Section Retention.
Context {E : Engine}.

Lemma In_day_users (ub : list raw_row) (day : Z) (uid : sqlval) :
  In (day, uid) (day_users ub) <->
  exists r t, In r ub /\ _ts_expr (r_ts r) = Some t /\ date t = day /\ r_user r = uid.
Proof.
  unfold day_users. rewrite (In_distinct du_eqb du_eqb_spec), filter_map_In. split.
  - intros [r [Hin Hr]]. destruct (_ts_expr (r_ts r)) as [t|] eqn:Ht; [|discriminate].
    simpl in Hr. inversion Hr. exists r, t. auto.
  - intros [r [t [Hin [Ht [Hd Hu]]]]]. exists r. split; [exact Hin|].
    rewrite Ht. simpl. now subst.
Qed.

(** On distinct (day, user) rows the left join gives each row exactly one
    partner: the same user on the next day, or NULL. *)
Lemma next_day_join_one (du : list (Z * sqlval)) (a : Z * sqlval) :
  NoDup du ->
  next_day_join du a =
  [ if val_not_null (snd a) && existsb (du_eqb (fst a + 1, snd a)) du
    then Some (fst a + 1, snd a) else None ].
Proof.
  intros Hnd. unfold next_day_join. destruct a as [d1 u1]. cbn [fst snd].
  set (p := fun b : Z * sqlval =>
              holds (sql_and (sql_eqv (snd b) u1) (Some (fst b =? d1 + 1)))).
  assert (Hp : forall b, p b = val_not_null u1 && du_eqb (d1 + 1, u1) b).
  { intros [d2 u2]. unfold p, du_eqb. cbn [fst snd].
    rewrite (Z.eqb_sym (d1 + 1) d2).
    destruct u1 as [|x|x], u2 as [|y|y]; cbn;
      try (destruct (d2 =? d1 + 1); reflexivity).
    - rewrite (Z.eqb_sym x y). destruct (y =? x), (d2 =? d1 + 1); reflexivity.
    - rewrite (String.eqb_sym x y).
      destruct (String.eqb y x), (d2 =? d1 + 1); reflexivity. }
  assert (Hy : forall b, In b du -> p b = true -> b = (d1 + 1, u1)).
  { intros b _ Hb. rewrite Hp in Hb. apply andb_true_iff in Hb. destruct Hb as [_ Hb].
    apply du_eqb_spec in Hb. now symmetry. }
  assert (Hex : existsb p du = val_not_null u1 && existsb (du_eqb (d1 + 1, u1)) du).
  { clear Hy Hnd. induction du as [|b t IH]; simpl.
    - now rewrite andb_false_r.
    - rewrite IH, Hp. destruct (val_not_null u1); reflexivity. }
  rewrite <- Hex, existsb_filter_nil.
  destruct (filter_at_most_one p du _ Hnd Hy) as [-> | ->]; reflexivity.
Qed.

Lemma flat_map_singletons {A B : Type} (f : A -> list B) (g : A -> B) (l : list A) :
  (forall a, In a l -> f a = [g a]) -> flat_map f l = map g l.
Proof.
  induction l as [|a t IH]; intros H; simpl; [reflexivity|].
  rewrite (H a (or_introl eq_refl)), IH; [reflexivity|].
  intros x Hx. apply H. now right.
Qed.

Lemma filter_filter {A : Type} (p q : A -> bool) (l : list A) :
  filter q (filter p l) = filter (fun x => p x && q x) l.
Proof.
  induction l as [|a t IH]; simpl; [reflexivity|].
  destruct (p a); simpl; [destruct (q a); now rewrite IH | exact IH].
Qed.

Lemma ret_row_counts (du : list (Z * sqlval)) (x : ret_row) :
  NoDup du -> In x (ret du) ->
  In (ret_d x) (map fst du) /\
  active_users x = Z.of_nat (List.length (filter (fun a => fst a =? ret_d x) du)) /\
  retained_users x =
    Z.of_nat (List.length
                (filter (fun a => (fst a =? ret_d x) && (val_not_null (snd a)
                                   && existsb (du_eqb (ret_d x + 1, snd a)) du)) du)).
Proof.
  intros Hnd Hin. unfold ret in Hin. apply in_map_iff in Hin.
  destruct Hin as [d [Hx Hd]]. subst x. cbn [ret_d active_users retained_users].
  apply (proj1 (In_distinct Z.eqb Z_eqb_spec_iff _ _)) in Hd. split; [exact Hd|].
  rewrite (flat_map_singletons (next_day_join du)
             (fun a => if val_not_null (snd a) && existsb (du_eqb (fst a + 1, snd a)) du
                       then Some (fst a + 1, snd a) else None))
    by (intros a _; now apply next_day_join_one).
  split.
  - unfold count_star. now rewrite length_map.
  - assert (Hsum : forall l : list (Z * sqlval),
               sum_case (fun b => Some (val_not_null (b_uid b)))
                 (map (fun a => if val_not_null (snd a)
                                   && existsb (du_eqb (fst a + 1, snd a)) du
                                then Some (fst a + 1, snd a) else None) l)
               = Z.of_nat (List.length
                   (filter (fun a => val_not_null (snd a)
                                     && existsb (du_eqb (fst a + 1, snd a)) du) l))).
    { induction l as [|a t IH]; [reflexivity|].
      cbn [map filter].
      match goal with
      | |- sum_case ?c (?h :: ?r) = _ =>
          change (sum_case c (h :: r)) with ((if holds (c h) then 1 else 0) + sum_case c r)
      end.
      rewrite IH.
      destruct (val_not_null (snd a)) eqn:Hnn; cbn [andb].
      - destruct (existsb _ du); cbn [b_uid snd holds].
        + rewrite Hnn.
          match goal with
          | |- _ = Z.of_nat (List.length (?h :: ?r)) =>
              change (List.length (h :: r)) with (S (List.length r))
          end. lia.
        + reflexivity.
      - reflexivity. }
    rewrite Hsum, filter_filter. f_equal. f_equal.
    apply filter_ext_in. intros a _.
    destruct (Z.eqb_spec (fst a) d) as [->|]; reflexivity.
Qed.

End Retention.

Lemma latest_None (rows : list ret_row) : latest rows = None -> rows = [].
Proof.
  destruct rows as [|a t]; [reflexivity|]. simpl.
  destruct (latest t) as [y|]; [destruct (ret_d y <? ret_d a)|]; discriminate.
Qed.

Lemma ret_days (du : list (Z * sqlval)) (d : Z) :
  In d (map fst du) <-> exists z, In z (ret du) /\ ret_d z = d.
Proof.
  unfold ret. split.
  - intros Hd. eexists. split.
    + apply in_map_iff. exists d. split; [reflexivity|].
      now apply (proj2 (In_distinct Z.eqb Z_eqb_spec_iff _ _)).
    + reflexivity.
  - intros [z [Hz Hzd]]. apply in_map_iff in Hz. destruct Hz as [d' [Hz Hd']].
    subst z. cbn in Hzd. subst d'.
    now apply (proj1 (In_distinct Z.eqb Z_eqb_spec_iff _ _)).
Qed.

Lemma sum_case_nonneg_ret (du : list (Z * sqlval)) (x : ret_row) :
  In x (ret du) -> 0 <= retained_users x.
Proof.
  unfold ret. intros Hin. apply in_map_iff in Hin. destruct Hin as [d [<- _]].
  cbn [retained_users]. apply sum_case_nonneg.
Qed.

(** The D1 payload, when there is one, is about the day [d] it names:
    [active_users] is the number of users seen on [d], [retained_users] the
    number of those, with an identifier, who are also seen on [d + 1]; so
    1 <= active_users, 0 <= retained_users <= active_users, and the rate is
    their quotient, never NULL. *)
Theorem d1_counts_users {E : Engine} (ub : list raw_row) (p : d1_payload) :
  d1_retention ub = Some p ->
  let du := day_users ub in
  let d := d1_day p in
  NoDup du /\
  d1_active_users p = Z.of_nat (List.length (filter (fun a => fst a =? d) du)) /\
  d1_retained_users p =
    Z.of_nat (List.length
                (filter (fun a => (fst a =? d) && (val_not_null (snd a)
                                   && existsb (du_eqb (d + 1, snd a)) du)) du)) /\
  1 <= d1_active_users p /\
  0 <= d1_retained_users p <= d1_active_users p /\
  d1_rate p = Some (d1_retained_users p # Z.to_pos (d1_active_users p))%Q.
Proof.
  intros Hp. cbv zeta.
  assert (Hnd : NoDup (day_users ub)) by (apply NoDup_distinct; apply du_eqb_spec).
  unfold d1_retention in Hp.
  destruct (latest _) as [x|] eqn:Hl; [|discriminate].
  inversion Hp. subst p. clear Hp.
  cbn [d1_day d1_active_users d1_retained_users d1_rate].
  apply latest_spec in Hl. destruct Hl as [Hin _].
  apply filter_In in Hin. destruct Hin as [Hin _].
  destruct (ret_row_counts _ x Hnd Hin) as [Hd [Ha Hr]].
  assert (H1 : 1 <= active_users x).
  { rewrite Ha. apply in_map_iff in Hd. destruct Hd as [a [Hfa Hain]].
    assert (Hi : In a (filter (fun a => fst a =? ret_d x) (day_users ub))).
    { apply filter_In. split; [exact Hain|]. now apply Z.eqb_eq. }
    destruct (filter _ (day_users ub)) as [|h tl]; [contradiction|].
    change (List.length (h :: tl)) with (S (List.length tl)). lia. }
  assert (H2 : retained_users x <= active_users x).
  { rewrite Ha, Hr, <- filter_filter.
    apply inj_le. apply filter_length_le. }
  assert (H0 : 0 <= retained_users x) by (apply (sum_case_nonneg_ret (day_users ub)); exact Hin).
  split; [exact Hnd|]. split; [exact Ha|]. split; [exact Hr|].
  split; [exact H1|]. split; [lia|].
  unfold div_nullif. destruct (Z.eqb_spec (active_users x) 0); [lia | reflexivity].
Qed.

Lemma d1_counts_users_example :
  d1_active_users {| d1_day := civil 2024 1 4; d1_active_users := 1; d1_retained_users := 1;
                     d1_rate := Some (1 # 1)%Q |}
  = Z.of_nat (List.length (filter (fun a => fst a =? civil 2024 1 4) (day_users five_days))).
Proof.
  apply (d1_counts_users (E := duck) five_days). vm_compute. reflexivity.
Defined.

(** There is no D1 payload exactly when the data cover at most one day. *)
Theorem d1_absent_iff_one_day {E : Engine} (ub : list raw_row) :
  d1_retention ub = None <->
  forall a b, In a (day_users ub) -> In b (day_users ub) -> fst a = fst b.
Proof.
  split.
  - intros Hnone a b Ha Hb.
    unfold d1_retention in Hnone. set (du := day_users ub) in *.
    destruct (latest _) as [x|] eqn:Hl; [discriminate|].
    apply latest_None in Hl.
    destruct (sql_max (map (fun x => Some (ret_d x)) (ret du))) as [m|] eqn:Hmax.
    + apply sql_max_spec in Hmax. destruct Hmax as [_ Hle].
      assert (Hm : forall c, In c du -> fst c = m).
      { intros c Hc. destruct (proj1 (ret_days du (fst c))) as [z [Hz Hzd]];
          [now apply in_map|].
        specialize (Hle z Hz).
        destruct (Z.ltb_spec (ret_d z) m) as [Hlt|Hge]; [|lia].
        assert (Hi : In z (filter (fun x => holds (sql_lt (Some (ret_d x)) (Some m))) (ret du))).
        { apply filter_In. split; [exact Hz|]. cbn.
          destruct (Z.ltb_spec (ret_d z) m); [reflexivity | lia]. }
        rewrite Hl in Hi. contradiction. }
      rewrite (Hm a Ha), (Hm b Hb). reflexivity.
    + destruct (proj1 (ret_days du (fst a))) as [z [Hz _]]; [now apply in_map|].
      destruct (ret du) as [|z0 t]; [contradiction|].
      simpl in Hmax. destruct (sql_max _); discriminate.
  - intros Hsame. destruct (d1_retention ub) as [p|] eqn:Hp; [|reflexivity].
    exfalso. apply d1_day_is_latest_before_last in Hp.
    destruct Hp as [Hd [last [Hlast [_ [Hlt _]]]]].
    apply in_map_iff in Hd. destruct Hd as [a [Hfa Ha]].
    apply in_map_iff in Hlast. destruct Hlast as [b [Hfb Hb]].
    specialize (Hsame a b Ha Hb). lia.
Qed.

(** ** What [_metrics_payload] answers *)

Section MetricsAnswers.
Context {E : Engine}.

(** [_metrics_payload] answers "unavailable" when duckdb, the table, or the
    user or time column is missing.  Otherwise it returns both metrics,
    except that with a behaviour column and no purchase in the table it
    raises a [TypeError] ([int(None)], since [SUM] of no row is NULL), the
    only error it can raise; without a behaviour column the repurchase
    metric is absent. *)
Theorem metrics_payload_answers (duckdb : bool) (db : database) :
  let cols := user_behavior_cols db in
  let available :=
    duckdb && Py.mem "user_behavior" (tables db)
    && match _pick cols ["user_id"; "user"], _pick cols ["timestamp"; "time"; "ts"] with
       | Some _, Some _ => true
       | _, _ => false
       end in
  let has_behavior :=
    match _pick cols ["behavior_type"; "behavior"] with Some _ => true | None => false end in
  (available = false ->
     exists cause, _metrics_payload duckdb db = Ok (MetricsUnavailable cause)) /\
  (available = true -> has_behavior = false ->
     _metrics_payload duckdb db = Ok (Metrics (d1_retention (user_behavior db)) None)) /\
  (available = true -> has_behavior = true -> buys (user_behavior db) = [] ->
     _metrics_payload duckdb db = Raise TypeError) /\
  (available = true -> has_behavior = true -> buys (user_behavior db) <> [] ->
     exists rep,
       _metrics_payload duckdb db = Ok (Metrics (d1_retention (user_behavior db)) (Some rep)) /\
       1 <= p_buyers rep /\ 0 <= p_repurchasers_7d rep <= p_buyers rep /\
       p_rate rep = Some (p_repurchasers_7d rep # Z.to_pos (p_buyers rep))%Q) /\
  (forall err, _metrics_payload duckdb db = Raise err -> err = TypeError).
Proof.
  cbv zeta. unfold _metrics_payload.
  destruct duckdb; cbn [negb andb];
    [|repeat split; try discriminate; eauto].
  destruct (Py.mem "user_behavior" (tables db)); cbn [negb andb];
    [|repeat split; try discriminate; eauto].
  destruct (_pick (user_behavior_cols db) ["user_id"; "user"]);
    [|repeat split; try discriminate; eauto].
  destruct (_pick (user_behavior_cols db) ["timestamp"; "time"; "ts"]);
    [|repeat split; try discriminate; eauto].
  destruct (_pick (user_behavior_cols db) ["behavior_type"; "behavior"]);
    [|repeat split; try discriminate; eauto].
  unfold rep_payload_of, repurchase_query. cbn [repurchasers buyers rate].
  destruct (first_buy (buys (user_behavior db))) as [|fb fbs] eqn:Hfb.
  - apply first_buy_nil_iff in Hfb. cbn. repeat split; try discriminate; auto.
    + intros _ _ Hne. now elim Hne.
    + intros err H. inversion H. reflexivity.
  - assert (Hne : buys (user_behavior db) <> []).
    { intros Hnil. rewrite Hnil in Hfb. discriminate. }
    unfold sum_case_nullable. cbn [bind].
    repeat split; try discriminate.
    + intros _ _ Hnil. now elim Hne.
    + intros _ _ _. eexists. split; [reflexivity|].
      cbn [p_buyers p_repurchasers_7d p_rate].
      pose proof (sum_case_le_count (fun x => Some (repurchased (buys (user_behavior db)) x))
                    (fb :: fbs)) as Hle.
      pose proof (sum_case_nonneg (fun x => Some (repurchased (buys (user_behavior db)) x))
                    (fb :: fbs)) as Hnn.
      assert (Hpos : 1 <= count_star (fb :: fbs)).
      { unfold count_star. change (List.length (fb :: fbs)) with (S (List.length fbs)). lia. }
      repeat split; lia.
Qed.

End MetricsAnswers.

Lemma metrics_payload_answers_example :
  _metrics_payload true
    {| tables := ["user_behavior"];
       user_behavior_cols := ["user_id"; "item_id"; "behavior_type"; "timestamp"];
       user_behavior := five_days |} = Raise TypeError.
Proof.
  destruct (metrics_payload_answers (E := duck) true
              {| tables := ["user_behavior"];
                 user_behavior_cols := ["user_id"; "item_id"; "behavior_type"; "timestamp"];
                 user_behavior := five_days |}) as [_ [_ [Hraise _]]].
  apply Hraise; vm_compute; reflexivity.
Defined.

(** ** Lifecycle segments: one segment per user, and which one *)

Lemma sql_max_nonempty {A : Type} (f : A -> Z) (l : list A) :
  l <> [] -> exists m, sql_max (map (fun x => Some (f x)) l) = Some m.
Proof.
  destruct l as [|a t]; [congruence|]. intros _. simpl.
  destruct (sql_max (map (fun x => Some (f x)) t)); simpl; eauto.
Qed.

Lemma e_eqb_spec (a b : sqlval * Z) : e_eqb a b = true <-> a = b.
Proof.
  destruct a as [u1 d1], b as [u2 d2]. unfold e_eqb. simpl.
  rewrite andb_true_iff, Z.eqb_eq, sqlval_eqb_spec. split.
  - intros [-> ->]. reflexivity.
  - intros H. inversion H. auto.
Qed.

Lemma NoDup_map_fst_functional {A B : Type} (l : list (A * B)) (a : A) (b1 b2 : B) :
  NoDup (map fst l) -> In (a, b1) l -> In (a, b2) l -> b1 = b2.
Proof.
  induction l as [|[x y] t IH]; simpl; intros Hnd H1 H2; [contradiction|].
  inversion Hnd as [|? ? Hnot Hnd']. subst.
  destruct H1 as [H1 | H1], H2 as [H2 | H2].
  - congruence.
  - inversion H1. subst. elim Hnot. apply in_map_iff. exists (a, b2). auto.
  - inversion H2. subst. elim Hnot. apply in_map_iff. exists (a, b1). auto.
  - auto.
Qed.

Ltac seg_cases :=
  repeat split; intros;
  try discriminate; try reflexivity; try lia;
  try (left; lia); try (right; lia);
  try match goal with H : _ \/ _ |- _ => destruct H; lia end.

Section SegmentRules.
Context {E : Engine}.

Lemma In_e (ub : list raw_row) (who : sqlval) (day : Z) :
  In (who, day) (e ub) <->
  exists r t, In r ub /\ _ts_expr (r_ts r) = Some t /\ date t = day /\ r_user r = who.
Proof.
  unfold e. rewrite (In_distinct e_eqb e_eqb_spec), filter_map_In. split.
  - intros [r [Hin Hr]]. destruct (_ts_expr (r_ts r)) as [t|] eqn:Ht; [|discriminate].
    simpl in Hr. inversion Hr. exists r, t. auto.
  - intros [r [t [Hin [Ht [Hd Hu]]]]]. exists r. split; [exact Hin|].
    rewrite Ht. simpl. now subst.
Qed.

(** What a row of [agg] holds, with [a] the anchor day: the earliest and the
    latest day of the user among the days from [a - 30] on, how many of the
    user's days are from [a - 7] on, and how many from [a - 30] on. *)
Lemma agg_row_spec (es : list (sqlval * Z)) (r : agg_row) :
  In r (agg es) ->
  exists a f l,
    anchor_day es = Some a /\ first_day r = Some f /\ last_day r = Some l /\
    a - 30 <= f /\ f <= l /\ l <= a /\
    In (u r, f) es /\ In (u r, l) es /\
    (forall d, In (u r, d) es -> a - 30 <= d -> f <= d <= l) /\
    days_7d r =
      Z.of_nat (List.length (filter (fun x => sqlval_eqb (fst x) (u r) && (a - 7 <=? snd x)) es)) /\
    active_days_30d r =
      Z.of_nat (List.length (filter (fun x => sqlval_eqb (fst x) (u r) && (a - 30 <=? snd x)) es)).
Proof.
  unfold agg. destruct (anchor_day es) as [a|] eqn:Ha.
  2:{ rewrite (filter_never _ es) by reflexivity. simpl. contradiction. }
  cbn [minus_days option_map].
  set (inwin := fun x : sqlval * Z => holds (sql_ge (Some (snd x)) (Some (a - 30)))).
  set (base := filter inwin es).
  intros Hin. apply in_map_iff in Hin. destruct Hin as [who [Hr Hwho]].
  apply (proj1 (In_distinct sqlval_eqb sqlval_eqb_spec _ _)) in Hwho.
  set (g := filter (fun x => sqlval_eqb (fst x) who) base) in Hr.
  assert (Hwin : forall x, inwin x = (a - 30 <=? snd x)).
  { intros x. unfold inwin, sql_ge, sql_cmp. rewrite holds_some.
    unfold Z.geb, Z.leb. rewrite (Z.compare_antisym (a - 30) (snd x)).
    destruct (a - 30 ?= snd x); reflexivity. }
  assert (Hg : forall x, In x g <-> In x es /\ a - 30 <= snd x /\ fst x = who).
  { intros x. unfold g, base. rewrite !filter_In, Hwin, Z.leb_le, sqlval_eqb_spec. tauto. }
  assert (Hne : g <> []).
  { apply in_map_iff in Hwho. destruct Hwho as [x [Hx Hxb]].
    intros Hnil. assert (Hi : In x g).
    { apply filter_In. split; [exact Hxb|]. now apply sqlval_eqb_spec. }
    rewrite Hnil in Hi. contradiction. }
  destruct (sql_min_spec snd g Hne) as [f [Hf [[xf [Hxf Hxff]] Hfall]]].
  destruct (sql_max_nonempty snd g Hne) as [l Hl].
  destruct (sql_max_spec snd g l Hl) as [[xl [Hxl Hxll]] Hlall].
  apply sql_max_spec in Ha. destruct Ha as [_ Haall].
  apply Hg in Hxf. destruct Hxf as [Hxfe [Hxfw Hxfu]].
  pose proof Hxl as Hxlg.
  apply Hg in Hxl. destruct Hxl as [Hxle [Hxlw Hxlu]].
  exists a, f, l. subst r. cbn [first_day last_day u days_7d active_days_30d].
  split; [reflexivity|]. split; [exact Hf|]. split; [exact Hl|].
  split; [lia|]. split; [specialize (Hfall xl Hxlg); lia|].
  split; [specialize (Haall xl Hxle); lia|].
  split; [destruct xf as [x1 x2]; simpl in *; now subst|].
  split; [destruct xl as [x1 x2]; simpl in *; now subst|].
  split; [|split].
  - intros d Hd Hw. assert (Hi : In (who, d) g) by (apply Hg; auto).
    specialize (Hfall _ Hi). specialize (Hlall _ Hi). simpl in *. lia.
  - change (sum_case (fun x => sql_ge (Some (snd x)) (Some (a - 7))) g)
      with (sum_case (fun x => Some (snd x >=? a - 7)) g).
    rewrite sum_case_bool. unfold g, base. rewrite !filter_filter.
    f_equal. f_equal. apply filter_ext. intros x. rewrite Hwin.
    destruct (sqlval_eqb (fst x) who); rewrite ?andb_false_r, ?andb_true_r; cbn [andb];
      [|reflexivity].
    destruct (Z.leb_spec (a - 30) (snd x)), (Z.geb_spec (snd x) (a - 7)),
      (Z.leb_spec (a - 7) (snd x)); cbn; try reflexivity; lia.
  - unfold count_star, g, base. rewrite filter_filter.
    f_equal. f_equal. apply filter_ext. intros x. rewrite Hwin. apply andb_comm.
Qed.

Lemma seg_name_known (ub : list raw_row) (who : sqlval) (name : string) :
  In (who, name) (seg ub) -> In name segment_names.
Proof.
  intros Hin. unfold seg in Hin. apply in_map_iff in Hin.
  destruct Hin as [r [Hr _]]. inversion Hr. unfold segment_of, segment_names.
  repeat match goal with
         | |- context [if ?c then _ else _] => destruct c
         end; simpl; auto.
Qed.

Lemma seg_users_iff (ub : list raw_row) (who : sqlval) :
  In who (map fst (seg ub)) <->
  exists d a, In (who, d) (e ub) /\ anchor_day (e ub) = Some a /\ a - 30 <= d.
Proof.
  unfold seg. rewrite map_map. cbn [fst]. split.
  - intros Hin. apply in_map_iff in Hin. destruct Hin as [r [<- Hr]].
    destruct (agg_row_spec _ r Hr) as [a [f [l [Ha [_ [_ [Hf [_ [_ [Hfe _]]]]]]]]]].
    exists f, a. auto.
  - intros [d [a [Hd [Ha Hw]]]]. unfold agg. rewrite map_map. cbn [u]. rewrite map_id.
    apply (proj2 (In_distinct sqlval_eqb sqlval_eqb_spec _ _)).
    apply in_map_iff. exists (who, d). split; [reflexivity|].
    apply filter_In. split; [exact Hd|]. rewrite Ha. cbn.
    destruct (Z.geb_spec d (a - 30)); [reflexivity | lia].
Qed.

(** [seg] lists every user seen on a day from [anchor_day - 30] on, once,
    with one of the four segment names; nobody else is listed. *)
Theorem segments_partition_users (ub : list raw_row) :
  NoDup (map fst (seg ub)) /\
  (forall who name, In (who, name) (seg ub) -> In name segment_names) /\
  (forall who,
      In who (map fst (seg ub)) <->
      exists d a, In (who, d) (e ub) /\ anchor_day (e ub) = Some a /\ a - 30 <= d) /\
  (forall who n1 n2, In (who, n1) (seg ub) -> In (who, n2) (seg ub) -> n1 = n2).
Proof.
  assert (Hnd : NoDup (map fst (seg ub))).
  { unfold seg, agg. rewrite !map_map. cbn [fst u]. rewrite map_id.
    apply NoDup_distinct. apply sqlval_eqb_spec. }
  split; [exact Hnd|]. split; [|split].
  - apply seg_name_known.
  - apply seg_users_iff.
  - intros who n1 n2. now apply NoDup_map_fst_functional.
Qed.

(** Which segment a listed user gets.  With [a] the anchor day, [f] and [l]
    the user's earliest and latest day from [a - 30] on, and [k] the number
    of the user's days from [a - 7] on: new when [f = a]; active when the
    user was seen before [a], is seen on [a], and [k >= 3]; warm when
    [a - 7 <= l < a]; dormant in the two cases left: last seen more than
    seven days before [a], or seen on [a] and before, with [k < 3]. *)
Theorem segment_rules (ub : list raw_row) (who : sqlval) (name : string) :
  In (who, name) (seg ub) ->
  exists a f l,
    let k := Z.of_nat (List.length
               (filter (fun x => sqlval_eqb (fst x) who && (a - 7 <=? snd x)) (e ub))) in
    anchor_day (e ub) = Some a /\
    In (who, f) (e ub) /\ In (who, l) (e ub) /\
    (forall d, In (who, d) (e ub) -> a - 30 <= d -> f <= d <= l) /\
    a - 30 <= f /\ f <= l /\ l <= a /\
    (name = "new" <-> f = a) /\
    (name = "active" <-> f < a /\ l = a /\ 3 <= k) /\
    (name = "warm" <-> a - 7 <= l /\ l < a) /\
    (name = "dormant" <-> l < a - 7 \/ (f < a /\ l = a /\ k < 3)).
Proof.
  intros Hin. unfold seg in Hin. apply in_map_iff in Hin.
  destruct Hin as [r [Hr Hagg]]. inversion Hr. subst who. clear Hr.
  destruct (agg_row_spec _ r Hagg)
    as [a [f [l [Ha [Hf [Hl [B1 [B2 [B3 [Hfe [Hle [Hall [Hk _]]]]]]]]]]]]].
  exists a, f, l. cbv zeta. rewrite <- Hk.
  split; [exact Ha|]. split; [exact Hfe|]. split; [exact Hle|]. split; [exact Hall|].
  split; [exact B1|]. split; [exact B2|]. split; [exact B3|].
  rewrite Ha. unfold segment_of, sql_eqz, sql_lt, sql_ge, sql_cmp, minus_days.
  rewrite Hf, Hl. cbn [option_map sql_and]. rewrite !holds_some.
  assert (Hk0 : 0 <= days_7d r) by (rewrite Hk; lia).
  destruct (Z.eqb_spec f a) as [Hfa|Hfa]; [seg_cases|].
  destruct (Z.eqb_spec l a) as [Hla|Hla].
  - destruct (Z.geb_spec (days_7d r) 3) as [Hd|Hd]; cbn [holds]; [seg_cases|].
    destruct (Z.ltb_spec l a); [lia|]. cbn [holds].
    destruct (Z.ltb_spec l (a - 7)); [lia|]. cbn [holds]. seg_cases.
  - cbn [holds]. destruct (Z.ltb_spec l a); [|lia].
    destruct (Z.geb_spec l (a - 7)) as [Hw|Hw]; cbn [holds]; [seg_cases|].
    destruct (Z.ltb_spec l (a - 7)); [|lia].
    destruct (Z.geb_spec l (a - 30)); cbn [holds]; seg_cases.
Qed.

End SegmentRules.

Lemma segment_rules_example :
  exists a f l,
    let k := Z.of_nat (List.length
               (filter (fun x => sqlval_eqb (fst x) (VInt 2) && (a - 7 <=? snd x))
                       (e returning))) in
    anchor_day (e returning) = Some a /\
    In (VInt 2, f) (e returning) /\ In (VInt 2, l) (e returning) /\
    (forall d, In (VInt 2, d) (e returning) -> a - 30 <= d -> f <= d <= l) /\
    a - 30 <= f /\ f <= l /\ l <= a /\
    ("warm" = "new" <-> f = a) /\
    ("warm" = "active" <-> f < a /\ l = a /\ 3 <= k) /\
    ("warm" = "warm" <-> a - 7 <= l /\ l < a) /\
    ("warm" = "dormant" <-> l < a - 7 \/ (f < a /\ l = a /\ k < 3)).
Proof.
  apply (segment_rules (E := duck) returning (VInt 2) "warm").
  vm_compute. auto.
Defined.

(** ** Sums over groups, and sorting *)

Import Facade.

Lemma zsum_app (l1 l2 : list Z) : zsum (l1 ++ l2) = zsum l1 + zsum l2.
Proof. induction l1 as [|a t IH]; simpl; [reflexivity | rewrite IH; lia]. Qed.

Lemma zsum_map_add {A : Type} (f g : A -> Z) (l : list A) :
  zsum (map (fun k => f k + g k) l) = zsum (map f l) + zsum (map g l).
Proof. induction l as [|a t IH]; simpl; [reflexivity | rewrite IH; lia]. Qed.

Lemma zsum_map_zero {A : Type} (f : A -> Z) (l : list A) :
  (forall x, In x l -> f x = 0) -> zsum (map f l) = 0.
Proof.
  induction l as [|a t IH]; intros H; simpl; [reflexivity|].
  rewrite (H a (or_introl eq_refl)), IH; [reflexivity|]. intros x Hx. apply H. now right.
Qed.

Section Groups.
Context {A : Type}.
Variable eqb : A -> A -> bool.
Hypothesis eqb_spec : forall x y, eqb x y = true <-> x = y.

Lemma zsum_indicator (P : A -> bool) (L : list A) (x : A) :
  NoDup L -> In x L ->
  zsum (map (fun k => if P k && eqb k x then 1 else 0) L) = if P x then 1 else 0.
Proof.
  induction L as [|a t IH]; intros Hnd Hin; [contradiction|].
  inversion Hnd as [|? ? Hnot Hnd']. subst. simpl.
  destruct Hin as [-> | Hin].
  - assert (Hxx : eqb x x = true) by now apply eqb_spec.
    rewrite Hxx, andb_true_r, zsum_map_zero; [lia|].
    intros k Hk. destruct (eqb k x) eqn:Hkx; [|now rewrite andb_false_r].
    apply eqb_spec in Hkx. subst k. contradiction.
  - rewrite (IH Hnd' Hin).
    destruct (eqb a x) eqn:Hax; [|rewrite andb_false_r; lia].
    apply eqb_spec in Hax. subst a. contradiction.
Qed.

(** The sizes of the groups whose key satisfies [P] add up to the number of
    rows whose value satisfies [P]. *)
Lemma group_sizes_in (P : A -> bool) (L l : list A) :
  NoDup L -> (forall x, In x l -> In x L) ->
  zsum (map (fun k => if P k then count_star (filter (eqb k) l) else 0) L)
  = count_star (filter P l).
Proof.
  intros Hnd. unfold count_star. induction l as [|x t IH]; intros Hin.
  - simpl. apply zsum_map_zero. intros k _. destruct (P k); reflexivity.
  - rewrite (map_ext _ (fun k => (if P k && eqb k x then 1 else 0)
                                 + (if P k then Z.of_nat (List.length (filter (eqb k) t)) else 0))).
    + rewrite zsum_map_add, IH, zsum_indicator; auto.
      * simpl. destruct (P x); [|lia].
        change (List.length (x :: filter P t)) with (S (List.length (filter P t))). lia.
      * apply Hin. now left.
      * intros y Hy. apply Hin. now right.
    + intros k. simpl. destruct (P k); [|reflexivity]. simpl.
      destruct (eqb k x); [|reflexivity].
      change (List.length (x :: filter (eqb k) t)) with (S (List.length (filter (eqb k) t))).
      lia.
Qed.

Lemma group_sizes (P : A -> bool) (l : list A) :
  zsum (map (fun k => if P k then count_star (filter (eqb k) l) else 0) (distinct eqb l))
  = count_star (filter P l).
Proof.
  apply group_sizes_in.
  - now apply NoDup_distinct.
  - intros x Hx. now apply (proj2 (In_distinct eqb eqb_spec _ _)).
Qed.

End Groups.

Section Sorting.
Context {A : Type}.
Variable before : A -> A -> bool.

Lemma insert_by_perm (x : A) (l : list A) : Permutation (insert_by before x l) (x :: l).
Proof.
  induction l as [|y t IH]; simpl; [reflexivity|].
  destruct (before x y); [reflexivity|].
  rewrite IH. apply perm_swap.
Qed.

Lemma order_by_perm (l : list A) : Permutation (order_by before l) l.
Proof.
  induction l as [|x t IH]; simpl; [reflexivity|].
  unfold order_by in *. simpl. rewrite insert_by_perm. now constructor.
Qed.

Hypothesis before_total : forall x y, before x y = true \/ before y x = true.
Hypothesis before_trans :
  forall x y z, before x y = true -> before y z = true -> before x z = true.

Lemma insert_by_sorted (x : A) (l : list A) :
  StronglySorted (fun a b => before a b = true) l ->
  StronglySorted (fun a b => before a b = true) (insert_by before x l).
Proof.
  induction l as [|y t IH]; intros Hs; simpl.
  - constructor; constructor.
  - inversion Hs as [|? ? Hst Hall]. subst.
    destruct (before x y) eqn:Hxy.
    + constructor; [exact Hs|]. constructor; [exact Hxy|].
      eapply Forall_impl; [|exact Hall]. intros z Hz. simpl in Hz. eauto.
    + constructor; [auto|].
      assert (Hyx : before y x = true) by (destruct (before_total x y); congruence).
      eapply Permutation_Forall; [symmetry; apply insert_by_perm|].
      constructor; assumption.
Qed.

Lemma order_by_sorted (l : list A) :
  StronglySorted (fun a b => before a b = true) (order_by before l).
Proof.
  induction l as [|x t IH]; [constructor|].
  unfold order_by in *. simpl. now apply insert_by_sorted.
Qed.

End Sorting.

Lemma zsum_perm (l1 l2 : list Z) : Permutation l1 l2 -> zsum l1 = zsum l2.
Proof. induction 1; simpl; lia. Qed.

(** ** The overview: behaviour counts *)

Lemma alias_cases (ks : string) :
  Py.get ks behavior_alias = Some "pv" \/ Py.get ks behavior_alias = Some "fav" \/
  Py.get ks behavior_alias = Some "cart" \/ Py.get ks behavior_alias = Some "buy" \/
  Py.get ks behavior_alias = None.
Proof.
  unfold behavior_alias. cbn [Py.get].
  repeat match goal with
         | |- context [String.eqb ks ?x] => destruct (String.eqb ks x); [tauto|]
         end.
  tauto.
Qed.

Arguments Py.get k d : simpl never.

Lemma four_counts_eq (k1 k2 k3 k4 : string) (x1 x2 x3 x4 y1 y2 y3 y4 : Z) :
  x1 = y1 -> x2 = y2 -> x3 = y3 -> x4 = y4 ->
  [(k1, x1); (k2, x2); (k3, x3); (k4, x4)] = [(k1, y1); (k2, y2); (k3, y3); (k4, y4)].
Proof. intros -> -> -> ->. reflexivity. Qed.

Ltac four_counts := apply four_counts_eq; lia.

Lemma by_type_fold (raw : list (sqlval * Z)) (a b c d : Z) :
  let counts_as (label : string) (v : sqlval) :=
    match Py.get (Py.lower (Py.strip (py_str v))) behavior_alias with
    | Some kk => String.eqb kk label
    | None => false
    end in
  let total (label : string) :=
    zsum (map (fun kc => if counts_as label (fst kc) then snd kc else 0) raw) in
  fold_left (fun d kc =>
               match Py.get (Py.lower (Py.strip (py_str (fst kc)))) behavior_alias with
               | Some kk => if String.eqb kk "" then d else count_add kk (snd kc) d
               | None => d
               end) raw [("pv", a); ("fav", b); ("cart", c); ("buy", d)]
  = [("pv", a + total "pv"); ("fav", b + total "fav");
     ("cart", c + total "cart"); ("buy", d + total "buy")].
Proof.
  cbv zeta. revert a b c d. induction raw as [|[k n] t IH]; intros a b c d.
  - simpl. four_counts.
  - cbn [fold_left map zsum fold_right fst snd].
    destruct (alias_cases (Py.lower (Py.strip (py_str k)))) as [H|[H|[H|[H|H]]]];
      rewrite H; cbn; rewrite IH; unfold zsum; four_counts.
Qed.

(** The behaviour counts of the overview: each of pv, fav, cart, buy counts
    the rows whose behaviour value, as text, stripped and lower-cased, is
    the label or its code 1..4; so padded or upper-case labels count here.
    Every row is counted at most once, and a table without a behaviour
    column gives four zeros. *)
Theorem overview_behavior_counts (db : database) (funnel : option (list feature_row))
    (o : overview) :
  _overview_payload true db funnel = Ok (Overview o) ->
  let counts_as (label : string) (v : sqlval) :=
    match Py.get (Py.lower (Py.strip (py_str v))) behavior_alias with
    | Some kk => String.eqb kk label
    | None => false
    end in
  let n (label : string) :=
    count_star (filter (fun r => counts_as label (r_action r)) (user_behavior db)) in
  user_behavior_rows o = count_star (user_behavior db) /\
  behavior_counts o =
    (match detected_behavior_col o with
     | Some _ => [("pv", n "pv"); ("fav", n "fav"); ("cart", n "cart"); ("buy", n "buy")]
     | None => [("pv", 0); ("fav", 0); ("cart", 0); ("buy", 0)]
     end) /\
  n "pv" + n "fav" + n "cart" + n "buy" <= user_behavior_rows o.
Proof.
  cbv zeta. unfold _overview_payload. cbn [negb].
  destruct (Py.mem "user_behavior" (tables db)); cbn [negb]; [|discriminate].
  set (bc := _pick (user_behavior_cols db) ["behavior_type"; "behavior"]).
  destruct (if Py.mem "item_funnel_features" (tables db)
            then match funnel with
                 | Some rows => Ok (count_star rows)
                 | None => Raise CatalogError
                 end
            else Ok 0) as [n|err]; cbn [bind]; [|discriminate].
  intros H. injection H as <-.
  cbn [user_behavior_rows behavior_counts detected_behavior_col].
  split; [reflexivity|]. split.
  - destruct bc; [|reflexivity].
    unfold by_type_norm, by_type_zero. rewrite by_type_fold. cbv zeta.
    unfold group_count. rewrite !map_map. cbn [fst snd].
    rewrite !(group_sizes sqlval_eqb sqlval_eqb_spec).
    unfold count_star. rewrite <- !(length_map r_action (filter _ (user_behavior db))).
    rewrite !filter_map_comm. reflexivity.
  - unfold count_star. induction (user_behavior db) as [|r t IH]; [simpl; lia|].
    cbn [filter].
    change (List.length (r :: t)) with (S (List.length t)).
    destruct (alias_cases (Py.lower (Py.strip (py_str (r_action r))))) as [H|[H|[H|[H|H]]]];
      rewrite H;
      repeat match goal with
             | |- context [String.eqb ?x ?y] =>
                 let v := eval vm_compute in (String.eqb x y) in
                 change (String.eqb x y) with v
             end;
      cbv beta iota; cbn [Datatypes.length]; lia.
Qed.

(** A padded upper-case label and the code 4 are counted, a NULL and an
    unknown label are not: five rows, three of them counted. *)
Lemma overview_behavior_counts_example :
  let db := {| tables := ["user_behavior"];
               user_behavior_cols := ["user_id"; "item_id"; "behavior_type"; "timestamp"];
               user_behavior :=
                 [ ev 1 1 (VStr " PV ") 0; ev 1 2 (VInt 4) 1; ev 2 1 (VStr "click") 2;
                   ev 2 1 (VStr "buy") 3; ev 2 1 VNull 4 ] |} in
  exists o,
    _overview_payload true db None = Ok (Overview o) /\
    user_behavior_rows o = 5 /\
    behavior_counts o = [("pv", 1); ("fav", 0); ("cart", 0); ("buy", 2)].
Proof.
  cbv zeta. eexists. split; [reflexivity|].
  destruct (overview_behavior_counts
              {| tables := ["user_behavior"];
                 user_behavior_cols := ["user_id"; "item_id"; "behavior_type"; "timestamp"];
                 user_behavior :=
                   [ ev 1 1 (VStr " PV ") 0; ev 1 2 (VInt 4) 1; ev 2 1 (VStr "click") 2;
                     ev 2 1 (VStr "buy") 3; ev 2 1 VNull 4 ] |} None _ eq_refl) as [Hrows [Hcounts _]].
  split; [rewrite Hrows; reflexivity | rewrite Hcounts; vm_compute; reflexivity].
Defined.

(** ** Segment shares *)

Lemma StronglySorted_map {A B : Type} (f : A -> B) (R : B -> B -> Prop) (l : list A) :
  StronglySorted (fun a b => R (f a) (f b)) l -> StronglySorted R (map f l).
Proof.
  induction 1 as [|a t Hs IH Hall]; simpl; constructor; auto.
  apply Forall_map. exact Hall.
Qed.

Section SegmentShares.
Context {E : Engine}.

Lemma seg_of_seg3 (ub : list raw_row) :
  seg ub = map (fun x => (fst (fst x), snd (fst x))) (seg3 ub).
Proof. unfold seg, seg3. rewrite map_map. reflexivity. Qed.

Lemma seg3_names (ub : list raw_row) :
  map (fun x => snd (fst x)) (seg3 ub) = map snd (seg ub).
Proof. rewrite seg_of_seg3, map_map. reflexivity. Qed.

Lemma stat_segments (s : list (sqlval * string * Z)) :
  map st_segment (stat s) = distinct String.eqb (map (fun x => snd (fst x)) s).
Proof. unfold stat. rewrite map_map. cbn [st_segment]. apply map_id. Qed.

Lemma stat_users_filter (s : list (sqlval * string * Z)) (name : string) :
  count_star (filter (fun x => String.eqb (snd (fst x)) name) s)
  = count_star (filter (String.eqb name) (map (fun x => snd (fst x)) s)).
Proof.
  unfold count_star. rewrite filter_map_comm, length_map. f_equal. f_equal.
  apply filter_ext. intros x. apply String.eqb_sym.
Qed.

Lemma stat_users_sum (s : list (sqlval * string * Z)) :
  zsum (map st_users (stat s)) = count_star s.
Proof.
  pose proof (group_sizes String.eqb String.eqb_eq (fun _ => true)
                (map (fun x => snd (fst x)) s)) as Hsum.
  cbv beta iota in Hsum.
  unfold stat. rewrite map_map. cbn [st_users].
  rewrite (map_ext _ (fun k => count_star (filter (String.eqb k)
                                                  (map (fun x => snd (fst x)) s))))
    by (intros k; apply stat_users_filter).
  rewrite Hsum. unfold count_star.
  assert (Hall : forall l : list string, filter (fun _ => true) l = l)
    by (induction l as [|a t IH]; simpl; congruence).
  now rewrite Hall, length_map.
Qed.

Lemma stat_row_spec (s : list (sqlval * string * Z)) (r : stat_row) :
  In r (stat s) ->
  In (st_segment r) (map (fun x => snd (fst x)) s) /\
  st_users r = count_star (filter (fun x => String.eqb (snd (fst x)) (st_segment r)) s) /\
  1 <= st_users r.
Proof.
  unfold stat. intros Hin. apply in_map_iff in Hin. destruct Hin as [name [<- Hname]].
  cbn [st_segment st_users].
  apply (proj1 (In_distinct String.eqb String.eqb_eq _ _)) in Hname.
  split; [exact Hname|]. split; [reflexivity|].
  apply in_map_iff in Hname. destruct Hname as [x [Hx Hin]].
  assert (Hi : In x (filter (fun y => String.eqb (snd (fst y)) name) s)).
  { apply filter_In. split; [exact Hin|]. now apply String.eqb_eq. }
  unfold count_star. destruct (filter _ s) as [|h tl]; [contradiction|].
  change (List.length (h :: tl)) with (S (List.length tl)). lia.
Qed.

(** The segment payload: [total_users] is the number of users classified,
    and the users of the listed segments add up to it.  Each segment is
    listed once, only if it has a user, with the number of users [seg] gives
    it and its share of the total; the list goes by decreasing number of
    users.  The anchor day is absent exactly when nobody is classified. *)
Theorem segments_payload_totals (ub : list raw_row) :
  let s := segments_of ub in
  total_users s = Z.of_nat (List.length (seg ub)) /\
  zsum (map users (sp_segments s)) = total_users s /\
  NoDup (map segment (sp_segments s)) /\
  StronglySorted (fun a b => users b <= users a) (sp_segments s) /\
  (forall en, In en (sp_segments s) ->
     In (segment en) segment_names /\ 1 <= users en /\
     users en = Z.of_nat (List.length
                            (filter (fun x => String.eqb (snd x) (segment en)) (seg ub))) /\
     share en = (users en # Z.to_pos (total_users s))%Q) /\
  (sp_anchor_day s = None <-> seg ub = []).
Proof.
  cbv zeta. unfold segments_of.
  set (before := fun a b : stat_row => st_users b <=? st_users a).
  set (st := order_by before (stat (seg3 ub))).
  assert (Hperm : Permutation st (stat (seg3 ub))) by apply order_by_perm.
  assert (Htot : zsum (map st_users st) = Z.of_nat (List.length (seg ub))).
  { rewrite (zsum_perm _ _ (Permutation_map st_users Hperm)), stat_users_sum.
    unfold count_star. now rewrite seg_of_seg3, length_map. }
  assert (Hsorted : StronglySorted (fun a b => before a b = true) st).
  { apply order_by_sorted.
    - intros x y. unfold before.
      destruct (Z.leb_spec (st_users y) (st_users x)); [now left|].
      right. apply Z.leb_le. lia.
    - intros x y z. unfold before. rewrite !Z.leb_le. lia. }
  assert (Hrow : forall r, In r st ->
             In (st_segment r) segment_names /\ 1 <= st_users r /\
             st_users r = Z.of_nat (List.length
                            (filter (fun x => String.eqb (snd x) (st_segment r)) (seg ub)))).
  { intros r Hr. apply (Permutation_in _ Hperm) in Hr.
    destruct (stat_row_spec _ r Hr) as [Hname [Hu H1]]. split; [|split; [exact H1|]].
    - rewrite seg3_names in Hname. apply in_map_iff in Hname.
      destruct Hname as [[who name] [Hn Hin]]. simpl in Hn. subst name.
      now apply (seg_name_known ub who).
    - rewrite Hu. unfold count_star. rewrite seg_of_seg3, filter_map_comm, length_map.
      reflexivity. }
  assert (Hnd : NoDup (map st_segment st)).
  { eapply Permutation_NoDup; [symmetry; apply Permutation_map; exact Hperm|].
    rewrite stat_segments. apply NoDup_distinct. apply String.eqb_eq. }
  destruct st as [|r0 rest] eqn:Hst.
  - cbn [total_users sp_segments sp_anchor_day map zsum fold_right].
    simpl in Htot.
    assert (Hnil : seg ub = []) by (destruct (seg ub); [reflexivity | simpl in Htot; lia]).
    rewrite Hnil.
    split; [reflexivity|]. split; [reflexivity|]. split; [constructor|].
    split; [constructor|]. split; [intros en []|]. split; reflexivity.
  - rewrite <- Hst in *. cbn [total_users sp_segments sp_anchor_day].
    rewrite map_map. cbn [users segment].
    assert (Hpos : 1 <= zsum (map st_users st)).
    { rewrite Hst. simpl. destruct (Hrow r0) as [_ [H1 _]]; [rewrite Hst; now left|].
      assert (Hrest : 0 <= zsum (map st_users rest)).
      { clear - Hrow Hst. assert (Hr : forall r, In r rest -> 1 <= st_users r).
        { intros r Hr. apply Hrow. rewrite Hst. now right. }
        clear Hrow Hst. induction rest as [|a t IH]; simpl; [lia|].
        pose proof (Hr a (or_introl eq_refl)).
        assert (0 <= zsum (map st_users t)) by (apply IH; intros; apply Hr; now right).
        lia. }
      unfold zsum in *. lia. }
    split; [exact Htot|]. split; [reflexivity|]. split.
    { rewrite map_map. cbn [segment]. exact Hnd. }
    split.
    { apply StronglySorted_map. cbn [users].
      eapply StronglySorted_ind with (P := StronglySorted (fun a b => st_users b <= st_users a));
        [constructor | | exact Hsorted].
      intros a l _ IH Hall. constructor; [exact IH|].
      eapply Forall_impl; [|exact Hall]. intros b Hb. unfold before in Hb.
      now apply Z.leb_le. }
    split.
    { intros en Hen. apply in_map_iff in Hen. destruct Hen as [r [<- Hr]].
      cbn [segment users share].
      destruct (Hrow r Hr) as [Hn [H1 Hu]]. repeat split; auto.
      unfold div_nullif.
      destruct (Z.eqb_spec (zsum (map st_users st)) 0); [lia | reflexivity]. }
    split.
    { intros Hnone. exfalso.
      assert (Hlen : seg ub <> []).
      { intros Hnil. rewrite Hnil in Htot. simpl in Htot. lia. }
      destruct (seg ub) as [|[who name] t] eqn:Hseg; [congruence|].
      assert (Hin : In who (map fst (seg ub))) by (rewrite Hseg; now left).
      apply (proj1 (seg_users_iff ub who)) in Hin.
      destruct Hin as [d [a [_ [Ha _]]]]. congruence. }
    { intros Hnil. rewrite Hnil in Htot. simpl in Htot. lia. }
Qed.

End SegmentShares.

(** Two users are classified in the sample with a returning user. *)
Lemma segments_payload_totals_example :
  zsum (map users (sp_segments (segments_of returning))) = 2.
Proof.
  destruct (segments_payload_totals (E := duck) returning) as [Htot [Hsum _]].
  rewrite Hsum, Htot. vm_compute. reflexivity.
Defined.

(** ** When the answers are "unavailable" *)

Lemma overview_unavailable (duckdb : bool) (db : database)
    (funnel : option (list feature_row)) :
  duckdb && Py.mem "user_behavior" (tables db) = false ->
  exists msg, _overview_payload duckdb db funnel = Ok (OverviewError msg).
Proof.
  unfold _overview_payload. destruct duckdb; cbn [negb andb]; [|eauto].
  destruct (Py.mem "user_behavior" (tables db)); cbn [negb]; [discriminate | eauto].
Qed.

Lemma overview_available (duckdb : bool) (db : database)
    (funnel : option (list feature_row)) :
  duckdb && Py.mem "user_behavior" (tables db) = true ->
  if Py.mem "item_funnel_features" (tables db)
  then match funnel with
       | Some rows =>
           exists o, _overview_payload duckdb db funnel = Ok (Overview o) /\
                     item_funnel_features_rows o = count_star rows
       | None => _overview_payload duckdb db funnel = Raise CatalogError
       end
  else exists o, _overview_payload duckdb db funnel = Ok (Overview o) /\
                 item_funnel_features_rows o = 0.
Proof.
  unfold _overview_payload. destruct duckdb; cbn [negb andb]; [|discriminate].
  destruct (Py.mem "user_behavior" (tables db)); cbn [negb]; [|discriminate].
  intros _. destruct (Py.mem "item_funnel_features" (tables db)).
  - destruct funnel as [rows|]; cbn [bind]; [|reflexivity].
    eexists. split; reflexivity.
  - cbn [bind]. eexists. split; reflexivity.
Qed.

(** The segment query, the export and the segment payload need duckdb, the
    table [user_behavior], a user column and a time column; without one of
    them each answers with its error value, and with them each answers for
    the segment name as normalized.  The overview needs only duckdb and the
    table, and it raises when the table list has [item_funnel_features] and
    that cannot be read. *)
Theorem reads_need_table_and_columns {E : Engine} (duckdb : bool) (db : database)
    (segment : string) (limit : Z) (funnel : option (list feature_row)) :
  let cols := user_behavior_cols db in
  let has_table := duckdb && Py.mem "user_behavior" (tables db) in
  let available :=
    has_table
    && match _pick cols ["user_id"; "user"], _pick cols ["timestamp"; "time"; "ts"] with
       | Some _, Some _ => true
       | _, _ => false
       end in
  (available = false ->
     (exists msg, action_export_users duckdb db segment limit = Json500 msg) /\
     (exists msg, action_segment_sql duckdb db segment = SegmentSql500 msg) /\
     (exists msg, _segments_payload duckdb db = SegmentsError msg)) /\
  (available = true ->
     (exists rows,
         action_export_users duckdb db segment limit
         = Csv ("users_" ++ normalize_segment segment ++ ".csv") "user_id" rows) /\
     (exists zh rule,
         action_segment_sql duckdb db segment
         = SegmentSql (normalize_segment segment) zh rule
                      (SelectUsers (normalize_segment segment))) /\
     _segments_payload duckdb db = Segments (segments_of (user_behavior db))) /\
  (has_table = false ->
     exists msg, _overview_payload duckdb db funnel = Ok (OverviewError msg)) /\
  (has_table = true ->
     if Py.mem "item_funnel_features" (tables db)
     then match funnel with
          | Some rows =>
              exists o, _overview_payload duckdb db funnel = Ok (Overview o) /\
                        item_funnel_features_rows o = count_star rows
          | None => _overview_payload duckdb db funnel = Raise CatalogError
          end
     else exists o, _overview_payload duckdb db funnel = Ok (Overview o) /\
                    item_funnel_features_rows o = 0).
Proof.
  cbv zeta.
  split; [|split; [|split; [apply overview_unavailable | apply overview_available]]];
    unfold action_export_users, action_segment_sql, _segments_payload, _segment_sql;
    (destruct duckdb; cbn [negb andb]; [|repeat split; intros; try discriminate; eauto]);
    (destruct (Py.mem "user_behavior" (tables db)); cbn [negb andb];
       [|repeat split; intros; try discriminate; eauto]);
    (destruct (_pick (user_behavior_cols db) ["user_id"; "user"]);
       [|repeat split; intros; try discriminate; eauto]);
    destruct (_pick (user_behavior_cols db) ["timestamp"; "time"; "ts"]);
    repeat split; intros; try discriminate; eauto.
Qed.

(** A segment name that is not known is served as [warm]. *)
Lemma reads_need_table_and_columns_example :
  exists zh rule,
    action_segment_sql true
      {| tables := ["user_behavior"];
         user_behavior_cols := ["user_id"; "item_id"; "behavior_type"; "timestamp"];
         user_behavior := returning |} " VIP "
    = SegmentSql "warm" zh rule (SelectUsers "warm").
Proof.
  destruct (reads_need_table_and_columns (E := duck) true
              {| tables := ["user_behavior"];
                 user_behavior_cols := ["user_id"; "item_id"; "behavior_type"; "timestamp"];
                 user_behavior := returning |} " VIP " 10 None) as [_ [Havailable _]].
  destruct Havailable as [_ [Hsql _]]; [vm_compute; reflexivity|].
  exact Hsql.
Defined.

(** ** The item lists *)

Import ItemLists.





















(** ** The views of the builder stay readable *)

Section BuilderViews.
Context {E : Engine}.

(** Whatever the mode and however the run ends, a database whose views are
    readable still has readable views after the builder: the loose table is
    dropped while views select from it, and it is back before anything can
    raise.  After a run without an error the default view exists and can be
    read. *)
Theorem views_stay_readable (d0 : db) (mode : string) :
  views_readable d0 = true ->
  let r := build_item_funnel_features mode d0 in
  views_readable (fst r) = true /\
  (snd r = Ok tt ->
   item_funnel_features (fst r) = true /\
   item_funnel_features_default (fst r) = true /\
   exists rows, read_item_funnel_features (fst r) = Some rows).
Proof.
  unfold views_readable, build_item_funnel_features, seq, create_user_item_stage,
    when, create_features, create_default_views, create_both_view, ret,
    read_item_funnel_features.
  destruct d0 as [src st lo sr v vd vb]. cbn.
  destruct (ub_norm src) as [ns|err]; cbn.
  - destruct (String.eqb mode "both"), (String.eqb mode "nonstrict"),
      (String.eqb mode "strict"); cbn;
      destruct lo, sr, v, vd, vb; cbn; intros H; try discriminate;
      (split; [reflexivity|]); intros H'; try discriminate; eauto.
  - intros H. split; [exact H | discriminate].
Qed.

(** A run that cannot normalize the source raises before it touches a
    feature table or a view: what an earlier run produced stays as it was,
    and only the stage table is gone. *)
Theorem failed_run_keeps_tables (d0 : db) (mode : string) (err : error) :
  ub_norm (source_table d0) = Raise err ->
  let r := build_item_funnel_features mode d0 in
  snd r = Raise err /\
  user_item_stage (fst r) = None /\
  item_funnel_features_loose (fst r) = item_funnel_features_loose d0 /\
  item_funnel_features_strict (fst r) = item_funnel_features_strict d0 /\
  item_funnel_features (fst r) = item_funnel_features d0 /\
  item_funnel_features_default (fst r) = item_funnel_features_default d0 /\
  item_funnel_features_both (fst r) = item_funnel_features_both d0.
Proof.
  intros Hn.
  unfold build_item_funnel_features, seq, create_user_item_stage.
  destruct d0 as [src st lo sr v vd vb]. cbn in *. rewrite Hn. cbn.
  repeat split; reflexivity.
Qed.

End BuilderViews.

Lemma views_stay_readable_example :
  views_readable (fst (build_item_funnel_features "strict" (fresh_db events))) = true.
Proof.
  apply (views_stay_readable (E := duck) (fresh_db events) "strict").
  vm_compute. reflexivity.
Defined.

(** A second run over a source with a bad time, after a good run. *)
Lemma failed_run_keeps_tables_example :
  let d0 := {| source_table := [bad_time];
               user_item_stage := None;
               item_funnel_features_loose := Some [loose_item1; item2];
               item_funnel_features_strict := Some [strict_item1; item2];
               item_funnel_features := true;
               item_funnel_features_default := true;
               item_funnel_features_both := true |} in
  snd (build_item_funnel_features "both" d0) = Raise ConversionError /\
  item_funnel_features_loose (fst (build_item_funnel_features "both" d0))
  = Some [loose_item1; item2].
Proof.
  cbv zeta.
  destruct (failed_run_keeps_tables (E := duck)
              {| source_table := [bad_time];
                 user_item_stage := None;
                 item_funnel_features_loose := Some [loose_item1; item2];
                 item_funnel_features_strict := Some [strict_item1; item2];
                 item_funnel_features := true;
                 item_funnel_features_default := true;
                 item_funnel_features_both := true |} "both" ConversionError)
    as [Hraise [_ [Hloose _]]].
  - vm_compute. reflexivity.
  - split; [exact Hraise | exact Hloose].
Defined.

(** ** Advice, templates and the dashboard *)

Import Dashboard.

Lemma dict_get_In {V : Type} (k : string) (d : list (string * V)) (v : V) :
  dict_get k d = Some v -> In (k, v) d.
Proof.
  induction d as [|[k' v'] t IH]; simpl; [discriminate|].
  destruct (String.eqb_spec k k') as [->|Hne].
  - intros H. inversion H. now left.
  - intros H. right. now apply IH.
Qed.

(** Whatever the counts and the metrics, each piece of advice names a
    segment that the segment query serves under that very name, and a
    message type that has a template of its own: following an advice never
    falls back to the segment [warm] or to the template [cart_drop] by
    default.  Whatever the type asked for, the template returned is one of
    the six. *)
Theorem advice_targets_exist (behavior_counts : list (string * Z)) (m : metrics) :
  Forall (fun a =>
            In (default_segment a) segment_names /\
            normalize_segment (default_segment a) = default_segment a /\
            In (default_message_type a, _message_template (default_message_type a))
               templates)
         (_journey_advice behavior_counts ++ _lifecycle_advice m)%list /\
  forall t, In (_message_template t) (map snd templates).
Proof.
  split.
  - unfold _journey_advice, _lifecycle_advice.
    destruct (metrics_d1_rate m) as [r1|]; [destruct (float_lt r1 (15 # 100))|];
      (destruct (metrics_rep_rate m) as [r2|]; [destruct (float_lt r2 (8 # 100))|]);
      cbn [app];
      repeat (apply Forall_cons; [split; [|split] | ]); try apply Forall_nil;
      cbn [default_segment default_message_type];
      try (vm_compute; reflexivity);
      repeat (first [left; vm_compute; reflexivity | right]).
  - intros t. unfold _message_template.
    destruct (dict_get (Py.lower (Py.strip t)) templates) as [tpl|] eqn:Hget.
    + apply dict_get_In in Hget. apply in_map_iff. exists (Py.lower (Py.strip t), tpl). auto.
    + left. reflexivity.
Qed.




